(** * reqx: a fluent HTTP request builder and its response wrapper

    A shallow embedding of the Go package [reqx] and the properties its
    specification states. The repository holds two versions of each of
    its two source files; the later ones are embedded here:
    - the request builder of [reqx.go] (with [New], [WithContext],
      [WithTrace], [ParamsValues], [Headers], [Bearer] and the form mode of
      [Do]), in module [reqx];
    - the response wrapper whose [cacheBody] reads the raw body first,
      checks [resp.Uncompressed] and falls back from zlib to raw deflate,
      in module [response].
    Of the earlier ones, what differs is embedded beside them: the
    [cacheBody] that decodes from the body stream, in module
    [response_v1], and the [Do] and [DoCtx] without a form mode, in
    module [reqx_v1].

    Conventions.
    - A Go [string] is a [string] (a sequence of 8-bit characters), a
      [[]byte] is a [list byte]; the nil slice and the empty slice are
      both [[]].
    - A Go [error] is an [option error]: [None] is the nil error.
    - A Go map is a [gmap]; [http.Header] and [url.Values] are maps from
      strings to lists of strings.
    - Functions of the Go standard library that the package calls
      (compress/gzip, net/url, encoding/json, ...) are fields of one type
      class per imported package; every theorem holds for all of their
      behaviours, and the [Sample] module instantiates them for the
      worked examples.
    - A [*RequestBuilder] is an address in a heap of builders; a call that
      panics yields [Panicked], one that returns yields [Returned]. *)

From Stdlib Require Import ZArith.
From Stdlib.Strings Require Import String Ascii Byte.
From stdpp Require Import base option list gmap strings fin_maps pretty.

Local Open Scope Z_scope.

(* ===================================================================== *)
(** ** Errors, byte streams *)
(* ===================================================================== *)

(** Go error values. [External] is an error made outside the package (by
    a reader, a decoder, the transport ...); [Errorf] is the result of
    [fmt.Errorf(what + " (status=%d, content-encoding=%q)", ...)] of the
    response wrapper, and [ErrorfW] the same with a cause wrapped by a
    final [": %w"]. *)
Inductive error : Type :=
| External (msg : string)
| Errorf (what : string) (status : Z) (encoding : string)
| ErrorfW (what : string) (status : Z) (encoding : string) (cause : error).

(** An [io.Reader] seen from its consumer: the bytes it still delivers,
    and whether it then ends in EOF ([None]) or in an error. *)
Record Stream : Type := mkStream {
  pending : list byte;
  fault : option error
}.

(** [bytes.NewReader(b)] *)
Definition bytes_NewReader (b : list byte) : Stream :=
  {| pending := b; fault := None |}.

(** [io.ReadAll(r)] on a reader that is not shared: everything it
    delivers, with the error that ended it (nil on EOF). *)
Definition io_ReadAll (r : Stream) : list byte * option error :=
  (pending r, fault r).

(** An [io.ReadCloser] that is shared through a pointer (a response
    body): reading consumes it. [reads] counts the [io.ReadAll] calls made
    on it and [closed] records [Close]; neither exists in Go, they make
    the accesses to the stream observable. *)
Record ReadCloser : Type := mkReadCloser {
  source : Stream;
  reads : nat;
  closed : bool
}.

Definition ReadCloser_ReadAll (rc : ReadCloser)
  : list byte * option error * ReadCloser :=
  (io_ReadAll (source rc),
   {| source := {| pending := []; fault := fault (source rc) |};
      reads := S (reads rc);
      closed := closed rc |}).

Definition ReadCloser_Close (rc : ReadCloser) : ReadCloser :=
  {| source := source rc; reads := reads rc; closed := true |}.

(* ===================================================================== *)
(** ** The imported packages *)
(* ===================================================================== *)

(** package strings *)
Class Strings : Type := {
  TrimSpace : string → string;
  ToLower : string → string
}.

(** [strings.Index(s, ",")]: the offset of the first comma of [s]. *)
Fixpoint IndexComma (s : string) : option nat :=
  match s with
  | EmptyString => None
  | String c s' =>
      if Ascii.eqb c "," then Some 0%nat else S <$> IndexComma s'
  end.

(** package net/textproto. Canonical keys are fixed points of the
    canonicalization. *)
Class Textproto : Type := {
  CanonicalMIMEHeaderKey : string → string;
  CanonicalMIMEHeaderKey_idem :
    ∀ s, CanonicalMIMEHeaderKey (CanonicalMIMEHeaderKey s)
         = CanonicalMIMEHeaderKey s
}.

(** packages compress/gzip, compress/zlib and compress/flate. The two
    [NewReader]s that parse a header can fail; [flate.NewReader] cannot. *)
Class Compress : Type := {
  gzip_NewReader : Stream → error + Stream;
  zlib_NewReader : Stream → error + Stream;
  flate_NewReader : Stream → Stream
}.

(** package encoding/json. [GoValue] stands for the values passed as
    [interface{}]: the data to marshal, and the content of the variable
    that [Unmarshal] fills through its pointer argument. *)
Class EncodingJson : Type := {
  GoValue : Type;
  json_Marshal : GoValue → error + list byte;
  json_Unmarshal : list byte → GoValue → GoValue * option error
}.

(** package os, as far as the package uses it: a file system of regular
    files, some of whose paths cannot be written. *)
Record FileSystem : Type := mkFileSystem {
  files_of : gmap string (list byte);
  unwritable : gset string
}.

(** [os.Open(name)] followed by reads: the content of the file. *)
Definition os_Open (name : string) (fs : FileSystem) : error + Stream :=
  match files_of fs !! name with
  | Some content => inr (bytes_NewReader content)
  | None => inl (External "open: no such file or directory")
  end.

(** [os.WriteFile(name, data, 0644)] *)
Definition os_WriteFile (name : string) (data : list byte) (fs : FileSystem)
  : option error * FileSystem :=
  if decide (name ∈ unwritable fs)
  then (Some (External "open: permission denied"), fs)
  else (None, {| files_of := <[name := data]> (files_of fs);
                 unwritable := unwritable fs |}).

(* ===================================================================== *)
(** ** http.Header *)
(* ===================================================================== *)

Abbreviation http_Header := (gmap string (list string)).
Abbreviation url_Values := (gmap string (list string)).

Section header.
Context `{!Textproto}.

(** [h.Get(key)]: the first value under the canonical form of [key]. *)
Definition Header_Get (h : http_Header) (key : string) : string :=
  match h !! CanonicalMIMEHeaderKey key with
  | Some (v :: _) => v
  | _ => ""
  end.

(** [h.Set(key, value)] *)
Definition Header_Set (h : http_Header) (key value : string) : http_Header :=
  <[CanonicalMIMEHeaderKey key := [value]]> h.

(** [h.Add(key, value)] *)
Definition Header_Add (h : http_Header) (key value : string) : http_Header :=
  <[CanonicalMIMEHeaderKey key :=
      default [] (h !! CanonicalMIMEHeaderKey key) ++ [value]]> h.

End header.

(* ===================================================================== *)
(** ** The response wrapper *)
(* ===================================================================== *)

(** The fields of [http.Response] that the package reads. *)
Record HttpResponse : Type := mkHttpResponse {
  StatusCode : Z;
  Status : string;
  Header : http_Header;
  Body : ReadCloser;
  Uncompressed : bool
}.

Definition with_Body (h : HttpResponse) (b : ReadCloser) : HttpResponse :=
  {| StatusCode := StatusCode h; Status := Status h;
     Header := Header h; Body := b;
     Uncompressed := Uncompressed h |}.

Module response.

(** [type Response struct { resp; body; once; readErr }]; [once] is the
    [done] flag of the [sync.Once]. *)
Record Response : Type := mkResponse {
  resp : HttpResponse;
  body : list byte;
  once : bool;
  readErr : option error
}.

(** [&Response{resp: r}], as [Do] builds it. *)
Definition newResponse (r : HttpResponse) : Response :=
  {| resp := r; body := []; once := false; readErr := None |}.

(** Field assignments through the receiver. *)
Definition set_resp (r : Response) (h : HttpResponse) : Response :=
  {| resp := h; body := body r; once := once r; readErr := readErr r |}.
Definition set_body (r : Response) (b : list byte) : Response :=
  {| resp := resp r; body := b; once := once r; readErr := readErr r |}.
Definition set_readErr (r : Response) (e : option error) : Response :=
  {| resp := resp r; body := body r; once := once r; readErr := e |}.
Definition set_once (r : Response) : Response :=
  {| resp := resp r; body := body r; once := true; readErr := readErr r |}.

Section wrapper.
Context `{!Strings, !Textproto, !Compress, !EncodingJson}.

(** The encoding the [switch] of [cacheBody] selects on: the header value
    trimmed and lower-cased, cut at its first comma and trimmed again. *)
Definition selectedEncoding (encodings : string) : string :=
  let enc := ToLower encodings in
  match IndexComma enc with
  | Some i => TrimSpace (substring 0 i enc)
  | None => enc
  end.

(** The function passed to [r.once.Do] in [cacheBody]. The deferred
    [reader.Close()] runs on every path, so it is applied right after the
    read; the deferred [Close] of the decoders has no effect here. *)
Definition cacheBody_once (r : Response) : Response :=
  let '(raw, err, reader) := ReadCloser_ReadAll (Body (resp r)) in
  let r := set_resp r (with_Body (resp r) (ReadCloser_Close reader)) in
  let status := StatusCode (resp r) in
  match err with
  | Some e =>
      set_readErr r
        (Some (ErrorfW "read raw body failed" status
                 (Header_Get (Header (resp r)) "Content-Encoding") e))
  | None =>
    if Uncompressed (resp r) then set_readErr (set_body r raw) None
    else
      let encodings :=
        TrimSpace (Header_Get (Header (resp r)) "Content-Encoding") in
      let enc := selectedEncoding encodings in
      if String.eqb enc "gzip" then
        match gzip_NewReader (bytes_NewReader raw) with
        | inl e =>
            set_body
              (set_readErr r
                 (Some (ErrorfW "gzip.NewReader failed" status encodings e)))
              raw
        | inr gr =>
            match io_ReadAll gr with
            | (_, Some derr) =>
                set_body
                  (set_readErr r
                     (Some (ErrorfW "read gzip body failed" status encodings derr)))
                  raw
            | (dec, None) => set_readErr (set_body r dec) None
            end
        end
      else if String.eqb enc "deflate" then
        let fallback (r : Response) : Response :=
          let fr := flate_NewReader (bytes_NewReader raw) in
          match io_ReadAll fr with
          | (dec, None) => set_readErr (set_body r dec) None
          | (_, Some _) =>
              set_body
                (set_readErr r
                   (Some (Errorf "read deflate(raw) body failed" status encodings)))
                raw
          end in
        match zlib_NewReader (bytes_NewReader raw) with
        | inr zr =>
            match io_ReadAll zr with
            | (dec, None) => set_readErr (set_body r dec) None
            | (_, Some derr) =>
                fallback
                  (set_readErr r
                     (Some (ErrorfW "read deflate(zlib) body failed" status
                              encodings derr)))
            end
        | inl _ => fallback r
        end
      else if String.eqb enc "br" then
        match io_ReadAll (bytes_NewReader raw) with
        | (_, Some derr) =>
            set_body
              (set_readErr r
                 (Some (ErrorfW "read br body failed" status encodings derr)))
              raw
        | (dec, None) => set_readErr (set_body r dec) None
        end
      else set_readErr (set_body r raw) None
  end.

(** [func (r *Response) cacheBody()]: [r.once.Do(...)]. *)
Definition cacheBody (r : Response) : Response :=
  if once r then r else set_once (cacheBody_once r).

(** [func (r *Response) Bytes() ([]byte, error)] *)
Definition Bytes (r : Response) : (list byte * option error) * Response :=
  let r := cacheBody r in
  ((body r, readErr r), r).

(** [func (r *Response) String() (string, error)] *)
Definition String_ (r : Response) : (string * option error) * Response :=
  let r := cacheBody r in
  ((string_of_list_byte (body r), readErr r), r).

(** [func (r *Response) Json(v interface{}) error]; the second component
    is the content of [*v] afterwards. *)
Definition Json (v : GoValue) (r : Response)
  : (option error * GoValue) * Response :=
  let r := cacheBody r in
  match readErr r with
  | Some e => ((Some e, v), r)
  | None =>
      let '(v', e) := json_Unmarshal (body r) v in
      ((e, v'), r)
  end.

(** [func (r *Response) ToFile(filename string) error] *)
Definition ToFile (filename : string) (r : Response) (fs : FileSystem)
  : option error * FileSystem :=
  match readErr r with
  | Some e => (Some e, fs)
  | None => os_WriteFile "continue.html" (body r) fs
  end.

(** [func (r *Response) Status() int], [StatusText() string],
    [Raw() *http.Response] and [IsOK() bool] *)
Definition Status_ (r : Response) : Z := StatusCode (resp r).
Definition StatusText (r : Response) : string := Status (resp r).
Definition Raw (r : Response) : HttpResponse := resp r.
Definition IsOK (r : Response) : bool := Z.eqb (StatusCode (resp r)) 200.

(** *** Sequences of body-reading calls *)

Inductive ReadCall : Type :=
| CallBytes
| CallString
| CallJson (v : GoValue).

Inductive ReadResult : Type :=
| GotBytes (b : list byte) (err : option error)
| GotString (s : string) (err : option error)
| GotJson (err : option error) (v : GoValue).

Definition perform (c : ReadCall) (r : Response) : ReadResult * Response :=
  match c with
  | CallBytes => let '((b, e), r) := Bytes r in (GotBytes b e, r)
  | CallString => let '((s, e), r) := String_ r in (GotString s e, r)
  | CallJson v => let '((e, v), r) := Json v r in (GotJson e v, r)
  end.

Fixpoint performAll (calls : list ReadCall) (r : Response)
  : list ReadResult * Response :=
  match calls with
  | [] => ([], r)
  | c :: rest =>
      let '(x, r) := perform c r in
      let '(xs, r) := performAll rest r in
      (x :: xs, r)
  end.

(** *** The words of the specification *)

(** What a call returns when it only looks at the cache: the cached
    bytes and the cached error; for [Json] the cached error when there is
    one, and otherwise the outcome of unmarshalling the cached bytes. *)
Definition fromCache (r : Response) (c : ReadCall) : ReadResult :=
  match c with
  | CallBytes => GotBytes (body r) (readErr r)
  | CallString => GotString (string_of_list_byte (body r)) (readErr r)
  | CallJson v =>
      match readErr r with
      | Some e => GotJson (Some e) v
      | None => let '(v', e) := json_Unmarshal (body r) v in GotJson e v'
      end
  end.

(** Decompression of a whole slice: create the reader, read it to the
    end. *)
Definition readDecoded (r : error + Stream) : error + list byte :=
  match r with
  | inl e => inl e
  | inr s =>
      match io_ReadAll s with
      | (dec, None) => inr dec
      | (_, Some e) => inl e
      end
  end.
Definition gunzip (raw : list byte) : error + list byte :=
  readDecoded (gzip_NewReader (bytes_NewReader raw)).
Definition zlibInflate (raw : list byte) : error + list byte :=
  readDecoded (zlib_NewReader (bytes_NewReader raw)).
Definition rawInflate (raw : list byte) : error + list byte :=
  readDecoded (inr (flate_NewReader (bytes_NewReader raw))).

(** The declared encoding of a response, as [cacheBody] reads it. *)
Definition declaredEncoding (h : HttpResponse) : string :=
  selectedEncoding (TrimSpace (Header_Get (Header h) "Content-Encoding")).

(** The bytes the body stream of a response delivers. *)
Definition rawBytes (r : Response) : list byte :=
  pending (source (Body (resp r))).

(** "The body-decoding step selects by the declared Content-Encoding":
    the decompressed bytes are cached under gzip; under deflate those of
    the zlib reader and, when it fails, those of the raw deflate reader;
    the raw bytes under br and under anything else. *)
Definition decodedByEncoding (r : Response) : Prop :=
  let enc := declaredEncoding (resp r) in
  let raw := rawBytes r in
  let cached := body (cacheBody r) in
  (enc = "gzip" → ∀ dec, gunzip raw = inr dec → cached = dec)
  ∧ (enc = "deflate" →
       (∀ dec, zlibInflate raw = inr dec → cached = dec)
       ∧ (∀ e dec, zlibInflate raw = inl e → rawInflate raw = inr dec →
            cached = dec))
  ∧ (enc = "br" → cached = raw)
  ∧ (enc ≠ "gzip" → enc ≠ "deflate" → enc ≠ "br" → cached = raw).

(** "Body decompression fails": a decoder was selected and run on the raw
    bytes, and none of those tried succeeded. *)
Definition decompressionFails (r : Response) : Prop :=
  once r = false
  ∧ fault (source (Body (resp r))) = None
  ∧ Uncompressed (resp r) = false
  ∧ ((declaredEncoding (resp r) = "gzip" ∧ ∃ e, gunzip (rawBytes r) = inl e)
     ∨ (declaredEncoding (resp r) = "deflate"
        ∧ (∃ e, zlibInflate (rawBytes r) = inl e)
        ∧ ∃ e, rawInflate (rawBytes r) = inl e)).

End wrapper.

End response.

(* ===================================================================== *)
(** ** The response wrapper, earlier version *)
(* ===================================================================== *)

(** The earlier [cacheBody] decodes from the stream of the body itself
    instead of reading it whole first. [Response] and the methods around
    [cacheBody] are those of the later version. *)
Module response_v1.
Import response.

Section wrapper.
Context `{!Strings, !Textproto, !Compress, !EncodingJson}.

(** [r.body, r.readErr = io.ReadAll(reader)] *)
Definition readInto (r : Response) (reader : Stream) : Response :=
  let '(data, err) := io_ReadAll reader in
  set_readErr (set_body r data) err.

(** The function passed to [r.once.Do] in [cacheBody]. Whoever reads the
    body, [io.ReadAll] or a decoder, is handed its stream, and that counts
    as the one read of it; what a decoder that failed on the header has
    left unread is not kept, since the deferred [reader.Close()] runs on
    every path and nothing reads the body afterwards. *)
Definition cacheBody_once (r : Response) : Response :=
  let reader := source (Body (resp r)) in
  let r :=
    set_resp r
      (with_Body (resp r)
         (ReadCloser_Close (ReadCloser_ReadAll (Body (resp r))).2)) in
  let encoding :=
    ToLower (TrimSpace (Header_Get (Header (resp r)) "Content-Encoding")) in
  if String.eqb encoding "gzip" then
    match gzip_NewReader reader with
    | inl err => set_readErr r (Some err)
    | inr gz => readInto r gz
    end
  else if String.eqb encoding "deflate" then
    match zlib_NewReader reader with
    | inl err => set_readErr r (Some err)
    | inr zr => readInto r zr
    end
  else if String.eqb encoding "br" then readInto r reader
  else readInto r reader.

(** [func (r *Response) cacheBody()] *)
Definition cacheBody (r : Response) : Response :=
  if once r then r else set_once (cacheBody_once r).

(** [func (r *Response) Bytes() ([]byte, error)] *)
Definition Bytes (r : Response) : (list byte * option error) * Response :=
  let r := cacheBody r in
  ((body r, readErr r), r).

(** [func (r *Response) String() (string, error)] *)
Definition String_ (r : Response) : (string * option error) * Response :=
  let r := cacheBody r in
  ((string_of_list_byte (body r), readErr r), r).

(** [func (r *Response) Json(v interface{}) error] *)
Definition Json (v : GoValue) (r : Response)
  : (option error * GoValue) * Response :=
  let r := cacheBody r in
  match readErr r with
  | Some e => ((Some e, v), r)
  | None =>
      let '(v', e) := json_Unmarshal (body r) v in
      ((e, v'), r)
  end.

End wrapper.

End response_v1.

(* ===================================================================== *)
(** ** More imported packages: what the request builder calls *)
(* ===================================================================== *)

(** package net/url. [url_Parse] is [url.Parse] without its error: [None]
    is the nil [*URL] it returns beside one. *)
Class NetUrl : Type := {
  url_URL : Type;
  url_Parse : string → option url_URL;
  URL_set_RawQuery : url_URL → string → url_URL;
  URL_String : url_URL → string;
  Values_Encode : url_Values → string
}.

(** [v.Set(key, value)] and [v.Add(key, value)] of [url.Values] *)
Definition Values_Set (v : url_Values) (key value : string) : url_Values :=
  <[key := [value]]> v.
Definition Values_Add (v : url_Values) (key value : string) : url_Values :=
  <[key := default [] (v !! key) ++ [value]]> v.

(** package path/filepath *)
Class PathFilepath : Type := {
  filepath_Base : string → string
}.

(** What a [multipart.Writer] has been given, in the order of the calls:
    [CreateFormFile] followed by the copy of the content, [WriteField]. *)
Inductive Part : Type :=
| FormFile (fieldname filename : string) (content : list byte)
| FormField (fieldname value : string).

(** package mime/multipart. [randomBoundary n] is the boundary that the
    [n]-th writer of the process draws; [multipart_encode] is what a closed
    writer has put in its buffer. *)
Class MimeMultipart : Type := {
  randomBoundary : nat → string;
  FormDataContentType : string → string;
  multipart_encode : string → list Part → list byte
}.

(** packages context and net/http/httptrace *)
Class ContextPkg : Type := {
  GoContext : Type;
  ClientTrace : Type;
  context_Background : GoContext;
  httptrace_WithClientTrace : GoContext → ClientTrace → GoContext
}.

(** An [*http.Request], by what it was made from: the arguments of
    [http.NewRequestWithContext] and the header filled afterwards. *)
Record Request `{!ContextPkg} : Type := mkRequest {
  req_ctx : option GoContext;
  req_method : string;
  req_url : string;
  req_body : option Stream;
  req_header : http_Header
}.

(** package net/http. [NewRequest_check] is the error of
    [http.NewRequestWithContext] (invalid method, nil context, URL that
    does not parse), [defaultClient] is [&http.Client{}], and [Client_Do]
    is [c.Do(req)], whose response counts only when its error is nil. *)
Class NetHttp `{!ContextPkg} : Type := {
  Client : Type;
  NewRequest_check : option GoContext → string → string → option error;
  defaultClient : Client;
  Client_Do : Client → Request → error + HttpResponse
}.

(** The order in which [for k, v := range m] visits a map: unspecified in
    Go, so any enumeration of the entries. *)
Class MapRange : Type := {
  map_range : ∀ {A : Type}, gmap string A → list (string * A);
  map_range_perm :
    ∀ (A : Type) (m : gmap string A), map_range m ≡ₚ map_to_list m
}.

(* ===================================================================== *)
(** ** The request builder *)
(* ===================================================================== *)

Module reqx.

(** A [*RequestBuilder] is an address of the heap. Address [0] is never
    allocated and stands for nil; reading through an address that is not
    allocated panics like a nil dereference. *)
Abbreviation ptr := nat.

Section builder.
Context `{!Strings, !Textproto, !EncodingJson, !NetUrl, !PathFilepath,
          !MimeMultipart, !ContextPkg, !NetHttp, !MapRange}.

(** [type multipartFile struct { FileName; Reader }] *)
Record multipartFile : Type := mkMultipartFile {
  FileName : string;
  Reader : Stream
}.

(** [type RequestBuilder struct]. [ctx], [body] and [trace] can be nil.
    The four maps are allocated, as [New] and [Method] leave them. *)
Record RequestBuilder : Type := mkRequestBuilder {
  ctx : option GoContext;
  method : string;
  url : string;
  params : url_Values;
  headers : http_Header;
  body : option Stream;
  isJSON : bool;
  isMultipart : bool;
  files : gmap string multipartFile;
  formFields : gmap string string;
  trace : option ClientTrace
}.

(** Assignments to one field. *)
Definition set_ctx (v : option GoContext) (b : RequestBuilder) :=
  mkRequestBuilder v (method b) (url b) (params b) (headers b) (body b)
    (isJSON b) (isMultipart b) (files b) (formFields b) (trace b).
Definition set_method (v : string) (b : RequestBuilder) :=
  mkRequestBuilder (ctx b) v (url b) (params b) (headers b) (body b)
    (isJSON b) (isMultipart b) (files b) (formFields b) (trace b).
Definition set_url (v : string) (b : RequestBuilder) :=
  mkRequestBuilder (ctx b) (method b) v (params b) (headers b) (body b)
    (isJSON b) (isMultipart b) (files b) (formFields b) (trace b).
Definition set_params (v : url_Values) (b : RequestBuilder) :=
  mkRequestBuilder (ctx b) (method b) (url b) v (headers b) (body b)
    (isJSON b) (isMultipart b) (files b) (formFields b) (trace b).
Definition set_headers (v : http_Header) (b : RequestBuilder) :=
  mkRequestBuilder (ctx b) (method b) (url b) (params b) v (body b)
    (isJSON b) (isMultipart b) (files b) (formFields b) (trace b).
Definition set_body (v : option Stream) (b : RequestBuilder) :=
  mkRequestBuilder (ctx b) (method b) (url b) (params b) (headers b) v
    (isJSON b) (isMultipart b) (files b) (formFields b) (trace b).
Definition set_isJSON (v : bool) (b : RequestBuilder) :=
  mkRequestBuilder (ctx b) (method b) (url b) (params b) (headers b) (body b)
    v (isMultipart b) (files b) (formFields b) (trace b).
Definition set_isMultipart (v : bool) (b : RequestBuilder) :=
  mkRequestBuilder (ctx b) (method b) (url b) (params b) (headers b) (body b)
    (isJSON b) v (files b) (formFields b) (trace b).
Definition set_files (v : gmap string multipartFile) (b : RequestBuilder) :=
  mkRequestBuilder (ctx b) (method b) (url b) (params b) (headers b) (body b)
    (isJSON b) (isMultipart b) v (formFields b) (trace b).
Definition set_formFields (v : gmap string string) (b : RequestBuilder) :=
  mkRequestBuilder (ctx b) (method b) (url b) (params b) (headers b) (body b)
    (isJSON b) (isMultipart b) (files b) v (trace b).
Definition set_trace (v : option ClientTrace) (b : RequestBuilder) :=
  mkRequestBuilder (ctx b) (method b) (url b) (params b) (headers b) (body b)
    (isJSON b) (isMultipart b) (files b) (formFields b) v.

(** *** The state of the process *)

(** The heap of builders, the file system, standard output, the two
    package variables [globalClient] and [globalClientOnce], the number of
    multipart writers created, and the requests handed to clients (oldest
    first; not in Go, it makes the delegation observable). *)
Record World : Type := mkWorld {
  heap : gmap ptr RequestBuilder;
  fs : FileSystem;
  stdout : list string;
  globalClient : option Client;
  globalClientOnce : bool;
  writers : nat;
  sent : list (Client * Request)
}.

Definition set_heap (h : gmap ptr RequestBuilder) (w : World) : World :=
  mkWorld h (fs w) (stdout w) (globalClient w) (globalClientOnce w)
    (writers w) (sent w).

(** The value a panic carries: a message followed by the text of an
    error, or a run-time error. *)
Inductive PanicValue : Type :=
| PanicMsg (msg : string) (err : error)
| NilDereference.

Inductive outcome (A : Type) : Type :=
| Returned (a : A) (w : World)
| Panicked (v : PanicValue) (w : World).
Global Arguments Returned {A} a w.
Global Arguments Panicked {A} v w.

(** Computations on the state of the process that return or panic. *)
Definition M (A : Type) : Type := World → outcome A.

Global Instance M_ret : MRet M := λ A a w, Returned a w.
Global Instance M_bind : MBind M := λ A B f m w,
  match m w with
  | Returned a w' => f a w'
  | Panicked v w' => Panicked v w'
  end.

Definition panic {A : Type} (v : PanicValue) : M A := λ w, Panicked v w.

(** Reading through the pointer [rb]. *)
Definition deref (rb : ptr) : M RequestBuilder := λ w,
  match heap w !! rb with
  | Some b => Returned b w
  | None => Panicked NilDereference w
  end.

(** A group of assignments [rb.field = ...] to fields of [rb]. *)
Definition update (rb : ptr) (f : RequestBuilder → RequestBuilder) : M unit :=
  λ w,
  match heap w !! rb with
  | Some b => Returned () (set_heap (<[rb := f b]> (heap w)) w)
  | None => Panicked NilDereference w
  end.

(** [&RequestBuilder{...}] *)
Definition alloc (b : RequestBuilder) : M ptr := λ w,
  let rb := fresh ({[0%nat]} ∪ dom (heap w)) in
  Returned rb (set_heap (<[rb := b]> (heap w)) w).

(** [fmt.Println(s)] *)
Definition Println (s : string) : M unit := λ w,
  Returned ()
    (mkWorld (heap w) (fs w) (stdout w ++ [s]) (globalClient w)
       (globalClientOnce w) (writers w) (sent w)).

(** [func getGlobalClient() *http.Client] *)
Definition getGlobalClient : M (option Client) := λ w,
  let w :=
    if globalClientOnce w then w
    else mkWorld (heap w) (fs w) (stdout w) (Some defaultClient) true
           (writers w) (sent w) in
  Returned (globalClient w) w.

(** *** Constructors *)

(** [func New() *RequestBuilder] *)
Definition New : M ptr :=
  alloc {| ctx := Some context_Background; method := "GET"; url := "";
           params := ∅; headers := ∅; body := None; isJSON := false;
           isMultipart := false; files := ∅; formFields := ∅;
           trace := None |}.

(** [func Method(method string, urlStr ...string) *RequestBuilder] *)
Definition Method (method : string) (urlStr : list string) : M ptr :=
  let u := match urlStr with u :: _ => u | [] => "" end in
  alloc {| ctx := Some context_Background; method := method; url := u;
           params := ∅; headers := ∅; body := None; isJSON := false;
           isMultipart := false; files := ∅; formFields := ∅;
           trace := None |}.

Definition Get (urlStr : list string) : M ptr := Method "GET" urlStr.
Definition Post (urlStr : list string) : M ptr := Method "POST" urlStr.
Definition Put (urlStr : list string) : M ptr := Method "PUT" urlStr.
Definition Delete (urlStr : list string) : M ptr := Method "DELETE" urlStr.
Definition Patch (urlStr : list string) : M ptr := Method "PATCH" urlStr.

(** *** Chained configuration calls *)

(** [func (rb *RequestBuilder) WithContext(ctx context.Context)] *)
Definition WithContext (c : option GoContext) (rb : ptr) : M ptr :=
  update rb (set_ctx c);; mret rb.

(** [func (rb *RequestBuilder) Method(method string)]; named [SetMethod]
    here, [Method] being the constructor above. *)
Definition SetMethod (m : string) (rb : ptr) : M ptr :=
  update rb (set_method m);; mret rb.

(** [func (rb *RequestBuilder) URL(u string)] *)
Definition URL (u : string) (rb : ptr) : M ptr :=
  update rb (set_url u);; mret rb.

(** The loops of [ParamsValues]: [rb.params.Add(k, v)] for every value
    [v] of every key [k], keys in the order of [range]. *)
Definition addValues (values : list (string * list string)) (p : url_Values)
  : url_Values :=
  foldl (λ p kvs, foldl (λ p v, Values_Add p kvs.1 v) p kvs.2) p values.

(** [func (rb *RequestBuilder) ParamsValues(values url.Values)] *)
Definition ParamsValues (values : url_Values) (rb : ptr) : M ptr :=
  update rb (λ b, set_params (addValues (map_range values) (params b)) b);;
  mret rb.

(** The loop of [Params]: [rb.params.Set(k, v)] for every entry. *)
Definition setValues (entries : list (string * string)) (p : url_Values)
  : url_Values :=
  foldl (λ p kv, Values_Set p kv.1 kv.2) p entries.

(** [func (rb *RequestBuilder) Params(params map[string]string)] *)
Definition Params (ps : gmap string string) (rb : ptr) : M ptr :=
  update rb (λ b, set_params (setValues (map_range ps) (params b)) b);;
  mret rb.

(** [func (rb *RequestBuilder) Param(key, value string)] *)
Definition Param (key value : string) (rb : ptr) : M ptr :=
  update rb (λ b, set_params (Values_Set (params b) key value) b);;
  mret rb.

(** [func (rb *RequestBuilder) Header(key, value string)] *)
Definition Header (key value : string) (rb : ptr) : M ptr :=
  update rb (λ b, set_headers (Header_Set (headers b) key value) b);;
  mret rb.

(** The loop of [Headers]: [i] advances by two over [pairs], which has an
    even length there. *)
Fixpoint setPairs (pairs : list string) (h : http_Header) : http_Header :=
  match pairs with
  | k :: v :: rest => setPairs rest (Header_Set h (TrimSpace k) (TrimSpace v))
  | _ => h
  end.

(** [func (rb *RequestBuilder) Headers(pairs ...string)] *)
Definition Headers (pairs : list string) (rb : ptr) : M ptr :=
  if Nat.eqb (length pairs mod 2) 0
  then update rb (λ b, set_headers (setPairs pairs (headers b)) b);; mret rb
  else Println "Número de argumentos debe ser par";; mret rb.

(** [func (rb *RequestBuilder) IsJSON()] *)
Definition IsJSON (rb : ptr) : M ptr :=
  update rb (set_isJSON true);; mret rb.

(** [func (rb *RequestBuilder) Bearer(token string)] *)
Definition Bearer (token : string) (rb : ptr) : M ptr :=
  update rb (λ b,
    set_headers (Header_Set (headers b) "Authorization" ("Bearer " +:+ token)) b);;
  mret rb.

(** [func (rb *RequestBuilder) Body(b []byte)] *)
Definition Body (data : list byte) (rb : ptr) : M ptr :=
  update rb (λ b,
    set_isMultipart false
      (set_isJSON false (set_body (Some (bytes_NewReader data)) b)));;
  mret rb.

(** [func (rb *RequestBuilder) Json(data interface{})] *)
Definition Json (data : GoValue) (rb : ptr) : M ptr :=
  match json_Marshal data with
  | inl err => panic (PanicMsg "Error serializando JSON: " err)
  | inr buf =>
      update rb (λ b,
        set_isMultipart false
          (set_isJSON true (set_body (Some (bytes_NewReader buf)) b)));;
      mret rb
  end.

(** The loop of [Form]: [rb.formFields[k] = v] for every entry. *)
Definition setFields (entries : list (string * string))
    (f : gmap string string) : gmap string string :=
  foldl (λ f kv, <[kv.1 := kv.2]> f) f entries.

(** [func (rb *RequestBuilder) Form(fields map[string]string)] *)
Definition Form (fields : gmap string string) (rb : ptr) : M ptr :=
  update rb (λ b,
    set_formFields (setFields (map_range fields) (formFields b)) b);;
  mret rb.

(** The three assignments that end [File], [FileBytes] and [FileReader]. *)
Definition attach (fieldname : string) (f : multipartFile)
    (b : RequestBuilder) : RequestBuilder :=
  set_isJSON false
    (set_isMultipart true (set_files (<[fieldname := f]> (files b)) b)).

(** [os.Open(name)] in the file system of the process. *)
Definition Open (name : string) : M (error + Stream) := λ w,
  Returned (os_Open name (fs w)) w.

(** [func (rb *RequestBuilder) File(fieldname, filepathStr string)] *)
Definition File (fieldname filepathStr : string) (rb : ptr) : M ptr :=
  file ← Open filepathStr;
  match file with
  | inl err => panic (PanicMsg "No se pudo abrir archivo: " err)
  | inr file =>
      update rb
        (attach fieldname
           {| FileName := filepath_Base filepathStr; Reader := file |});;
      mret rb
  end.

(** [func (rb *RequestBuilder) FileBytes(fieldname, filename string, data []byte)] *)
Definition FileBytes (fieldname filename : string) (data : list byte)
    (rb : ptr) : M ptr :=
  update rb
    (attach fieldname
       {| FileName := filename; Reader := bytes_NewReader data |});;
  mret rb.

(** [func (rb *RequestBuilder) FileReader(fieldname, filename string, reader io.Reader)] *)
Definition FileReader (fieldname filename : string) (reader : Stream)
    (rb : ptr) : M ptr :=
  update rb (attach fieldname {| FileName := filename; Reader := reader |});;
  mret rb.

(** [func (rb *RequestBuilder) WithTrace(trace *httptrace.ClientTrace)] *)
Definition WithTrace (t : option ClientTrace) (rb : ptr) : M ptr :=
  update rb (set_trace t);; mret rb.

(** *** Chains of calls *)

(** One chained configuration call with its arguments. *)
Inductive Call : Type :=
| CallMethod (m : string)
| CallURL (u : string)
| CallParam (key value : string)
| CallParams (ps : gmap string string)
| CallParamsValues (values : url_Values)
| CallHeader (key value : string)
| CallHeaders (pairs : list string)
| CallBearer (token : string)
| CallIsJSON
| CallBody (data : list byte)
| CallJson (data : GoValue)
| CallForm (fields : gmap string string)
| CallFile (fieldname filepathStr : string)
| CallFileBytes (fieldname filename : string) (data : list byte)
| CallFileReader (fieldname filename : string) (reader : Stream)
| CallWithContext (c : option GoContext)
| CallWithTrace (t : option ClientTrace).

(** [rb.call] *)
Definition invoke (c : Call) (rb : ptr) : M ptr :=
  match c with
  | CallMethod m => SetMethod m rb
  | CallURL u => URL u rb
  | CallParam k v => Param k v rb
  | CallParams ps => Params ps rb
  | CallParamsValues vs => ParamsValues vs rb
  | CallHeader k v => Header k v rb
  | CallHeaders pairs => Headers pairs rb
  | CallBearer token => Bearer token rb
  | CallIsJSON => IsJSON rb
  | CallBody data => Body data rb
  | CallJson data => Json data rb
  | CallForm fields => Form fields rb
  | CallFile f p => File f p rb
  | CallFileBytes f n data => FileBytes f n data rb
  | CallFileReader f n r => FileReader f n r rb
  | CallWithContext c => WithContext c rb
  | CallWithTrace t => WithTrace t rb
  end.

(** [rb.call1.call2. ... .calln]: each call on the result of the one
    before. *)
Fixpoint chain (calls : list Call) (rb : ptr) : M ptr :=
  match calls with
  | [] => mret rb
  | c :: rest => rb' ← invoke c rb; chain rest rb'
  end.

(** *** Execution *)

(** [multipart.NewWriter(&bodyBuf)]: the boundary the new writer drew. *)
Definition NewWriter : M string := λ w,
  Returned (randomBoundary (writers w))
    (mkWorld (heap w) (fs w) (stdout w) (globalClient w)
       (globalClientOnce w) (S (writers w)) (sent w)).

(** The loop of [Do] over [rb.files]. [writer.CreateFormFile] writes to a
    [bytes.Buffer] and returns no error; [io.Copy(part, mfile.Reader)]
    returns the error of the reader, on which [Do] returns at once. The
    [Close] of readers that are files has no effect on what follows. *)
Fixpoint copyFiles (entries : list (string * multipartFile))
    (written : list Part) : error + list Part :=
  match entries with
  | [] => inr written
  | (field, mfile) :: rest =>
      match io_ReadAll (Reader mfile) with
      | (_, Some err) => inl err
      | (content, None) =>
          copyFiles rest (written ++ [FormFile field (FileName mfile) content])
      end
  end.

(** [http.NewRequestWithContext(ctx, method, url, body)] *)
Definition http_NewRequestWithContext (c : option GoContext)
    (method url : string) (body : option Stream) : error + Request :=
  match NewRequest_check c method url with
  | Some err => inl err
  | None =>
      inr {| req_ctx := c; req_method := method; req_url := url;
             req_body := body; req_header := ∅ |}
  end.

(** The loops of [Do] over [rb.headers]: [req.Header.Add(k, v)]. *)
Definition addHeaders (entries : list (string * list string))
    (h : http_Header) : http_Header :=
  foldl (λ h kvs, foldl (λ h v, Header_Add h kvs.1 v) h kvs.2) h entries.

Definition with_header (req : Request) (h : http_Header) : Request :=
  {| req_ctx := req_ctx req; req_method := req_method req;
     req_url := req_url req; req_body := req_body req; req_header := h |}.

(** [c.Do(req)] on a client that is not nil. *)
Definition send (c : Client) (req : Request) : M (error + HttpResponse) :=
  λ w,
  Returned (Client_Do c req)
    (mkWorld (heap w) (fs w) (stdout w) (globalClient w)
       (globalClientOnce w) (writers w) (sent w ++ [(c, req)])).

(** The body modes of [Do]: the three branches of its [if] chain, and
    none of them. *)
Inductive BodyMode : Type := Multipart | JSON | FormFields | Raw.

(** The conditions of the [if] chain of [Do], in its order. *)
Definition activeMode (b : RequestBuilder) : BodyMode :=
  if isMultipart b && bool_decide (0 < size (files b))%nat then Multipart
  else if isJSON b then JSON
  else if bool_decide (0 < size (formFields b))%nat then FormFields
  else Raw.

(** The [if] chain of [Do]: it serializes the body and sets the
    [Content-Type] of the builder; the result is the error on which [Do]
    returns early, if any. *)
Definition serializeBody (rb : ptr) : M (option error) :=
  b ← deref rb;
  if isMultipart b && bool_decide (0 < size (files b))%nat then
    boundary ← NewWriter;
    match copyFiles (map_range (files b)) [] with
    | inl err => mret (Some err)
    | inr written =>
        let written :=
          written
          ++ ((λ kv, FormField kv.1 kv.2) <$> map_range (formFields b)) in
        update rb (λ b,
          set_headers
            (Header_Set (headers b) "Content-Type"
               (FormDataContentType boundary))
            (set_body
               (Some (bytes_NewReader (multipart_encode boundary written))) b));;
        mret None
    end
  else if isJSON b then
    update rb (λ b,
      set_headers (Header_Set (headers b) "Content-Type" "application/json") b);;
    mret None
  else if bool_decide (0 < size (formFields b))%nat then
    let form := setValues (map_range (formFields b)) ∅ in
    update rb (λ b,
      set_headers
        (Header_Set (headers b) "Content-Type"
           "application/x-www-form-urlencoded")
        (set_body
           (Some (bytes_NewReader
                    (list_byte_of_string (Values_Encode form)))) b));;
    mret None
  else mret None.

(** [func (rb *RequestBuilder) Do(client ...*http.Client)], which returns
    a [*Response] and an [error]. [u] is nil when [rb.url] does not parse, and then both uses of [u]
    dereference nil. *)
Definition Do (rb : ptr) (client : list (option Client))
  : M (option response.Response * option error) :=
  b ← deref rb;
  let u := url_Parse (url b) in
  u ← (if bool_decide (0 < size (params b))%nat then
         match u with
         | None => panic NilDereference
         | Some u => mret (Some (URL_set_RawQuery u (Values_Encode (params b))))
         end
       else mret u);
  err ← serializeBody rb;
  match err with
  | Some err => mret (None, Some err)
  | None =>
      b ← deref rb;
      reqCtx ← match trace b with
               | Some t =>
                   match ctx b with
                   | None => panic NilDereference
                   | Some c => mret (Some (httptrace_WithClientTrace c t))
                   end
               | None => mret (ctx b)
               end;
      u ← match u with
          | None => panic NilDereference
          | Some u => mret (URL_String u)
          end;
      match http_NewRequestWithContext reqCtx (method b) u (body b) with
      | inl err => mret (None, Some err)
      | inr req =>
          let req :=
            with_header req
              (addHeaders (map_range (headers b)) (req_header req)) in
          c ← match client with
              | Some c :: _ => mret (Some c)
              | _ => getGlobalClient
              end;
          match c with
          | None => panic NilDereference
          | Some c =>
              r ← send c req;
              match r with
              | inl err => mret (None, Some err)
              | inr r => mret (Some (response.newResponse r), None)
              end
          end
      end
  end.

(** *** The words of the specification *)

(** The body-configuring calls. *)
Definition isBodyCall (c : Call) : bool :=
  match c with
  | CallBody _ | CallJson _ | CallForm _ | CallFile _ _
  | CallFileBytes _ _ _ | CallFileReader _ _ _ => true
  | _ => false
  end.

Definition attachesFile (c : Call) : bool :=
  match c with
  | CallFile _ _ | CallFileBytes _ _ _ | CallFileReader _ _ _ => true
  | _ => false
  end.

(** The mode a body-configuring call selects, in the words of the
    specification. *)
Definition selects (c : Call) : option BodyMode :=
  match c with
  | CallBody _ => Some Raw
  | CallJson _ => Some JSON
  | CallForm _ => Some FormFields
  | CallFile _ _ | CallFileBytes _ _ _ | CallFileReader _ _ _ => Some Multipart
  | _ => None
  end.

(** "Selected by the last relevant call; multipart takes precedence when
    any file was attached." *)
Definition specifiedMode (calls : list Call) : BodyMode :=
  if existsb attachesFile calls then Multipart
  else default Raw (last (omap selects calls)).

(** What the calls do in the code: [Body], [Json] and the three file
    calls assign both flags; [Form] assigns none. *)
Definition assignsFlags (c : Call) : option BodyMode :=
  match c with
  | CallBody _ => Some Raw
  | CallJson _ => Some JSON
  | CallFile _ _ | CallFileBytes _ _ _ | CallFileReader _ _ _ => Some Multipart
  | _ => None
  end.

(** The form fields after a chain of calls: every [Form] adds its
    entries over those already there. *)
Definition fieldsAfter (calls : list Call) (f : gmap string string)
  : gmap string string :=
  foldl (λ f c, match c with CallForm fields => fields ∪ f | _ => f end)
    f calls.

(** The mode that is active after a chain of body-configuring calls on
    the builder [b]: the last call that assigns the flags decides between
    multipart (a file call), JSON ([Json]) and, after [Body], form or raw;
    form it is when there are form fields, whenever they were set.
    Without such a call the flags of [b] still decide. *)
Definition modeAfter (calls : list Call) (b : RequestBuilder) : BodyMode :=
  let fields := fieldsAfter calls (formFields b) in
  match last (omap assignsFlags calls) with
  | Some Multipart => Multipart
  | Some JSON => JSON
  | Some _ => if decide (fields = ∅) then Raw else FormFields
  | None => activeMode (set_formFields fields b)
  end.

(** The [Content-Type] that goes with a body mode, for a multipart
    writer with the given boundary. *)
Definition contentTypeOf (m : BodyMode) (boundary : string) : option string :=
  match m with
  | Multipart => Some (FormDataContentType boundary)
  | JSON => Some "application/json"
  | FormFields => Some "application/x-www-form-urlencoded"
  | Raw => None
  end.

(** The headers of a builder once [Do] has set the content type of the
    active mode. *)
Definition headersSent (b : RequestBuilder) (boundary : string) : http_Header :=
  match contentTypeOf (activeMode b) boundary with
  | Some ct => Header_Set (headers b) "Content-Type" ct
  | None => headers b
  end.

(** The context and the URL that [Do] makes the request from, [u] being
    the parsed URL of the builder. *)
Definition requestContext (b : RequestBuilder) : option GoContext :=
  match trace b with
  | Some t => (λ c, httptrace_WithClientTrace c t) <$> ctx b
  | None => ctx b
  end.

Definition requestURL (b : RequestBuilder) (u : url_URL) : string :=
  URL_String
    (if bool_decide (0 < size (params b))%nat
     then URL_set_RawQuery u (Values_Encode (params b))
     else u).

(** The errors on which [Do] returns before a request exists: that of
    the reader of an attached file, and that of the construction of the
    request. *)
Definition refusedBy (b : RequestBuilder) (err : error) : Prop :=
  (activeMode b = Multipart ∧ copyFiles (map_range (files b)) [] = inl err)
  ∨ ∃ u, url_Parse (url b) = Some u
         ∧ NewRequest_check (requestContext b) (method b) (requestURL b u)
           = Some err.

(** The client [Do] delegates to: the first argument when it is there and
    not nil, and otherwise the process-wide client, which is the default
    client from its first use on. *)
Definition delegate (client : list (option Client)) (w : World)
  : option Client :=
  match client with
  | Some c :: _ => Some c
  | _ => if globalClientOnce w then globalClient w else Some defaultClient
  end.

(** What [Do] returns for what the client returned. *)
Definition wrapped (r : error + HttpResponse)
  : option response.Response * option error :=
  match r with
  | inl err => (None, Some err)
  | inr r => (Some (response.newResponse r), None)
  end.

(** The flags and files of [b'] when [decided] is the mode of the last
    call that assigned the flags since the builder was [b]. *)
Definition flagsLeft (decided : option BodyMode) (b b' : RequestBuilder)
  : Prop :=
  match decided with
  | Some Multipart => isMultipart b' = true ∧ isJSON b' = false ∧ files b' ≠ ∅
  | Some JSON => isMultipart b' = false ∧ isJSON b' = true
  | Some _ => isMultipart b' = false ∧ isJSON b' = false
  | None =>
      isMultipart b' = isMultipart b ∧ isJSON b' = isJSON b
      ∧ files b' = files b
  end.

(** What one body-configuring call leaves of the flags, the files and the
    form fields. *)
Definition bodyCallEffect (c : Call) (b b' : RequestBuilder) : Prop :=
  formFields b' = fieldsAfter [c] (formFields b)
  ∧ flagsLeft (assignsFlags c) b b'.

(** The header keys are canonical and none has an empty list of values:
    so it is of every header map that is filled through [Set]. *)
Definition canonicalHeader (h : http_Header) : Prop :=
  ∀ k vs, h !! k = Some vs → CanonicalMIMEHeaderKey k = k ∧ vs ≠ [].

(** The arguments of [Headers] when there are [2n] of them. *)
Definition flattenPairs (kvs : list (string * string)) : list string :=
  kvs ≫= λ kv, [kv.1; kv.2].

(** The panic a chained call ends in: [Json] when the data cannot be
    marshalled, [File] when the file cannot be opened, no other call. *)
Definition panicOf (c : Call) (w : World) : option PanicValue :=
  match c with
  | CallJson data =>
      match json_Marshal data with
      | inl err => Some (PanicMsg "Error serializando JSON: " err)
      | inr _ => None
      end
  | CallFile _ filepathStr =>
      match os_Open filepathStr (fs w) with
      | inl err => Some (PanicMsg "No se pudo abrir archivo: " err)
      | inr _ => None
      end
  | _ => None
  end.

(** The state of the process once the builder at [rb] has become [b] and
    [out] has been printed. *)
Definition mutated (rb : ptr) (b : RequestBuilder) (out : list string)
    (w : World) : World :=
  mkWorld (<[rb := b]> (heap w)) (fs w) (stdout w ++ out) (globalClient w)
    (globalClientOnce w) (writers w) (sent w).

(** The file parts that the multipart writer is given for the attached
    files, in the order in which they are visited. *)
Definition fileParts (entries : list (string * multipartFile)) : list Part :=
  (λ kf, FormFile kf.1 (FileName kf.2) (pending (Reader kf.2))) <$> entries.

(** The process-wide client is the default client once it has been
    initialized: so it is in every process, where [getGlobalClient] alone
    assigns it. *)
Definition clientReady (w : World) : Prop :=
  globalClientOnce w = true → globalClient w = Some defaultClient.

End builder.

End reqx.

(* ===================================================================== *)
(** ** The request builder, earlier version *)
(* ===================================================================== *)

(** [Do] and [DoCtx] of the earlier builder. Its [RequestBuilder] has the
    fields of the later one but [ctx] and [trace]; the two functions are
    written on the later record and read neither. *)
Module reqx_v1.
Import reqx.

Section builder.
Context `{!Strings, !Textproto, !EncodingJson, !NetUrl, !PathFilepath,
          !MimeMultipart, !ContextPkg, !NetHttp, !MapRange}.

(** [http.NewRequest(method, url, body)], which is
    [http.NewRequestWithContext] on the background context. *)
Definition http_NewRequest (method url : string) (body : option Stream)
  : error + Request :=
  http_NewRequestWithContext (Some context_Background) method url body.

(** The [if] chain of [Do] and of [DoCtx]: multipart and JSON, nothing
    for form fields alone. *)
Definition serializeBody (rb : ptr) : M (option error) :=
  b ← deref rb;
  if isMultipart b && bool_decide (0 < size (files b))%nat then
    boundary ← NewWriter;
    match copyFiles (map_range (files b)) [] with
    | inl err => mret (Some err)
    | inr written =>
        let written :=
          written
          ++ ((λ kv, FormField kv.1 kv.2) <$> map_range (formFields b)) in
        update rb (λ b,
          set_headers
            (Header_Set (headers b) "Content-Type"
               (FormDataContentType boundary))
            (set_body
               (Some (bytes_NewReader (multipart_encode boundary written))) b));;
        mret None
    end
  else if isJSON b then
    update rb (λ b,
      set_headers (Header_Set (headers b) "Content-Type" "application/json") b);;
    mret None
  else mret None.

(** The text that [Do] and [DoCtx] share, [newRequest] being the call
    that makes the request: [http.NewRequest] in [Do],
    [http.NewRequestWithContext] on the context argument in [DoCtx]. *)
Definition execute
    (newRequest : string → string → option Stream → error + Request)
    (rb : ptr) (client : list (option Client))
  : M (option response.Response * option error) :=
  b ← deref rb;
  let u := url_Parse (url b) in
  u ← (if bool_decide (0 < size (params b))%nat then
         match u with
         | None => panic NilDereference
         | Some u => mret (Some (URL_set_RawQuery u (Values_Encode (params b))))
         end
       else mret u);
  err ← serializeBody rb;
  match err with
  | Some err => mret (None, Some err)
  | None =>
      b ← deref rb;
      u ← match u with
          | None => panic NilDereference
          | Some u => mret (URL_String u)
          end;
      match newRequest (method b) u (body b) with
      | inl err => mret (None, Some err)
      | inr req =>
          let req :=
            with_header req
              (addHeaders (map_range (headers b)) (req_header req)) in
          c ← match client with
              | Some c :: _ => mret (Some c)
              | _ => getGlobalClient
              end;
          match c with
          | None => panic NilDereference
          | Some c =>
              r ← send c req;
              match r with
              | inl err => mret (None, Some err)
              | inr r => mret (Some (response.newResponse r), None)
              end
          end
      end
  end.

(** [func (rb *RequestBuilder) Do(client ...*http.Client)] *)
Definition Do (rb : ptr) (client : list (option Client))
  : M (option response.Response * option error) :=
  execute http_NewRequest rb client.

(** [func (rb *RequestBuilder) DoCtx(ctx context.Context, client ...*http.Client)] *)
Definition DoCtx (c : option GoContext) (rb : ptr)
    (client : list (option Client))
  : M (option response.Response * option error) :=
  execute (http_NewRequestWithContext c) rb client.

End builder.

End reqx_v1.

(* ===================================================================== *)
(** ** An instance of the imported packages *)
(* ===================================================================== *)

(** The worked examples run the package on this instance. It agrees with
    the Go packages on the inputs the examples use: ASCII strings, header
    keys, and the compressed forms of the two bytes [hi] as
    compress/gzip, compress/zlib and compress/flate write them. *)
Module Sample.

Definition isSpace (c : ascii) : bool :=
  let n := nat_of_ascii c in
  Nat.eqb n 32 || (Nat.leb 9 n && Nat.leb n 13).

Fixpoint trimLeft (s : string) : string :=
  match s with
  | String c s' => if isSpace c then trimLeft s' else s
  | EmptyString => EmptyString
  end.

Fixpoint trimRight (s : string) : string :=
  match s with
  | String c s' =>
      match trimRight s' with
      | EmptyString => if isSpace c then EmptyString else String c EmptyString
      | t => String c t
      end
  | EmptyString => EmptyString
  end.

Definition isUpper (c : ascii) : bool :=
  Nat.leb 65 (nat_of_ascii c) && Nat.leb (nat_of_ascii c) 90.
Definition isLower (c : ascii) : bool :=
  Nat.leb 97 (nat_of_ascii c) && Nat.leb (nat_of_ascii c) 122.
Definition toLower (c : ascii) : ascii :=
  if isUpper c then ascii_of_nat (nat_of_ascii c + 32) else c.
Definition toUpper (c : ascii) : ascii :=
  if isLower c then ascii_of_nat (nat_of_ascii c - 32) else c.

Fixpoint mapString (f : ascii → ascii) (s : string) : string :=
  match s with
  | String c s' => String (f c) (mapString f s')
  | EmptyString => EmptyString
  end.

Definition strings : Strings :=
  {| TrimSpace := λ s, trimRight (trimLeft s);
     ToLower := mapString toLower |}.

(** The bytes of an HTTP token: letters, digits and the fifteen marks
    that net/textproto accepts in a header key. *)
Definition validHeaderFieldByte (c : ascii) : bool :=
  let n := nat_of_ascii c in
  isUpper c || isLower c || (Nat.leb 48 n && Nat.leb n 57)
  || existsb (Nat.eqb n) [33; 35; 36; 37; 38; 39; 42; 43; 45; 46; 94; 95; 96; 124; 126]%nat.

Fixpoint allValid (s : string) : bool :=
  match s with
  | String c s' => validHeaderFieldByte c && allValid s'
  | EmptyString => true
  end.

(** Upper case at the start and after each dash, lower case elsewhere. *)
Fixpoint canonicalCase (upper : bool) (s : string) : string :=
  match s with
  | String c s' =>
      let c := if upper then toUpper c else toLower c in
      String c (canonicalCase (Ascii.eqb c "-") s')
  | EmptyString => EmptyString
  end.

(** A key with a byte that is no token byte is left as it is. *)
Definition canonicalMIMEHeaderKey (s : string) : string :=
  if allValid s then canonicalCase true s else s.

Lemma convert_idem (upper : bool) (c : ascii) :
  let c' := if upper then toUpper c else toLower c in
  (if upper then toUpper c' else toLower c') = c'
  ∧ validHeaderFieldByte c' = validHeaderFieldByte c.
Proof.
  destruct upper, c as [[] [] [] [] [] [] [] []]; vm_compute; split; reflexivity.
Qed.

Lemma canonicalCase_idem (s : string) : ∀ upper,
  canonicalCase upper (canonicalCase upper s) = canonicalCase upper s
  ∧ allValid (canonicalCase upper s) = allValid s.
Proof.
  induction s as [|c s IH]; intros upper; [done|].
  cbn [canonicalCase allValid].
  destruct (convert_idem upper c) as [-> ->].
  destruct (IH (Ascii.eqb (if upper then toUpper c else toLower c) "-"))
    as [-> ->].
  done.
Qed.

Lemma canonicalMIMEHeaderKey_idem (s : string) :
  canonicalMIMEHeaderKey (canonicalMIMEHeaderKey s) = canonicalMIMEHeaderKey s.
Proof.
  unfold canonicalMIMEHeaderKey.
  destruct (allValid s) eqn:Hs; [|by rewrite Hs].
  destruct (canonicalCase_idem s true) as [-> ->]. by rewrite Hs.
Qed.

Definition textproto : Textproto :=
  {| CanonicalMIMEHeaderKey := canonicalMIMEHeaderKey;
     CanonicalMIMEHeaderKey_idem := canonicalMIMEHeaderKey_idem |}.

(** The two bytes [hi], and what [gzip.Writer], [zlib.Writer] and
    [flate.Writer] make of them. *)
Definition hi : list byte := [x68; x69].
Definition gzip_hi : list byte :=
  [x1f; x8b; x08; x00; x00; x00; x00; x00; x02; x03; xcb; xc8; x04; x00;
   xac; x2a; x93; xd8; x02; x00; x00; x00].
Definition zlib_hi : list byte :=
  [x78; x9c; xcb; xc8; x04; x00; x01; x3b; x00; xd2].
Definition flate_hi : list byte := [xcb; xc8; x04; x00].

Definition sameBytes (a b : list byte) : bool :=
  bool_decide (Forall2 (λ x y, Byte.eqb x y = true) a b).

(** The decoders know the three streams above. Of any other input the
    gzip and zlib readers accept the header when its magic bytes are
    there and then fail while reading; the raw deflate reader fails while
    reading. *)
Definition compress : Compress :=
  {| gzip_NewReader := λ r,
       if sameBytes (pending r) gzip_hi then inr (bytes_NewReader hi)
       else match pending r with
            | x1f :: x8b :: _ =>
                inr {| pending := []; fault := Some (External "unexpected EOF") |}
            | _ => inl (External "gzip: invalid header")
            end;
     zlib_NewReader := λ r,
       if sameBytes (pending r) zlib_hi then inr (bytes_NewReader hi)
       else match pending r with
            | x78 :: x9c :: _ =>
                inr {| pending := []; fault := Some (External "unexpected EOF") |}
            | _ => inl (External "zlib: invalid header")
            end;
     flate_NewReader := λ r,
       if sameBytes (pending r) flate_hi then bytes_NewReader hi
       else {| pending := [];
               fault := Some (External "flate: corrupt input") |} |}.

(** Values for [interface{}]: strings, which marshal to their quoted
    form, and a channel, which encoding/json refuses. *)
Inductive Value : Type :=
| VString (s : string)
| VChan.

Definition quote : byte := x22.

Definition marshal (v : Value) : error + list byte :=
  match v with
  | VString s => inr (quote :: list_byte_of_string s ++ [quote])
  | VChan => inl (External "json: unsupported type: chan int")
  end.

Definition unmarshal (data : list byte) (v : Value) : Value * option error :=
  match data with
  | x22 :: rest =>
      match reverse rest with
      | x22 :: inner => (VString (string_of_list_byte (reverse inner)), None)
      | _ => (v, Some (External "unexpected end of JSON input"))
      end
  | _ => (v, Some (External "json: cannot unmarshal into Go value"))
  end.

Definition encodingJson : EncodingJson :=
  {| GoValue := Value; json_Marshal := marshal; json_Unmarshal := unmarshal |}.

(** Decoders that refuse every input. *)
Definition refusing : Compress :=
  {| gzip_NewReader := λ _, inl (External "gzip: invalid header");
     zlib_NewReader := λ _, inl (External "zlib: invalid header");
     flate_NewReader := λ _,
       {| pending := []; fault := Some (External "flate: corrupt input") |} |}.

(** A response with status 200 whose stream delivers [raw] and then ends
    as [err] says. *)
Definition reply (encoding : string) (raw : list byte) (uncompressed : bool)
    (err : option error) : HttpResponse :=
  {| StatusCode := 200; Status := "200 OK";
     Header := {[ "Content-Encoding" := [encoding] ]};
     Body := {| source := {| pending := raw; fault := err |};
                reads := 0; closed := false |};
     Uncompressed := uncompressed |}.

(** URLs as the text before the first question mark and the query after
    it. A text that starts with a colon has no scheme and does not
    parse. *)
Record Url : Type := mkUrl { beforeQuery : string; RawQuery : string }.

Fixpoint splitQuery (s : string) : string * string :=
  match s with
  | String c s' =>
      if Ascii.eqb c "?" then (EmptyString, s')
      else let '(a, q) := splitQuery s' in (String c a, q)
  | EmptyString => (EmptyString, EmptyString)
  end.

Definition parse (s : string) : option Url :=
  match s with
  | String ":" _ => None
  | _ => let '(a, q) := splitQuery s in Some (mkUrl a q)
  end.

Definition urlString (u : Url) : string :=
  match RawQuery u with
  | EmptyString => beforeQuery u
  | q => beforeQuery u +:+ "?" +:+ q
  end.

(** [key=value] pairs joined by [&], values of one key in their order;
    nothing is escaped. *)
Definition encode (v : url_Values) : string :=
  String.concat "&"
    (map_to_list v ≫= λ kvs, (λ x, kvs.1 +:+ "=" +:+ x) <$> kvs.2).

Definition netUrl : NetUrl :=
  {| url_URL := Url; url_Parse := parse;
     URL_set_RawQuery := λ u q, mkUrl (beforeQuery u) q;
     URL_String := urlString; Values_Encode := encode |}.

(** The text after the last slash. *)
Fixpoint base (s : string) : string :=
  match s with
  | String c s' =>
      if existsb (Ascii.eqb "/") (list_ascii_of_string s') then base s'
      else if Ascii.eqb c "/" then s' else s
  | EmptyString => EmptyString
  end.

Definition pathFilepath : PathFilepath := {| filepath_Base := base |}.

(** Boundaries are numbered; a part is written as its names, a colon and
    its content, after the boundary. *)
Definition encodePart (boundary : string) (p : Part) : string :=
  match p with
  | FormFile field name content =>
      "--" +:+ boundary +:+ " file " +:+ field +:+ " " +:+ name +:+ ":"
      +:+ string_of_list_byte content
  | FormField field value =>
      "--" +:+ boundary +:+ " field " +:+ field +:+ ":" +:+ value
  end.

Definition mimeMultipart : MimeMultipart :=
  {| randomBoundary := λ n, "boundary" +:+ pretty n;
     FormDataContentType := λ b, "multipart/form-data; boundary=" +:+ b;
     multipart_encode := λ b parts,
       list_byte_of_string
         (String.concat "" (encodePart b <$> parts) +:+ "--" +:+ b +:+ "--") |}.

(** Contexts: the background, contexts with a deadline, contexts that
    carry a trace. *)
Inductive Ctx : Type :=
| Background
| WithDeadline (seconds : nat)
| WithClientTrace (parent : Ctx) (trace : nat).

Definition contextPkg : ContextPkg :=
  {| GoContext := Ctx; ClientTrace := nat; context_Background := Background;
     httptrace_WithClientTrace := WithClientTrace |}.

(** A trace and a context of the caller. *)
Definition handshake : @ClientTrace contextPkg := 3%nat.
Definition deadline : @GoContext contextPkg := WithDeadline 5.

(** Clients are numbered, [0] being the default one. A request is
    refused at construction without a context or with a space in its
    method. Every client answers what it was sent: status 200 and the body
    of the request; only a URL that starts with [down:] cannot be
    reached. *)
Definition check (c : option Ctx) (method url : string) : option error :=
  match c with
  | None => Some (External "net/http: nil Context")
  | Some _ =>
      if existsb (Ascii.eqb " ") (list_ascii_of_string method)
      then Some (External "net/http: invalid method")
      else None
  end.

Definition echo (c : nat) (req : @Request contextPkg) : error + HttpResponse :=
  if String.prefix "down:" (req_url req)
  then inl (External "dial tcp: connection refused")
  else inr (reply "" (from_option pending [] (req_body req)) false None).

Definition netHttp : @NetHttp contextPkg :=
  @Build_NetHttp contextPkg nat check 0%nat echo.

(** A client of the caller. *)
Definition ownClient : @Client contextPkg netHttp := 7%nat.

(** Maps are visited in the order of [map_to_list]. *)
Definition mapRange : MapRange :=
  {| map_range := λ A m, map_to_list m;
     map_range_perm := λ A m, reflexivity (map_to_list m) |}.

(** A process that has made one builder, at address [1], by
    [Method(m, u)]; its file system holds one file. *)
Definition builder (m u : string) : @reqx.RequestBuilder contextPkg :=
  @reqx.mkRequestBuilder contextPkg (Some Background) m u ∅ ∅ None false false
    ∅ ∅ None.

Definition upload : @reqx.RequestBuilder contextPkg :=
  builder "POST" "http://api.test/upload".

Definition disk : FileSystem :=
  {| files_of := {[ "/srv/report.txt" := hi ]}; unwritable := ∅ |}.

Definition world (b : @reqx.RequestBuilder contextPkg)
  : @reqx.World contextPkg netHttp :=
  @reqx.mkWorld contextPkg netHttp {[ 1%nat := b ]} disk [] None false 0 [].

End Sample.

(* ===================================================================== *)
(** * Properties of the response wrapper *)
(* ===================================================================== *)

Section response_facts.
Import response.
Context `{!Strings, !Textproto, !Compress, !EncodingJson}.

Lemma eqb_string_true (a b : string) : String.eqb a b = true ↔ a = b.
Proof. apply String.eqb_eq. Qed.

Lemma eqb_string_false (a b : string) : String.eqb a b = false ↔ a ≠ b.
Proof. apply String.eqb_neq. Qed.

(** Whatever the path taken, the closure of [cacheBody] reads the stream
    once, closes it, and touches nothing else of the HTTP response. *)
Lemma cacheBody_once_resp (r : Response) :
  resp (cacheBody_once r)
  = with_Body (resp r)
      (ReadCloser_Close (ReadCloser_ReadAll (Body (resp r))).2).
Proof.
  unfold cacheBody_once. cbn.
  repeat case_match; reflexivity.
Qed.

Lemma cacheBody_done (r : Response) : once (cacheBody r) = true.
Proof. unfold cacheBody. destruct (once r) eqn:E; [exact E | reflexivity]. Qed.

Lemma cacheBody_idem (r : Response) : cacheBody (cacheBody r) = cacheBody r.
Proof.
  unfold cacheBody at 1. by rewrite cacheBody_done.
Qed.

Lemma cacheBody_reads (r : Response) :
  reads (Body (resp (cacheBody r)))
  = if once r then reads (Body (resp r)) else S (reads (Body (resp r))).
Proof.
  unfold cacheBody. destruct (once r); [reflexivity|].
  unfold set_once. cbn [resp]. by rewrite cacheBody_once_resp.
Qed.

(** Every body-reading method answers from the cache that [cacheBody]
    leaves. *)
Lemma perform_fromCache (c : ReadCall) (r : Response) :
  perform c r = (fromCache (cacheBody r) c, cacheBody r).
Proof.
  destruct c as [| |v]; unfold perform, Bytes, String_, Json, fromCache;
    try reflexivity.
  destruct (readErr (cacheBody r)); [reflexivity|].
  by destruct (json_Unmarshal (body (cacheBody r)) v).
Qed.

Lemma performAll_fromCache (calls : list ReadCall) (r : Response) :
  performAll calls r
  = (fromCache (cacheBody r) <$> calls,
     match calls with [] => r | _ :: _ => cacheBody r end).
Proof.
  revert r. induction calls as [|c rest IH]; intros r; [reflexivity|].
  cbn [performAll]. rewrite perform_fromCache, IH, cacheBody_idem.
  by destruct rest.
Qed.

(** C3. For every response and every sequence of calls to [Bytes],
    [String] and [Json], the body stream is read at most once; every call
    returns what the cache left by the first of them holds (the cached
    bytes, their string conversion, or their JSON unmarshalling, with the
    cached error), and after the first call the response no longer
    changes. *)
Theorem body_read_at_most_once (r : Response) (calls : list ReadCall) :
  let cached := cacheBody r in
  (reads (Body (resp (performAll calls r).2)) ≤ S (reads (Body (resp r))))%nat
  ∧ (performAll calls r).1 = fromCache cached <$> calls
  ∧ (performAll calls r).2 = match calls with [] => r | _ :: _ => cached end
  ∧ ∀ c : ReadCall, perform c cached = (fromCache cached c, cached).
Proof.
  cbn zeta. rewrite performAll_fromCache. cbn [fst snd].
  split_and!; [|done|done|].
  - destruct calls; [lia|]. rewrite cacheBody_reads. destruct (once r); lia.
  - intros c. by rewrite perform_fromCache, cacheBody_idem.
Qed.

(** The cache of a response that is read for the first time, whose
    stream delivers [raw] without error and which the transport has not
    decompressed: the outcome of the [switch] on the encoding. *)
Lemma cacheBody_switch (r : Response) :
  once r = false →
  fault (source (Body (resp r))) = None →
  Uncompressed (resp r) = false →
  let enc := declaredEncoding (resp r) in
  let raw := rawBytes r in
  let r' := cacheBody r in
  if String.eqb enc "gzip" then
    match gunzip raw with
    | inr dec => body r' = dec ∧ readErr r' = None
    | inl _ => body r' = raw ∧ is_Some (readErr r')
    end
  else if String.eqb enc "deflate" then
    match zlibInflate raw, rawInflate raw with
    | inr dec, _ => body r' = dec ∧ readErr r' = None
    | inl _, inr dec => body r' = dec ∧ readErr r' = None
    | inl _, inl _ => body r' = raw ∧ is_Some (readErr r')
    end
  else body r' = raw ∧ readErr r' = None.
Proof.
  intros Honce Hfault Hunc.
  unfold cacheBody, cacheBody_once, declaredEncoding, rawBytes, gunzip,
    zlibInflate, rawInflate, readDecoded, io_ReadAll, ReadCloser_ReadAll.
  rewrite Honce. cbn. rewrite Hfault, Hunc.
  repeat case_match; simplify_eq/=; eauto.
Qed.

(** C1, amended. For every response that is read for the first time, that
    the transport has not already decompressed and whose stream is read
    without error, the cached body is selected by the declared encoding:
    under gzip the gzip decompression of the raw bytes; under deflate the
    zlib decompression and, when that fails, the raw deflate
    decompression; under br and under any other or absent encoding the
    raw bytes. *)
Theorem decoding_selects_by_encoding (r : Response) :
  once r = false →
  Uncompressed (resp r) = false →
  fault (source (Body (resp r))) = None →
  decodedByEncoding r.
Proof.
  intros Honce Hunc Hfault.
  pose proof (cacheBody_switch r Honce Hfault Hunc) as Hsw.
  cbn zeta in Hsw. unfold decodedByEncoding. cbn zeta.
  destruct (String.eqb_spec (declaredEncoding (resp r)) "gzip") as [Hg|Hg].
  { rewrite Hg in *. split_and!; try done.
    intros _ dec Hdec. rewrite Hdec in Hsw. tauto. }
  destruct (String.eqb_spec (declaredEncoding (resp r)) "deflate") as [Hd|Hd].
  { rewrite Hd in *. split_and!; try done. intros _. split.
    - intros dec Hdec. rewrite Hdec in Hsw. tauto.
    - intros e dec He Hdec. rewrite He, Hdec in Hsw. tauto. }
  split_and!; try done; intros; tauto.
Qed.

(** C2. For every response whose body decompression fails, the raw
    bytes are kept as the cached body and an error is recorded; every
    call to [Bytes], [String] or [Json], the first one and each later one,
    returns that error: [Bytes] and [String] beside the raw bytes (as a
    string for [String]), [Json] leaving its target as it was. *)
Theorem failed_decompression_keeps_raw (r : Response) :
  decompressionFails r →
  body (cacheBody r) = rawBytes r
  ∧ ∃ e : error,
      readErr (cacheBody r) = Some e
      ∧ ∀ calls : list ReadCall,
          (performAll calls r).1
          = (λ c, match c with
                  | CallBytes => GotBytes (rawBytes r) (Some e)
                  | CallString =>
                      GotString (string_of_list_byte (rawBytes r)) (Some e)
                  | CallJson v => GotJson (Some e) v
                  end) <$> calls.
Proof.
  intros (Honce & Hfault & Hunc & Hfail).
  pose proof (cacheBody_switch r Honce Hfault Hunc) as Hsw. cbn zeta in Hsw.
  assert (body (cacheBody r) = rawBytes r ∧ is_Some (readErr (cacheBody r)))
    as [Hbody [e He]].
  { destruct Hfail as [[Henc [e He]] | (Henc & [e He] & [e' He'])].
    - rewrite Henc, He in Hsw. exact Hsw.
    - rewrite Henc, He, He' in Hsw. exact Hsw. }
  split; [exact Hbody|]. exists e. split; [exact He|].
  intros calls. rewrite performAll_fromCache. cbn [fst].
  apply list_fmap_ext. intros _ c _.
  destruct c; unfold fromCache; by rewrite ?Hbody, ?He.
Qed.

(** C9, amended. Whatever its argument, [ToFile] writes to the fixed path
    [continue.html]: the cached body when no error is recorded, nothing
    when one is, which it then returns. It reads no body: on a response
    that no body-reading method was called on, it writes the empty
    body. *)
Theorem ToFile_fixed_path (filename : string) (r : Response) (fs : FileSystem) :
  ToFile filename r fs = ToFile "continue.html" r fs
  ∧ (readErr r = None →
       ToFile filename r fs = os_WriteFile "continue.html" (body r) fs)
  ∧ (∀ e, readErr r = Some e → ToFile filename r fs = (Some e, fs))
  ∧ ∀ h : HttpResponse,
      ToFile filename (newResponse h) fs = os_WriteFile "continue.html" [] fs.
Proof.
  unfold ToFile. split_and!; [done| | |done].
  - by intros ->.
  - by intros e ->.
Qed.

End response_facts.

(** C8, amended. For every response marked [Uncompressed] that is read for
    the first time and whose stream is read without error, the cached
    body is the raw bytes and no error is recorded, whatever the declared
    encoding; no decoder takes part: the cache is the same with any other
    gzip, zlib and deflate readers. *)
Theorem uncompressed_body_is_raw `{!Strings, !Textproto}
    (decoders others : Compress) (r : response.Response) :
  response.once r = false →
  Uncompressed (response.resp r) = true →
  fault (source (Body (response.resp r))) = None →
  let r' := @response.cacheBody _ _ decoders r in
  response.body r' = response.rawBytes r
  ∧ response.readErr r' = None
  ∧ r' = @response.cacheBody _ _ others r.
Proof.
  intros Honce Hunc Hfault.
  unfold response.cacheBody, response.cacheBody_once, response.rawBytes,
    ReadCloser_ReadAll, io_ReadAll.
  rewrite Honce. cbn. rewrite Hfault, Hunc. done.
Qed.

(* ===================================================================== *)
(** * Properties of the request builder *)
(* ===================================================================== *)

Section builder_facts.
Import reqx.
Context `{!Strings, !Textproto, !EncodingJson, !NetUrl, !PathFilepath,
          !MimeMultipart, !ContextPkg, !NetHttp, !MapRange}.

Lemma bind_Returned {A B : Type} (m : M A) (f : A → M B) (w w' : World)
    (a : A) :
  m w = Returned a w' → (m ≫= f) w = f a w'.
Proof. intros Hm. unfold mbind, M_bind. by rewrite Hm. Qed.

Lemma bind_Panicked {A B : Type} (m : M A) (f : A → M B) (w w' : World)
    (v : PanicValue) :
  m w = Panicked v w' → (m ≫= f) w = Panicked v w'.
Proof. intros Hm. unfold mbind, M_bind. by rewrite Hm. Qed.

Lemma mutated_same (rb : ptr) (b : RequestBuilder) (w : World) :
  heap w !! rb = Some b → mutated rb b [] w = w.
Proof.
  intros Hb. destruct w as [h ? out ? ? ? ?]. unfold mutated. cbn in *.
  by rewrite insert_id, app_nil_r.
Qed.

Lemma update_ok (rb : ptr) (f : RequestBuilder → RequestBuilder)
    (b : RequestBuilder) (w : World) :
  heap w !! rb = Some b →
  update rb f w = Returned () (mutated rb (f b) [] w).
Proof.
  intros Hb. unfold update, mutated, set_heap. rewrite Hb.
  by rewrite app_nil_r.
Qed.

(** A setter that is one group of assignments returns its receiver. *)
Lemma assign_ok (rb : ptr) (f : RequestBuilder → RequestBuilder)
    (b : RequestBuilder) (w : World) :
  heap w !! rb = Some b →
  (update rb f;; mret rb) w = Returned rb (mutated rb (f b) [] w).
Proof.
  intros Hb. unfold mbind, M_bind. by rewrite (update_ok rb f b w Hb).
Qed.

(** The outcome of every chained call on an allocated builder. *)
Lemma invoke_outcome (c : Call) (rb : ptr) (b : RequestBuilder) (w : World) :
  heap w !! rb = Some b →
  match panicOf c w with
  | Some v => invoke c rb w = Panicked v w
  | None => ∃ b' out, invoke c rb w = Returned rb (mutated rb b' out w)
  end.
Proof.
  intros Hb.
  destruct c; cbn [panicOf invoke];
    try (eexists _, []; unfold SetMethod, URL, Param, Params, ParamsValues,
           Header, Bearer, IsJSON, Body, Form, FileBytes, FileReader,
           WithContext, WithTrace; by apply assign_ok).
  - (* Headers *)
    unfold Headers. destruct (Nat.eqb _ _).
    + eexists _, []. by apply assign_ok.
    + eexists b, [_]. unfold mbind, M_bind, Println, mret, M_ret, mutated.
      by rewrite (insert_id _ _ _ Hb).
  - (* Json *)
    unfold Json. destruct (json_Marshal data); [reflexivity|].
    eexists _, []. by apply assign_ok.
  - (* File *)
    unfold File.
    rewrite (bind_Returned (Open filepathStr) _ w w _ eq_refl).
    destruct (os_Open filepathStr (fs w)); [reflexivity|].
    eexists _, []. by apply assign_ok.
Qed.

(** C7, amended. Every chained configuration call on a builder either
    returns or panics. It panics only as [Json] on data that cannot be
    marshalled and as [File] on a file that cannot be opened, and then
    leaves the process as it was. In every other case it returns the
    pointer it was called on, having changed the heap at most at that
    builder (and having printed at most a message). *)
Theorem chained_call_returns_receiver
    (c : Call) (rb : ptr) (b : RequestBuilder) (w : World) :
  heap w !! rb = Some b →
  match invoke c rb w with
  | Returned rb' w' =>
      rb' = rb ∧ panicOf c w = None
      ∧ ∃ b' out, w' = mutated rb b' out w
  | Panicked v w' => panicOf c w = Some v ∧ w' = w
  end.
Proof.
  intros Hb. pose proof (invoke_outcome c rb b w Hb) as Hout.
  destruct (panicOf c w) as [v|].
  - by rewrite Hout.
  - destruct Hout as (b' & out & ->). eauto.
Qed.

Lemma even_length_pairs (pairs : list string) (n : nat) :
  length pairs = (2 * n)%nat →
  ∃ kvs : list (string * string), length kvs = n ∧ pairs = flattenPairs kvs.
Proof.
  revert pairs. induction n as [|n IH]; intros pairs Hlen.
  - destruct pairs; [|discriminate]. by exists [].
  - destruct pairs as [|k [|v rest]]; cbn in Hlen; try lia.
    assert (length rest = (2 * n)%nat) as Hrest by lia.
    destruct (IH rest Hrest) as (kvs & <- & ->).
    by exists ((k, v) :: kvs).
Qed.

Lemma setPairs_flattenPairs (kvs : list (string * string)) (h : http_Header) :
  setPairs (flattenPairs kvs) h
  = foldl (λ h kv, Header_Set h (TrimSpace kv.1) (TrimSpace kv.2)) h kvs.
Proof.
  revert h. induction kvs as [|[k v] kvs IH]; intros h; [reflexivity|].
  cbn. apply IH.
Qed.

Lemma length_flattenPairs (kvs : list (string * string)) :
  length (flattenPairs kvs) = (2 * length kvs)%nat.
Proof.
  induction kvs as [|[k v] kvs IH]; [reflexivity|].
  change (flattenPairs ((k, v) :: kvs)) with (k :: v :: flattenPairs kvs).
  cbn [length]. lia.
Qed.

(** C10. For every builder, [Headers] with an odd number of arguments
    returns the builder and changes none (it only prints a message);
    with [2n] arguments it returns the builder after [n] calls of
    [Set], in the order of the arguments, each on the trimmed key and the
    trimmed value of one pair, and changes no other field. *)
Theorem Headers_sets_trimmed_pairs
    (rb : ptr) (b : RequestBuilder) (w : World) (pairs : list string) :
  heap w !! rb = Some b →
  (Nat.Odd (length pairs) →
     Headers pairs rb w
     = Returned rb
         (mkWorld (heap w) (fs w)
            (stdout w ++ ["Número de argumentos debe ser par"])
            (globalClient w) (globalClientOnce w) (writers w) (sent w)))
  ∧ ∀ n : nat, length pairs = (2 * n)%nat →
      ∃ kvs : list (string * string),
        length kvs = n ∧ pairs = flattenPairs kvs
        ∧ Headers pairs rb w
          = Returned rb
              (set_heap
                 (<[rb := set_headers
                            (foldl
                               (λ h kv,
                                  Header_Set h (TrimSpace kv.1) (TrimSpace kv.2))
                               (headers b) kvs) b]> (heap w)) w).
Proof.
  intros Hb. split.
  - intros [k Hk]. unfold Headers.
    replace (length pairs mod 2)%nat with 1%nat; [reflexivity|].
    rewrite Hk. replace (2 * k + 1)%nat with (1 + k * 2)%nat by lia.
    by rewrite Nat.Div0.mod_add.
  - intros n Hlen.
    destruct (even_length_pairs pairs n Hlen) as (kvs & Hn & ->).
    exists kvs. split_and!; [done..|].
    unfold Headers. rewrite length_flattenPairs.
    replace ((2 * length kvs) mod 2)%nat with 0%nat.
    2:{ replace (2 * length kvs)%nat with (0 + length kvs * 2)%nat by lia.
        by rewrite Nat.Div0.mod_add. }
    cbn [Nat.eqb].
    rewrite (assign_ok _ _ b w Hb), setPairs_flattenPairs.
    unfold mutated, set_heap. by rewrite app_nil_r.
Qed.

(** Filling a map entry by entry gives the union, whatever the order. *)
Lemma foldl_insert_union {A : Type} (entries : list (string * A))
    (f : gmap string A) :
  NoDup entries.*1 →
  foldl (λ f kv, <[kv.1 := kv.2]> f) f entries = list_to_map entries ∪ f.
Proof.
  revert f. induction entries as [|[k v] rest IH]; intros f Hnd.
  - cbn. by rewrite (left_id_L ∅ (∪)).
  - rewrite fmap_cons in Hnd. apply NoDup_cons in Hnd as [Hk Hnd].
    cbn [foldl fst snd]. rewrite (IH _ Hnd).
    change (list_to_map ((k, v) :: rest)) with (<[k:=v]> (list_to_map rest : gmap string A)).
    rewrite <- insert_union_l. symmetry.
    apply insert_union_r. by apply not_elem_of_list_to_map_1.
Qed.

Lemma range_to_map {A : Type} (m : gmap string A) :
  NoDup (map_range m).*1 ∧ list_to_map (map_range m) = m.
Proof.
  pose proof (map_range_perm A m) as Hperm. split.
  - rewrite Hperm. apply NoDup_fst_map_to_list.
  - symmetry. apply list_to_map_flip. by symmetry.
Qed.

Lemma setFields_union (fields f : gmap string string) :
  setFields (map_range fields) f = fields ∪ f.
Proof.
  destruct (range_to_map fields) as [Hnd Hm].
  unfold setFields. by rewrite (foldl_insert_union _ _ Hnd), Hm.
Qed.

Lemma invoke_body_call (c : Call) (rb rb' : ptr) (b : RequestBuilder)
    (w w' : World) :
  isBodyCall c = true →
  heap w !! rb = Some b →
  invoke c rb w = Returned rb' w' →
  rb' = rb ∧ ∃ b', heap w' !! rb = Some b' ∧ bodyCallEffect c b b'.
Proof.
  intros Hc Hb Hinv.
  destruct c; try discriminate Hc; cbn [invoke] in Hinv.
  - (* Body *)
    unfold Body in Hinv. rewrite (assign_ok _ _ b w Hb) in Hinv.
    injection Hinv as <- <-. split; [done|]. eexists. split.
    + apply lookup_insert_eq.
    + by split.
  - (* Json *)
    unfold Json in Hinv. destruct (json_Marshal data); [discriminate|].
    rewrite (assign_ok _ _ b w Hb) in Hinv.
    injection Hinv as <- <-. split; [done|]. eexists. split.
    + apply lookup_insert_eq.
    + by split.
  - (* Form *)
    unfold Form in Hinv. rewrite (assign_ok _ _ b w Hb) in Hinv.
    injection Hinv as <- <-. split; [done|]. eexists. split.
    + apply lookup_insert_eq.
    + split; [|done]. cbn. apply setFields_union.
  - (* File *)
    unfold File in Hinv.
    rewrite (bind_Returned (Open filepathStr) _ w w _ eq_refl) in Hinv.
    destruct (os_Open filepathStr (fs w)); [discriminate|].
    rewrite (assign_ok _ _ b w Hb) in Hinv.
    injection Hinv as <- <-. split; [done|]. eexists. split.
    + apply lookup_insert_eq.
    + split; [done|]. cbn. split_and!; [done..|]. apply insert_non_empty.
  - (* FileBytes *)
    unfold FileBytes in Hinv. rewrite (assign_ok _ _ b w Hb) in Hinv.
    injection Hinv as <- <-. split; [done|]. eexists. split.
    + apply lookup_insert_eq.
    + split; [done|]. cbn. split_and!; [done..|]. apply insert_non_empty.
  - (* FileReader *)
    unfold FileReader in Hinv. rewrite (assign_ok _ _ b w Hb) in Hinv.
    injection Hinv as <- <-. split; [done|]. eexists. split.
    + apply lookup_insert_eq.
    + split; [done|]. cbn. split_and!; [done..|]. apply insert_non_empty.
Qed.

Lemma bind_Returned_inv {A B : Type} (m : M A) (f : A → M B) (w w' : World)
    (x : B) :
  (m ≫= f) w = Returned x w' →
  ∃ a w1, m w = Returned a w1 ∧ f a w1 = Returned x w'.
Proof.
  unfold mbind, M_bind. destruct (m w) as [a w1|]; [eauto|discriminate].
Qed.

Lemma flagsLeft_trans (d1 d2 : option BodyMode) (b b1 b2 : RequestBuilder) :
  flagsLeft d1 b b1 → flagsLeft d2 b1 b2 →
  flagsLeft (match d2 with Some m => Some m | None => d1 end) b b2.
Proof.
  destruct d2 as [[]|]; [done..|].
  destruct d1 as [[]|]; cbn; intros; destruct_and!; split_and!; congruence.
Qed.

Lemma chain_body_calls (calls : list Call) : ∀ (rb rb' : ptr)
    (b : RequestBuilder) (w w' : World),
  Forall (λ c, isBodyCall c = true) calls →
  heap w !! rb = Some b →
  chain calls rb w = Returned rb' w' →
  rb' = rb
  ∧ ∃ b', heap w' !! rb = Some b'
          ∧ formFields b' = fieldsAfter calls (formFields b)
          ∧ flagsLeft (last (omap assignsFlags calls)) b b'.
Proof.
  induction calls as [|c rest IH]; intros rb rb' b w w' Hcalls Hb Hrun.
  - injection Hrun as <- <-. split; [done|]. by exists b.
  - apply Forall_cons in Hcalls as [Hc Hrest]. cbn [chain] in Hrun.
    apply bind_Returned_inv in Hrun as (rb1 & w1 & Hinv & Hrun).
    destruct (invoke_body_call c rb rb1 b w w1 Hc Hb Hinv)
      as (-> & b1 & Hb1 & Hfields1 & Hflags1).
    destruct (IH rb rb' b1 w1 w' Hrest Hb1 Hrun)
      as (-> & b' & Hb' & Hfields & Hflags).
    split; [done|]. exists b'. split_and!; [done| |].
    + rewrite Hfields, Hfields1. reflexivity.
    + pose proof (flagsLeft_trans _ _ b b1 b' Hflags1 Hflags) as Hboth.
      cbn [omap list_omap]. destruct (assignsFlags c) as [m|].
      * rewrite last_cons. exact Hboth.
      * destruct (last (omap assignsFlags rest)); exact Hboth.
Qed.

(** C4, amended. For every builder and every chain of body-configuring
    calls that returns, exactly one of the four body modes is active when
    [Do] executes: the value of [activeMode]. Among [Body], [Json] and
    the file calls the last one decides between raw, JSON and multipart;
    in place of raw the form mode is active when form fields are set;
    [Form] decides nothing more, and files attached before a later [Body]
    or [Json] do not count. *)
Theorem body_mode_after_calls (calls : list Call) (rb rb' : ptr)
    (b : RequestBuilder) (w w' : World) :
  Forall (λ c, isBodyCall c = true) calls →
  heap w !! rb = Some b →
  chain calls rb w = Returned rb' w' →
  rb' = rb
  ∧ ∃ b', heap w' !! rb = Some b'
          ∧ formFields b' = fieldsAfter calls (formFields b)
          ∧ activeMode b' = modeAfter calls b.
Proof.
  intros Hcalls Hb Hrun.
  destruct (chain_body_calls calls rb rb' b w w' Hcalls Hb Hrun)
    as (-> & b' & Hb' & Hfields & Hflags).
  split; [done|]. exists b'. split_and!; [done..|].
  unfold modeAfter, activeMode. cbn zeta. rewrite <- Hfields.
  destruct (last (omap assignsFlags calls)) as [[]|]; cbn in Hflags.
  - destruct Hflags as (-> & _ & Hfiles).
    rewrite bool_decide_eq_true_2; [done|].
    apply map_size_non_empty_iff in Hfiles. lia.
  - by destruct Hflags as (-> & ->).
  - destruct Hflags as (-> & ->). cbn.
    destruct (decide (formFields b' = ∅)) as [->|Hne].
    + by rewrite map_size_empty.
    + rewrite bool_decide_eq_true_2; [done|].
      apply map_size_non_empty_iff in Hne. lia.
  - destruct Hflags as (-> & ->). cbn.
    destruct (decide (formFields b' = ∅)) as [->|Hne].
    + by rewrite map_size_empty.
    + rewrite bool_decide_eq_true_2; [done|].
      apply map_size_non_empty_iff in Hne. lia.
  - destruct Hflags as (-> & -> & ->). reflexivity.
Qed.

(** *** Headers *)

Lemma Header_Get_Set (h : http_Header) (key value : string) :
  Header_Get (Header_Set h key value) key = value.
Proof. unfold Header_Get, Header_Set. by rewrite lookup_insert_eq. Qed.

Lemma canonicalHeader_empty : canonicalHeader ∅.
Proof. intros k vs Hk. by rewrite lookup_empty in Hk. Qed.

Lemma canonicalHeader_Set (h : http_Header) (key value : string) :
  canonicalHeader h → canonicalHeader (Header_Set h key value).
Proof.
  intros Hh k vs. unfold Header_Set.
  destruct (decide (CanonicalMIMEHeaderKey key = k)) as [<-|Hne].
  - rewrite lookup_insert_eq. intros [= <-]. split; [|done].
    apply CanonicalMIMEHeaderKey_idem.
  - rewrite lookup_insert_ne by done. apply Hh.
Qed.

Lemma canonicalHeader_setPairs (pairs : list string) : ∀ h : http_Header,
  canonicalHeader h →
  canonicalHeader (setPairs pairs h)
  ∧ ∀ k, canonicalHeader (setPairs (k :: pairs) h).
Proof.
  induction pairs as [|v rest IH]; intros h Hh; [done|]. split.
  - apply (IH h Hh).
  - intros k. cbn [setPairs]. apply IH. by apply canonicalHeader_Set.
Qed.

(** The inner loop of the copy: the values of one canonical key, added
    one by one, end up appended under that key. *)
Lemma add_values (k : string) (vs : list string) : ∀ h : http_Header,
  CanonicalMIMEHeaderKey k = k → vs ≠ [] →
  foldl (λ h v, Header_Add h k v) h vs = <[k := default [] (h !! k) ++ vs]> h.
Proof.
  induction vs as [|v vs IH]; intros h Hk Hvs; [done|].
  cbn [foldl]. destruct vs as [|v' vs].
  - cbn. unfold Header_Add. by rewrite Hk.
  - rewrite IH by done. unfold Header_Add. rewrite Hk, lookup_insert_eq.
    rewrite insert_insert_eq. cbn [from_option id]. by rewrite <- app_assoc.
Qed.

(** Copying a canonical header map entry by entry gives the same map
    back, whatever the order of the keys. *)
Lemma addHeaders_entries (entries : list (string * list string)) :
  ∀ acc : http_Header,
  NoDup entries.*1 →
  (∀ k vs, (k, vs) ∈ entries →
     CanonicalMIMEHeaderKey k = k ∧ vs ≠ [] ∧ acc !! k = None) →
  addHeaders entries acc = list_to_map entries ∪ acc.
Proof.
  induction entries as [|[k vs] rest IH]; intros acc Hnd Hall.
  - cbn. by rewrite (left_id_L ∅ (∪)).
  - rewrite fmap_cons in Hnd. apply NoDup_cons in Hnd as [Hk Hnd].
    destruct (Hall k vs ltac:(left)) as (Hcanon & Hvs & Hacc).
    unfold addHeaders. cbn [foldl fst snd].
    rewrite (add_values k vs acc Hcanon Hvs), Hacc. cbn [default app].
    fold (addHeaders rest (<[k:=vs]> acc)). rewrite IH; [|done|].
    + change (list_to_map ((k, vs) :: rest))
        with (<[k:=vs]> (list_to_map rest : http_Header)).
      rewrite <- insert_union_l. symmetry.
      apply insert_union_r. by apply not_elem_of_list_to_map_1.
    + intros k' vs' Hin.
      destruct (Hall k' vs' ltac:(by right)) as (? & ? & ?).
      split_and!; [done..|].
      rewrite lookup_insert_ne; [done|].
      intros ->. apply Hk. apply list_elem_of_fmap. by exists (k', vs').
Qed.

Lemma addHeaders_canonical (h : http_Header) :
  canonicalHeader h → addHeaders (map_range h) ∅ = h.
Proof.
  intros Hh. destruct (range_to_map h) as [Hnd Hm].
  rewrite addHeaders_entries; [by rewrite Hm, (right_id_L ∅ (∪))|done|].
  intros k vs Hin.
  assert (h !! k = Some vs) as Hk.
  { rewrite <- Hm. by apply elem_of_list_to_map_1. }
  destruct (Hh k vs Hk). by rewrite lookup_empty.
Qed.

(** *** Execution *)

Lemma deref_ok (rb : ptr) (b : RequestBuilder) (w : World) :
  heap w !! rb = Some b → deref rb w = Returned b w.
Proof. intros Hb. unfold deref. by rewrite Hb. Qed.

(** The [if] chain of [Do], branch by branch. *)
Lemma serializeBody_outcome (rb : ptr) (b : RequestBuilder) (w : World) :
  heap w !! rb = Some b →
  let boundary := randomBoundary (writers w) in
  let w1 :=
    mkWorld (heap w) (fs w) (stdout w) (globalClient w) (globalClientOnce w)
      (S (writers w)) (sent w) in
  match activeMode b with
  | Multipart =>
      match copyFiles (map_range (files b)) [] with
      | inl err => serializeBody rb w = Returned (Some err) w1
      | inr written =>
          serializeBody rb w
          = Returned None
              (mutated rb
                 (set_headers
                    (Header_Set (headers b) "Content-Type"
                       (FormDataContentType boundary))
                    (set_body
                       (Some (bytes_NewReader
                                (multipart_encode boundary
                                   (written
                                    ++ ((λ kv, FormField kv.1 kv.2)
                                          <$> map_range (formFields b))))))
                       b))
                 [] w1)
      end
  | JSON =>
      serializeBody rb w
      = Returned None
          (mutated rb
             (set_headers
                (Header_Set (headers b) "Content-Type" "application/json") b)
             [] w)
  | FormFields =>
      serializeBody rb w
      = Returned None
          (mutated rb
             (set_headers
                (Header_Set (headers b) "Content-Type"
                   "application/x-www-form-urlencoded")
                (set_body
                   (Some (bytes_NewReader
                            (list_byte_of_string
                               (Values_Encode
                                  (setValues (map_range (formFields b)) ∅)))))
                   b))
             [] w)
  | Raw => serializeBody rb w = Returned None w
  end.
Proof.
  intros Hb. cbn zeta. unfold serializeBody, activeMode.
  rewrite (bind_Returned (deref rb) _ w w b (deref_ok rb b w Hb)).
  destruct (isMultipart b && bool_decide (0 < size (files b))%nat).
  - rewrite (bind_Returned NewWriter _ w _ _ eq_refl).
    destruct (copyFiles (map_range (files b)) []); [reflexivity|].
    set (w1 := mkWorld _ _ _ _ _ _ _).
    rewrite (bind_Returned (update rb _) _ _ _ _ (update_ok rb _ b w1 Hb)).
    reflexivity.
  - destruct (isJSON b).
    + rewrite (bind_Returned (update rb _) _ _ _ _ (update_ok rb _ b _ Hb)).
      reflexivity.
    + destruct (bool_decide (0 < size (formFields b))%nat); [|reflexivity].
      rewrite (bind_Returned (update rb _) _ _ _ _ (update_ok rb _ b _ Hb)).
      reflexivity.
Qed.

(** The builder after the [if] chain, when [Do] goes on. *)
Lemma serializeBody_goes_on (rb : ptr) (b : RequestBuilder) (w w1 : World) :
  heap w !! rb = Some b →
  serializeBody rb w = Returned None w1 →
  sent w1 = sent w
  ∧ globalClient w1 = globalClient w
  ∧ globalClientOnce w1 = globalClientOnce w
  ∧ ∃ b', heap w1 !! rb = Some b'
          ∧ headers b' = headersSent b (randomBoundary (writers w))
          ∧ method b' = method b ∧ ctx b' = ctx b ∧ trace b' = trace b
          ∧ (activeMode b = Multipart →
               ∃ parts,
                 body b'
                 = Some (bytes_NewReader
                           (multipart_encode (randomBoundary (writers w))
                              parts))).
Proof.
  intros Hb Hser. pose proof (serializeBody_outcome rb b w Hb) as Hout.
  cbn zeta in Hout. unfold headersSent.
  destruct (activeMode b) eqn:Hmode; cbn [contentTypeOf].
  - destruct (copyFiles (map_range (files b)) []) as [err|written];
      rewrite Hout in Hser; [discriminate|].
    injection Hser as <-. split_and!; [done..|]. eexists. split.
    { apply lookup_insert_eq. }
    split_and!; [done..|]. intros _. by eexists.
  - rewrite Hout in Hser. injection Hser as <-. split_and!; [done..|].
    eexists. split; [apply lookup_insert_eq|]. by split_and!.
  - rewrite Hout in Hser. injection Hser as <-. split_and!; [done..|].
    eexists. split; [apply lookup_insert_eq|]. by split_and!.
  - rewrite Hout in Hser. injection Hser as <-. split_and!; [done..|].
    exists b. by split_and!.
Qed.

Lemma serializeBody_returns_early (rb : ptr) (b : RequestBuilder)
    (w w1 : World) (err : error) :
  heap w !! rb = Some b →
  serializeBody rb w = Returned (Some err) w1 →
  sent w1 = sent w ∧ activeMode b = Multipart
  ∧ copyFiles (map_range (files b)) [] = inl err.
Proof.
  intros Hb Hser. pose proof (serializeBody_outcome rb b w Hb) as Hout.
  cbn zeta in Hout.
  destruct (activeMode b) eqn:Hmode; try (rewrite Hout in Hser; discriminate).
  destruct (copyFiles (map_range (files b)) []) as [err'|written];
    rewrite Hout in Hser; [|discriminate].
  by injection Hser as <- <-.
Qed.

(** Every way in which [Do] returns: before a request exists, with the
    error of a file reader or of the construction of the request; or
    after one client was handed one request. *)
Lemma Do_returned (rb : ptr) (b : RequestBuilder) (w w' : World)
    (client : list (option Client))
    (out : option response.Response * option error) :
  heap w !! rb = Some b →
  Do rb client w = Returned out w' →
  (sent w' = sent w ∧ ∃ err, out = (None, Some err) ∧ refusedBy b err)
  ∨ ∃ (b' : RequestBuilder) (u : url_URL) (c : Client) (req : Request),
      heap w' !! rb = Some b'
      ∧ headers b' = headersSent b (randomBoundary (writers w))
      ∧ (activeMode b = Multipart →
           ∃ parts,
             body b'
             = Some (bytes_NewReader
                       (multipart_encode (randomBoundary (writers w)) parts)))
      ∧ url_Parse (url b) = Some u
      ∧ NewRequest_check (requestContext b) (method b) (requestURL b u) = None
      ∧ req
        = {| req_ctx := requestContext b; req_method := method b;
             req_url := requestURL b u; req_body := body b';
             req_header := addHeaders (map_range (headers b')) ∅ |}
      ∧ delegate client w = Some c
      ∧ sent w' = sent w ++ [(c, req)]
      ∧ out = wrapped (Client_Do c req).
Proof.
  intros Hb Hdo. unfold Do in Hdo.
  rewrite (bind_Returned (deref rb) _ w w b (deref_ok rb b w Hb)) in Hdo.
  apply bind_Returned_inv in Hdo as (u' & w0 & Hu & Hdo).
  assert (w0 = w
          ∧ u' = (λ u, if bool_decide (0 < size (params b))%nat
                       then URL_set_RawQuery u (Values_Encode (params b))
                       else u) <$> url_Parse (url b)) as [-> ->].
  { destruct (bool_decide (0 < size (params b))%nat),
      (url_Parse (url b)); unfold mret, M_ret, panic in Hu; by simplify_eq. }
  apply bind_Returned_inv in Hdo as (early & w1 & Hser & Hdo).
  destruct early as [err|].
  { destruct (serializeBody_returns_early rb b w w1 err Hb Hser)
      as (? & ? & ?).
    unfold mret, M_ret in Hdo. injection Hdo as <- <-. left.
    split; [done|]. exists err. split; [done|]. by left. }
  destruct (serializeBody_goes_on rb b w w1 Hb Hser)
    as (Hsent & Hglobal & Honce & b' & Hb' & Hheaders & Hmethod & Hctx & Htrace
        & Hbody).
  rewrite (bind_Returned (deref rb) _ w1 w1 b' (deref_ok rb b' w1 Hb')) in Hdo.
  apply bind_Returned_inv in Hdo as (reqCtx & w2 & HreqCtx & Hdo).
  assert (w2 = w1 ∧ reqCtx = requestContext b) as [-> ->].
  { unfold requestContext. rewrite Htrace, Hctx in HreqCtx.
    destruct (trace b), (ctx b); unfold mret, M_ret, panic in HreqCtx;
      by simplify_eq. }
  apply bind_Returned_inv in Hdo as (ustr & w2 & Hustr & Hdo).
  destruct (url_Parse (url b)) as [u|] eqn:Hparse; [|discriminate Hustr].
  cbn [fmap option_fmap option_map] in Hustr.
  unfold mret, M_ret in Hustr. injection Hustr as <- <-.
  fold (requestURL b u) in Hdo.
  unfold http_NewRequestWithContext in Hdo. rewrite Hmethod in Hdo.
  destruct (NewRequest_check _ _ _) as [err|] eqn:Hcheck.
  { unfold mret, M_ret in Hdo. injection Hdo as <- <-. left.
    split; [done|]. exists err. split; [done|]. right. by exists u. }
  apply bind_Returned_inv in Hdo as (c' & w2 & Hc & Hdo).
  destruct c' as [c|]; [|discriminate Hdo].
  apply bind_Returned_inv in Hdo as (r & w3 & Hsend & Hdo).
  injection Hsend as <- <-.
  assert (delegate client w = Some c ∧ heap w2 = heap w1 ∧ sent w2 = sent w1)
    as (Hdel & Hheap & Hsent2).
  { unfold delegate. rewrite <- Hglobal, <- Honce.
    destruct client as [|[c0|] ?]; unfold getGlobalClient, mret, M_ret in Hc;
      destruct (globalClientOnce w1); by simplify_eq. }
  match type of Hdo with context [Client_Do c ?r] => set (req := r) in * end.
  assert (out = wrapped (Client_Do c req)
          ∧ heap w' = heap w2 ∧ sent w' = sent w2 ++ [(c, req)])
    as (-> & Hheap' & Hsent').
  { unfold wrapped. destruct (Client_Do c req); unfold mret, M_ret in Hdo;
      by injection Hdo as <- <-. }
  right. exists b', u, c, req. split_and!; try done.
  - by rewrite Hheap', Hheap.
  - by rewrite Hsent', Hsent2, Hsent.
Qed.

Lemma canonicalHeader_headersSent (b : RequestBuilder) (boundary : string) :
  canonicalHeader (headers b) → canonicalHeader (headersSent b boundary).
Proof.
  intros Hb. unfold headersSent.
  destruct (contentTypeOf (activeMode b) boundary); [|done].
  by apply canonicalHeader_Set.
Qed.

(** C5. When [Do] returns, either no request was made and it returns
    the error of a file reader or of the construction of the request, or
    one request went out to one client, and on that request: the
    [Content-Type] is the one of the active body mode (for multipart that
    of the writer whose boundary delimits the body, [application/json]
    for JSON, [application/x-www-form-urlencoded] for form fields); the
    URL is the builder's, with the encoded parameters as its query when
    there are parameters; and the header is the builder's header, every
    accumulated key with its values, under that content type. *)
Theorem Do_request_matches_mode (rb : ptr) (b : RequestBuilder) (w w' : World)
    (client : list (option Client))
    (out : option response.Response * option error) :
  heap w !! rb = Some b →
  canonicalHeader (headers b) →
  Do rb client w = Returned out w' →
  (sent w' = sent w ∧ ∃ err, out = (None, Some err) ∧ refusedBy b err)
  ∨ ∃ (c : Client) (req : Request) (u : url_URL),
      let boundary := randomBoundary (writers w) in
      sent w' = sent w ++ [(c, req)]
      ∧ (∀ ct, contentTypeOf (activeMode b) boundary = Some ct →
           Header_Get (req_header req) "Content-Type" = ct)
      ∧ (activeMode b = Multipart →
           ∃ parts,
             req_body req
             = Some (bytes_NewReader (multipart_encode boundary parts)))
      ∧ url_Parse (url b) = Some u
      ∧ req_url req
        = URL_String
            (if bool_decide (0 < size (params b))%nat
             then URL_set_RawQuery u (Values_Encode (params b))
             else u)
      ∧ req_header req = headersSent b boundary
      ∧ ∀ k vs, headers b !! k = Some vs →
                k ≠ CanonicalMIMEHeaderKey "Content-Type" →
                req_header req !! k = Some vs.
Proof.
  intros Hb Hcanon Hdo.
  destruct (Do_returned rb b w w' client out Hb Hdo)
    as [Hearly | (b' & u & c & req & Hb' & Hheaders & Hbody & Hu & _ & Hreq
                  & _ & Hsent & _)]; [by left|].
  right. exists c, req, u. cbn zeta.
  assert (req_header req = headersSent b (randomBoundary (writers w))) as Hh.
  { rewrite Hreq. cbn [req_header].
    rewrite addHeaders_canonical; [done|]. rewrite Hheaders.
    by apply canonicalHeader_headersSent. }
  rewrite Hh. split_and!; [done| | |done| |done|].
  - intros ct Hct. unfold headersSent. rewrite Hct. apply Header_Get_Set.
  - by rewrite Hreq.
  - by rewrite Hreq.
  - intros k vs Hk Hne. unfold headersSent.
    destruct (contentTypeOf _ _); [|done].
    unfold Header_Set. by rewrite lookup_insert_ne.
Qed.

(** C6, where the code departs from it. When the URL of the builder does
    not parse, [Do] neither delegates to a client nor returns a response
    or the error of the parse: it panics on the nil URL, unless the copy
    of an attached file has failed before. *)
Theorem Do_panics_when_url_does_not_parse (rb : ptr) (b : RequestBuilder)
    (w : World) (client : list (option Client)) :
  heap w !! rb = Some b →
  url_Parse (url b) = None →
  (∃ w1, Do rb client w = Panicked NilDereference w1 ∧ sent w1 = sent w)
  ∨ (∃ err w1,
       Do rb client w = Returned (None, Some err) w1 ∧ sent w1 = sent w
       ∧ activeMode b = Multipart ∧ size (params b) = 0%nat
       ∧ copyFiles (map_range (files b)) [] = inl err).
Proof.
  intros Hb Hu. unfold Do.
  rewrite (bind_Returned (deref rb) _ w w b (deref_ok rb b w Hb)), Hu.
  destruct (bool_decide (0 < size (params b))%nat) eqn:Hparams.
  { left. exists w. by rewrite (bind_Panicked _ _ w w NilDereference eq_refl). }
  apply bool_decide_eq_false in Hparams.
  rewrite (bind_Returned (mret None) _ w w None eq_refl).
  destruct (serializeBody rb w) as [[err|] w1|v w1] eqn:Hser.
  - right. exists err, w1.
    destruct (serializeBody_returns_early rb b w w1 err Hb Hser) as (? & ? & ?).
    rewrite (bind_Returned _ _ w w1 _ Hser). split_and!; [done..|lia|done].
  - left. destruct (serializeBody_goes_on rb b w w1 Hb Hser)
      as (Hsent & _ & _ & b' & Hb' & _).
    rewrite (bind_Returned _ _ w w1 _ Hser).
    rewrite (bind_Returned (deref rb) _ w1 w1 b' (deref_ok rb b' w1 Hb')).
    exists w1. split; [|done].
    destruct (trace b') as [t|], (ctx b') as [c|]; reflexivity.
  - pose proof (serializeBody_outcome rb b w Hb) as Hout. cbn zeta in Hout.
    destruct (activeMode b); [destruct (copyFiles _ _)|..];
      rewrite Hout in Hser; discriminate Hser.
Qed.

(** X1. When [Do] returns, it returns a response and no error, or an error
    and no response; the response wraps what the client it delegated to
    answered to the request, and the error is the client's or one that
    kept the request from being made. *)
Theorem Do_returns_response_or_error (rb : ptr) (b : RequestBuilder)
    (w w' : World) (client : list (option Client))
    (out : option response.Response * option error) :
  heap w !! rb = Some b →
  Do rb client w = Returned out w' →
  ((∃ r, out = (Some r, None)) ∨ (∃ err, out = (None, Some err)))
  ∧ ∀ r, out.1 = Some r →
      ∃ c req h,
        delegate client w = Some c
        ∧ sent w' = sent w ++ [(c, req)]
        ∧ Client_Do c req = inr h
        ∧ r = response.newResponse h.
Proof.
  intros Hb Hdo.
  destruct (Do_returned rb b w w' client out Hb Hdo)
    as [(_ & err & -> & _) | (b' & u & c & req & _ & _ & _ & _ & _ & _ & Hdel
                               & Hsent & ->)].
  - split; [right; eauto|]. intros r [=].
  - unfold wrapped. destruct (Client_Do c req) as [err|h] eqn:Hr.
    + split; [right; eauto|]. intros r [=].
    + split; [left; eauto|]. intros r [= <-]. by exists c, req, h.
Qed.

Lemma serializeBody_returns (rb : ptr) (b : RequestBuilder) (w : World) :
  heap w !! rb = Some b →
  ∃ early w1, serializeBody rb w = Returned early w1.
Proof.
  intros Hb. pose proof (serializeBody_outcome rb b w Hb) as Hout.
  cbn zeta in Hout.
  destruct (activeMode b); [destruct (copyFiles _ _)|..]; eauto.
Qed.

(** X3. [Do] returns whenever the URL of the builder parses, the builder
    has a context if it has a trace, and the process-wide client is there
    once it was initialized (as it is in every process that only
    initializes it through [getGlobalClient]). *)
Theorem Do_returns_when_url_parses (rb : ptr) (b : RequestBuilder) (w : World)
    (client : list (option Client)) :
  heap w !! rb = Some b →
  is_Some (url_Parse (url b)) →
  (trace b = None ∨ is_Some (ctx b)) →
  (globalClientOnce w = true → is_Some (globalClient w)) →
  ∃ out w', Do rb client w = Returned out w'.
Proof.
  intros Hb [u Hu] Hctx Hglobal. unfold Do.
  rewrite (bind_Returned (deref rb) _ w w b (deref_ok rb b w Hb)), Hu.
  rewrite (bind_Returned _ _ w w
             (Some (if bool_decide (0 < size (params b))%nat
                    then URL_set_RawQuery u (Values_Encode (params b))
                    else u)));
    [|by destruct (bool_decide _)].
  destruct (serializeBody_returns rb b w Hb) as (early & w1 & Hser).
  rewrite (bind_Returned _ _ w w1 _ Hser).
  destruct early as [err|]; [by eexists _, _|].
  destruct (serializeBody_goes_on rb b w w1 Hb Hser)
    as (_ & Hglobal1 & Honce1 & b' & Hb' & _ & _ & Hctx' & Htrace' & _).
  rewrite (bind_Returned (deref rb) _ w1 w1 b' (deref_ok rb b' w1 Hb')).
  rewrite Htrace', Hctx'.
  assert (∃ reqCtx,
            match trace b with
            | Some t =>
                match ctx b with
                | Some c => mret (Some (httptrace_WithClientTrace c t))
                | None => panic NilDereference
                end
            | None => mret (ctx b)
            end w1 = Returned reqCtx w1) as [reqCtx HreqCtx].
  { destruct Hctx as [->|[c ->]]; [by eexists|].
    destruct (trace b); by eexists. }
  rewrite (bind_Returned _ _ w1 w1 reqCtx HreqCtx).
  assert (∃ c w2,
            match client with
            | Some c :: _ => mret (Some c)
            | _ => getGlobalClient
            end w1 = Returned (Some c) w2) as (c & w2 & Hc).
  { assert (∃ c w2, getGlobalClient w1 = Returned (Some c) w2)
      as (c & w2 & Hget).
    { unfold getGlobalClient. rewrite Honce1.
      destruct (globalClientOnce w) eqn:Honce; [|by eexists _, _].
      destruct (Hglobal eq_refl) as [c Hc]. rewrite Hglobal1, Hc. eauto. }
    destruct client as [|[c0|] ?]; [eauto|by eexists _, _|eauto]. }
  unfold mbind, M_bind, mret, M_ret, send in *.
  destruct (http_NewRequestWithContext _ _ _ _) as [err|req];
    [by eexists _, _|].
  rewrite Hc. destruct (Client_Do c _); by eexists _, _.
Qed.

(** *** Builders made through the package *)

Lemma invoke_canonicalHeader (c : Call) (rb rb' : ptr) (b : RequestBuilder)
    (w w' : World) :
  heap w !! rb = Some b →
  canonicalHeader (headers b) →
  invoke c rb w = Returned rb' w' →
  rb' = rb ∧ ∃ b', heap w' !! rb = Some b' ∧ canonicalHeader (headers b').
Proof.
  intros Hb Hcanon Hinv.
  assert (∀ f : RequestBuilder → RequestBuilder,
            (update rb f;; mret rb) w = Returned rb' w' →
            canonicalHeader (headers (f b)) →
            rb' = rb
            ∧ ∃ b', heap w' !! rb = Some b' ∧ canonicalHeader (headers b'))
    as Hassign.
  { intros f Hrun Hf. rewrite (assign_ok _ _ b w Hb) in Hrun.
    injection Hrun as <- <-. split; [done|]. exists (f b).
    split; [apply lookup_insert_eq|done]. }
  destruct c; cbn [invoke] in Hinv;
    try (apply (Hassign _ Hinv); exact Hcanon).
  - (* Header *)
    apply (Hassign _ Hinv). by apply canonicalHeader_Set.
  - (* Headers *)
    unfold Headers in Hinv. destruct (Nat.eqb _ _).
    + apply (Hassign _ Hinv). by apply canonicalHeader_setPairs.
    + injection Hinv as <- <-. split; [done|]. by exists b.
  - (* Bearer *)
    apply (Hassign _ Hinv). by apply canonicalHeader_Set.
  - (* Json *)
    unfold Json in Hinv. destruct (json_Marshal data); [discriminate|].
    apply (Hassign _ Hinv). exact Hcanon.
  - (* File *)
    unfold File in Hinv.
    rewrite (bind_Returned (Open filepathStr) _ w w _ eq_refl) in Hinv.
    destruct (os_Open filepathStr (fs w)); [discriminate|].
    apply (Hassign _ Hinv). exact Hcanon.
Qed.

Lemma chain_canonicalHeader (calls : list Call) : ∀ (rb rb' : ptr)
    (b : RequestBuilder) (w w' : World),
  heap w !! rb = Some b →
  canonicalHeader (headers b) →
  chain calls rb w = Returned rb' w' →
  rb' = rb ∧ ∃ b', heap w' !! rb = Some b' ∧ canonicalHeader (headers b').
Proof.
  induction calls as [|c rest IH]; intros rb rb' b w w' Hb Hcanon Hrun.
  - injection Hrun as <- <-. split; [done|]. by exists b.
  - cbn [chain] in Hrun.
    apply bind_Returned_inv in Hrun as (rb1 & w1 & Hinv & Hrun).
    destruct (invoke_canonicalHeader c rb rb1 b w w1 Hb Hcanon Hinv)
      as (-> & b1 & Hb1 & Hcanon1).
    apply (IH rb rb' b1 w1 w' Hb1 Hcanon1 Hrun).
Qed.

(** X2. Every builder made by [Method] (so by [Get], [Post], ... too) and
    configured by a chain of calls has a canonical header, and the chain
    returns the pointer [Method] returned. *)
Theorem built_header_is_canonical (m : string) (urlStr : list string)
    (calls : list Call) (w w' : World) (rb : ptr) :
  (rb0 ← Method m urlStr; chain calls rb0) w = Returned rb w' →
  Method m urlStr w
  = Returned rb
      (set_heap
         (<[rb := {| ctx := Some context_Background; method := m;
                     url := match urlStr with u :: _ => u | [] => "" end;
                     params := ∅; headers := ∅; body := None;
                     isJSON := false; isMultipart := false; files := ∅;
                     formFields := ∅; trace := None |}]> (heap w)) w)
  ∧ ∃ b, heap w' !! rb = Some b ∧ canonicalHeader (headers b).
Proof.
  intros Hrun.
  apply bind_Returned_inv in Hrun as (rb0 & w0 & Hnew & Hrun).
  unfold Method, alloc in Hnew. injection Hnew as <- <-.
  set (rb0 := fresh _) in *.
  match type of Hrun with
  | chain _ _ (set_heap (<[_ := ?b0]> _) _) = _ =>
      destruct (chain_canonicalHeader calls rb0 rb b0 _ w'
                  (lookup_insert_eq _ _ _) canonicalHeader_empty Hrun)
        as (-> & b & Hb & Hcanon)
  end.
  split; [reflexivity|]. by exists b.
Qed.

End builder_facts.

(* ===================================================================== *)
(** * More on the response wrapper *)
(* ===================================================================== *)

Section response_reads.
Import response.
Context `{!Strings, !Textproto, !Compress, !EncodingJson}.

(** The closure of [cacheBody] on a stream that fails. *)
Lemma cacheBody_read_failure (r : Response) (e : error) :
  once r = false →
  fault (source (Body (resp r))) = Some e →
  body (cacheBody r) = body r
  ∧ readErr (cacheBody r)
    = Some (ErrorfW "read raw body failed" (StatusCode (resp r))
              (Header_Get (Header (resp r)) "Content-Encoding") e).
Proof.
  intros Honce Hfault.
  unfold cacheBody, cacheBody_once, ReadCloser_ReadAll, io_ReadAll.
  rewrite Honce. cbn. by rewrite Hfault.
Qed.

(** The closure of [cacheBody] on a response that the transport has
    decompressed. *)
Lemma cacheBody_uncompressed (r : Response) :
  once r = false →
  fault (source (Body (resp r))) = None →
  Uncompressed (resp r) = true →
  body (cacheBody r) = rawBytes r ∧ readErr (cacheBody r) = None.
Proof.
  intros Honce Hfault Hunc.
  unfold cacheBody, cacheBody_once, rawBytes, ReadCloser_ReadAll, io_ReadAll.
  rewrite Honce. cbn. by rewrite Hfault, Hunc.
Qed.

(** X4. Whatever body-reading method is called, and whatever path
    [cacheBody] takes (errors included), the body stream is closed once the
    call is over if it had not been read before, and nothing else of the
    HTTP response changes: status code, status text, header and the
    [Uncompressed] mark are as before, so [Status], [StatusText], [IsOK]
    answer the same before and after. *)
Theorem reading_closes_the_body_and_nothing_else (c : ReadCall) (r : Response) :
  let r' := (perform c r).2 in
  once r' = true
  ∧ closed (Body (resp r')) = (negb (once r) || closed (Body (resp r)))
  ∧ StatusCode (resp r') = StatusCode (resp r)
  ∧ Status (resp r') = Status (resp r)
  ∧ Header (resp r') = Header (resp r)
  ∧ Uncompressed (resp r') = Uncompressed (resp r)
  ∧ Status_ r' = Status_ r ∧ StatusText r' = StatusText r ∧ IsOK r' = IsOK r.
Proof.
  cbn zeta. rewrite perform_fromCache. cbn [snd].
  split; [apply cacheBody_done|].
  unfold Status_, StatusText, IsOK, cacheBody.
  destruct (once r); [done|].
  unfold set_once. cbn [resp]. rewrite cacheBody_once_resp. done.
Qed.

(** X5. When the body stream fails while it is first read, nothing is
    cached (the bytes delivered before the failure are dropped, whatever
    the encoding and the [Uncompressed] mark), the recorded error wraps
    the error of the stream with the status code and the
    [Content-Encoding] header as received, and [Json] returns that error
    and leaves its target as it was. *)
Theorem failed_read_caches_nothing (r : Response) (e : error) :
  once r = false →
  fault (source (Body (resp r))) = Some e →
  let err :=
    ErrorfW "read raw body failed" (StatusCode (resp r))
      (Header_Get (Header (resp r)) "Content-Encoding") e in
  (Bytes r).1 = (body r, Some err)
  ∧ (String_ r).1 = (string_of_list_byte (body r), Some err)
  ∧ ∀ v, (Json v r).1 = (Some err, v).
Proof.
  intros Honce Hfault.
  destruct (cacheBody_read_failure r e Honce Hfault) as [Hbody Herr].
  cbn zeta. unfold Bytes, String_, Json. rewrite Hbody, Herr. done.
Qed.

(** X6. After the first read, no error is recorded exactly when the
    stream was read to its end and either the transport had decompressed
    the body, or the declared encoding is neither gzip nor deflate, or
    the gzip reader succeeded on a gzip body, or one of the zlib and raw
    deflate readers succeeded on a deflate body. *)
Theorem no_error_iff_read_and_decoded (r : Response) :
  once r = false →
  readErr (cacheBody r) = None
  ↔ fault (source (Body (resp r))) = None
    ∧ (Uncompressed (resp r) = true
       ∨ (declaredEncoding (resp r) = "gzip"
          ∧ ∃ dec, gunzip (rawBytes r) = inr dec)
       ∨ (declaredEncoding (resp r) = "deflate"
          ∧ ((∃ dec, zlibInflate (rawBytes r) = inr dec)
             ∨ ∃ dec, rawInflate (rawBytes r) = inr dec))
       ∨ (declaredEncoding (resp r) ≠ "gzip"
          ∧ declaredEncoding (resp r) ≠ "deflate")).
Proof.
  intros Honce.
  destruct (fault (source (Body (resp r)))) as [e|] eqn:Hfault.
  { destruct (cacheBody_read_failure r e Honce Hfault) as [_ ->].
    split; [discriminate|]. by intros [? _]. }
  destruct (Uncompressed (resp r)) eqn:Hunc.
  { destruct (cacheBody_uncompressed r Honce Hfault Hunc) as [_ ->].
    split; [|done]. intros _. split; [done|]. by left. }
  pose proof (cacheBody_switch r Honce Hfault Hunc) as Hsw. cbn zeta in Hsw.
  destruct (String.eqb_spec (declaredEncoding (resp r)) "gzip") as [Hg|Hg].
  { destruct (gunzip (rawBytes r)) as [err|dec] eqn:Hgz.
    - destruct Hsw as [_ [x Hx]]. rewrite Hx. split; [discriminate|].
      intros (_ & [?|[(_ & ? & ?)|[(Hd & _)|(? & _)]]]); try done.
      rewrite Hg in Hd. discriminate Hd.
    - destruct Hsw as [_ ->]. split; [|done]. intros _. split; [done|].
      right. left. eauto. }
  destruct (String.eqb_spec (declaredEncoding (resp r)) "deflate") as [Hd|Hd].
  { destruct (zlibInflate (rawBytes r)) as [err|dec] eqn:Hz.
    - destruct (rawInflate (rawBytes r)) as [err'|dec] eqn:Hf.
      + destruct Hsw as [_ [x Hx]]. rewrite Hx. split; [discriminate|].
        intros (_ & [?|[(? & _)|[(_ & [[? ?]|[? ?]])|(_ & ?)]]]); done.
      + destruct Hsw as [_ ->]. split; [|done]. intros _. split; [done|].
        right. right. left. split; [done|]. right. eauto.
    - destruct Hsw as [_ ->]. split; [|done]. intros _. split; [done|].
      right. right. left. split; [done|]. left. eauto. }
  destruct Hsw as [_ ->]. split; [|done]. intros _. split; [done|].
  right. right. right. done.
Qed.

(** X7. [ToFile] after a successful [Bytes]: when [continue.html] can be
    written, it holds exactly the bytes that [Bytes] returned, every other
    file is as before and [ToFile] returns nil; when it cannot, the file
    system is as before and [ToFile] returns an error. *)
Theorem ToFile_writes_what_Bytes_returned
    (filename : string) (r : Response) (fs : FileSystem) (b : list byte) :
  (Bytes r).1 = (b, None) →
  let r' := (Bytes r).2 in
  let fs' := (ToFile filename r' fs).2 in
  ("continue.html" ∉ unwritable fs →
     (ToFile filename r' fs).1 = None
     ∧ files_of fs' !! "continue.html" = Some b
     ∧ (∀ path, path ≠ "continue.html" →
          files_of fs' !! path = files_of fs !! path)
     ∧ unwritable fs' = unwritable fs)
  ∧ ("continue.html" ∈ unwritable fs →
       is_Some (ToFile filename r' fs).1 ∧ fs' = fs).
Proof.
  unfold Bytes. cbn [fst snd]. intros [= Hbody Herr]. cbn zeta.
  unfold ToFile, os_WriteFile. rewrite Herr, Hbody. split; intros Hw.
  - rewrite decide_False by done. cbn. split_and!; [done| |  |done].
    + apply lookup_insert_eq.
    + intros path Hne. by apply lookup_insert_ne.
  - rewrite decide_True by done. cbn. split; [by eexists|done].
Qed.

End response_reads.

(* ===================================================================== *)
(** * More on the request builder *)
(* ===================================================================== *)

Section builder_more.
Import reqx.
Context `{!Strings, !Textproto, !EncodingJson, !NetUrl, !PathFilepath,
          !MimeMultipart, !ContextPkg, !NetHttp, !MapRange}.

Lemma mutated_mutated (rb : ptr) (b1 b2 : RequestBuilder)
    (out1 out2 : list string) (w : World) :
  mutated rb b2 out2 (mutated rb b1 out1 w) = mutated rb b2 (out1 ++ out2) w.
Proof. unfold mutated. cbn. by rewrite insert_insert_eq, app_assoc. Qed.

Lemma mutated_lookup (rb : ptr) (b : RequestBuilder) (out : list string)
    (w : World) :
  heap (mutated rb b out w) !! rb = Some b.
Proof. apply lookup_insert_eq. Qed.

Lemma mutated_set_heap (rb : ptr) (b : RequestBuilder) (w : World) :
  mutated rb b [] w = set_heap (<[rb := b]> (heap w)) w.
Proof. unfold mutated, set_heap. by rewrite app_nil_r. Qed.

(** *** Query parameters *)

Lemma setValues_entries (entries : list (string * string)) (p : url_Values) :
  setValues entries p
  = foldl (λ f kv, <[kv.1 := kv.2]> f) p
      (prod_map id (λ v, [v]) <$> entries).
Proof.
  revert p. induction entries as [|[k v] rest IH]; intros p; [done|].
  cbn. apply IH.
Qed.

Lemma setValues_union (entries : list (string * string))
    (ps : gmap string string) (p : url_Values) :
  entries ≡ₚ map_to_list ps →
  setValues entries p = ((λ v, [v]) <$> ps) ∪ p.
Proof.
  intros Hperm. rewrite setValues_entries, foldl_insert_union.
  - rewrite list_to_map_fmap. do 2 f_equal.
    symmetry. apply list_to_map_flip. by symmetry.
  - rewrite <- list_fmap_compose.
    rewrite (list_fmap_ext _ fst entries) by (by intros ? []).
    rewrite Hperm. apply NoDup_fst_map_to_list.
Qed.

Lemma set_params_same (b : RequestBuilder) : set_params (params b) b = b.
Proof. by destruct b. Qed.

Lemma chain_Param (rb : ptr) (entries : list (string * string)) :
  ∀ (b : RequestBuilder) (w : World),
  heap w !! rb = Some b →
  chain ((λ kv, CallParam kv.1 kv.2) <$> entries) rb w
  = Returned rb
      (mutated rb (set_params (setValues entries (params b)) b) [] w).
Proof.
  induction entries as [|[k v] rest IH]; intros b w Hb.
  - cbn. by rewrite set_params_same, mutated_same.
  - cbn [fmap list_fmap chain invoke fst snd]. unfold Param.
    rewrite (bind_Returned _ _ _ _ _ (assign_ok rb _ b w Hb)).
    rewrite (IH _ _ (mutated_lookup _ _ _ _)). by rewrite mutated_mutated.
Qed.

(** X8. [Params] sets every entry of its map as the only value of its
    key: the parameters afterwards are those entries over the parameters
    there were, whatever the order in which the map is ranged over, and
    the call does what one [Param] call for every entry does, in any
    order. *)
Theorem Params_is_Param_for_every_entry
    (rb : ptr) (b : RequestBuilder) (w : World) (ps : gmap string string) :
  heap w !! rb = Some b →
  Params ps rb w
  = Returned rb
      (set_heap
         (<[rb := set_params (((λ v, [v]) <$> ps) ∪ params b) b]> (heap w)) w)
  ∧ ∀ entries : list (string * string),
      entries ≡ₚ map_to_list ps →
      chain ((λ kv, CallParam kv.1 kv.2) <$> entries) rb w = Params ps rb w.
Proof.
  intros Hb.
  assert (Params ps rb w
          = Returned rb
              (mutated rb (set_params (((λ v, [v]) <$> ps) ∪ params b) b) [] w))
    as HParams.
  { unfold Params. rewrite (assign_ok rb _ b w Hb).
    by rewrite (setValues_union _ ps _ (map_range_perm _ ps)). }
  split.
  - by rewrite HParams, mutated_set_heap.
  - intros entries Hperm.
    rewrite HParams, (chain_Param rb entries b w Hb).
    by rewrite (setValues_union entries ps _ Hperm).
Qed.

(** The inner loop of [ParamsValues]. *)
Lemma add_all_values (k : string) (vs : list string) : ∀ p : url_Values,
  foldl (λ p v, Values_Add p k v) p vs
  = match vs with
    | [] => p
    | _ => <[k := default [] (p !! k) ++ vs]> p
    end.
Proof.
  induction vs as [|v vs IH]; intros p; [done|].
  cbn [foldl]. rewrite IH. destruct vs as [|v' vs]; [done|].
  unfold Values_Add. rewrite lookup_insert_eq, insert_insert_eq.
  cbn [from_option id]. by rewrite <- app_assoc.
Qed.

Lemma addValues_lookup (entries : list (string * list string)) :
  ∀ (p : url_Values) (k : string),
  NoDup entries.*1 →
  addValues entries p !! k
  = match (list_to_map entries : url_Values) !! k with
    | Some (v :: vs) => Some (default [] (p !! k) ++ v :: vs)
    | _ => p !! k
    end.
Proof.
  induction entries as [|[k0 vs0] rest IH]; intros p k Hnd; [done|].
  rewrite fmap_cons in Hnd. apply NoDup_cons in Hnd as [Hk0 Hnd].
  unfold addValues. cbn [foldl fst snd]. rewrite add_all_values.
  fold (addValues rest
          match vs0 with
          | [] => p
          | _ => <[k0 := default [] (p !! k0) ++ vs0]> p
          end).
  rewrite (IH _ k Hnd).
  change (list_to_map ((k0, vs0) :: rest))
    with (<[k0 := vs0]> (list_to_map rest : url_Values)).
  destruct (decide (k0 = k)) as [->|Hne].
  - rewrite lookup_insert_eq.
    rewrite (not_elem_of_list_to_map_1 (M := gmap string) rest k Hk0).
    destruct vs0; [done|]. by rewrite lookup_insert_eq.
  - rewrite lookup_insert_ne by done.
    destruct vs0; [done|]. by rewrite lookup_insert_ne.
Qed.

(** X9. [ParamsValues] appends: under every key of its argument that has
    values, these come after the values the builder had under that key,
    in their order; a key without values adds nothing, not even the key;
    the other parameters stay; and no other field changes, whatever the
    order in which the argument is ranged over. *)
Theorem ParamsValues_appends
    (rb : ptr) (b : RequestBuilder) (w : World) (values : url_Values) :
  heap w !! rb = Some b →
  ∃ p : url_Values,
    ParamsValues values rb w
    = Returned rb (set_heap (<[rb := set_params p b]> (heap w)) w)
    ∧ ∀ k,
        p !! k
        = match values !! k with
          | Some (v :: vs) => Some (default [] (params b !! k) ++ v :: vs)
          | _ => params b !! k
          end.
Proof.
  intros Hb. exists (addValues (map_range values) (params b)). split.
  - unfold ParamsValues. by rewrite (assign_ok rb _ b w Hb), mutated_set_heap.
  - intros k. destruct (range_to_map values) as [Hnd Hm].
    by rewrite (addValues_lookup _ _ k Hnd), Hm.
Qed.

(** *** Chains *)

Lemma panicOf_mutated (c : Call) (rb : ptr) (b : RequestBuilder)
    (out : list string) (w : World) :
  panicOf c (mutated rb b out w) = panicOf c w.
Proof. by destruct c. Qed.

(** The outcome of a chain on an allocated builder. *)
Lemma chain_outcome (calls : list Call) (rb : ptr) :
  ∀ (b : RequestBuilder) (w : World),
  heap w !! rb = Some b →
  match chain calls rb w with
  | Returned rb' w' =>
      rb' = rb ∧ Forall (λ c, panicOf c w = None) calls
      ∧ ∃ b' out, w' = mutated rb b' out w
  | Panicked v w' =>
      ∃ pre c post,
        calls = pre ++ c :: post
        ∧ Forall (λ c, panicOf c w = None) pre
        ∧ panicOf c w = Some v
        ∧ chain pre rb w = Returned rb w'
  end.
Proof.
  induction calls as [|c rest IH]; intros b w Hb.
  - cbn. split_and!; [done..|]. exists b, []. by rewrite mutated_same.
  - cbn [chain]. pose proof (invoke_outcome c rb b w Hb) as Hc.
    destruct (panicOf c w) as [v|] eqn:Hpanic.
    + rewrite (bind_Panicked _ _ _ _ _ Hc). by exists [], c, rest.
    + destruct Hc as (b1 & out1 & Hc).
      rewrite (bind_Returned _ _ _ _ _ Hc).
      specialize (IH b1 _ (mutated_lookup rb b1 out1 w)).
      destruct (chain rest rb (mutated rb b1 out1 w)) as [rb' w'|v w'].
      * destruct IH as (-> & Hrest & b' & out & ->). split_and!; [done| |].
        -- constructor; [done|].
           eapply Forall_impl; [exact Hrest|]. intros c' Hc'.
           cbn beta in Hc'. by rewrite panicOf_mutated in Hc'.
        -- eexists _, _. apply mutated_mutated.
      * destruct IH as (pre & c' & post & -> & Hpre & Hc' & Hrun).
        exists (c :: pre), c', post. split_and!; [done| | |].
        -- constructor; [done|].
           eapply Forall_impl; [exact Hpre|]. intros c'' Hc''.
           cbn beta in Hc''. by rewrite panicOf_mutated in Hc''.
        -- cbn beta in Hc'. by rewrite panicOf_mutated in Hc'.
        -- cbn [chain]. by rewrite (bind_Returned _ _ _ _ _ Hc).
Qed.

Lemma chain_frame
    (calls : list Call) (rb rb' : ptr) (b : RequestBuilder) (w w' : World) :
  heap w !! rb = Some b →
  chain calls rb w = Returned rb' w' →
  rb' = rb
  ∧ is_Some (heap w' !! rb)
  ∧ (∀ other, other ≠ rb → heap w' !! other = heap w !! other)
  ∧ fs w' = fs w
  ∧ globalClient w' = globalClient w
  ∧ globalClientOnce w' = globalClientOnce w
  ∧ writers w' = writers w
  ∧ sent w' = sent w
  ∧ ∃ out, stdout w' = stdout w ++ out.
Proof.
  intros Hb Hrun. pose proof (chain_outcome calls rb b w Hb) as Hout.
  rewrite Hrun in Hout. destruct Hout as (-> & _ & b' & out & ->).
  split_and!; try done.
  - rewrite mutated_lookup. by eexists.
  - intros other Hne. cbn. by rewrite lookup_insert_ne.
  - by exists out.
Qed.

(** X10. A chain of configuration calls on a builder that returns has
    returned the pointer it started from, has left every other builder,
    the file system, the process-wide client, the count of writers and
    the requests sent as they were, and has at most appended lines to
    standard output. *)
Theorem chain_changes_its_builder_only
    (calls : list Call) (rb rb' : ptr) (b : RequestBuilder) (w w' : World) :
  heap w !! rb = Some b →
  chain calls rb w = Returned rb' w' →
  rb' = rb
  ∧ is_Some (heap w' !! rb)
  ∧ (∀ other, other ≠ rb → heap w' !! other = heap w !! other)
  ∧ fs w' = fs w
  ∧ globalClient w' = globalClient w
  ∧ globalClientOnce w' = globalClientOnce w
  ∧ writers w' = writers w
  ∧ sent w' = sent w
  ∧ ∃ out, stdout w' = stdout w ++ out.
Proof. apply chain_frame. Qed.

(** X11. A chain on a builder returns exactly when none of its calls is a
    [Json] on data that cannot be marshalled or a [File] on a file that
    cannot be opened. Otherwise it panics at the first such call, with the
    panic of that call, and the calls before it have taken effect. *)
Theorem chain_panics_at_first_failing_call
    (calls : list Call) (rb : ptr) (b : RequestBuilder) (w : World) :
  heap w !! rb = Some b →
  ((∃ w', chain calls rb w = Returned rb w')
   ↔ Forall (λ c, panicOf c w = None) calls)
  ∧ ∀ v w', chain calls rb w = Panicked v w' →
      ∃ pre c post,
        calls = pre ++ c :: post
        ∧ Forall (λ c, panicOf c w = None) pre
        ∧ panicOf c w = Some v
        ∧ chain pre rb w = Returned rb w'.
Proof.
  intros Hb. pose proof (chain_outcome calls rb b w Hb) as Hout.
  destruct (chain calls rb w) as [rb' w'|v w'].
  - destruct Hout as (-> & Hall & _). split; [|discriminate].
    split; [done|]. by exists w'.
  - split.
    + destruct Hout as (pre & c & post & -> & _ & Hc & _).
      split; [by intros [? [=]]|]. intros Hall.
      apply Forall_app in Hall as [_ Hall].
      apply Forall_cons in Hall as [Hnone _]. congruence.
    + by intros v' w'' [= <- <-].
Qed.

(** *** Execution, continued *)

(** The loop of the copy, when it ends and when it stops. *)
Lemma copyFiles_returns (entries : list (string * multipartFile)) :
  ∀ acc written : list Part,
  copyFiles entries acc = inr written
  ↔ Forall (λ kf, fault (Reader kf.2) = None) entries
    ∧ written = acc ++ (fileParts entries).
Proof.
  induction entries as [|[k f] rest IH]; intros acc written.
  - cbn. rewrite app_nil_r. split; [by intros [= ->]|by intros [_ ->]].
  - cbn [copyFiles]. unfold io_ReadAll.
    destruct (fault (Reader f)) as [e|] eqn:Hf.
    + split; [discriminate|]. intros [Hall _].
      apply Forall_cons in Hall as [Hk _]. cbn in Hk. congruence.
    + rewrite IH. unfold fileParts. cbn [fmap list_fmap fst snd].
      rewrite <- app_assoc. cbn [app].
      split; intros [Hall ->]; (split; [|done]).
      * by constructor.
      * by apply Forall_cons in Hall as [_ ?].
Qed.



(** The state of the process when [Do] returns, from the state the [if]
    chain left. *)
Lemma Do_world (rb : ptr) (b : RequestBuilder) (w w' : World)
    (client : list (option Client))
    (out : option response.Response * option error) :
  heap w !! rb = Some b →
  Do rb client w = Returned out w' →
  ∃ early w1,
    serializeBody rb w = Returned early w1
    ∧ heap w' = heap w1 ∧ fs w' = fs w1 ∧ stdout w' = stdout w1
    ∧ writers w' = writers w1
    ∧ (is_Some early → w' = w1)
    ∧ ((globalClient w' = globalClient w1
        ∧ globalClientOnce w' = globalClientOnce w1
        ∧ (sent w' = sent w1 ∨ globalClientOnce w1 = true
           ∨ ∃ c rest, client = Some c :: rest))
       ∨ (globalClientOnce w1 = false
          ∧ globalClient w' = Some defaultClient
          ∧ globalClientOnce w' = true
          ∧ ∀ c rest, client ≠ Some c :: rest)).
Proof.
  intros Hb Hdo. unfold Do in Hdo.
  rewrite (bind_Returned (deref rb) _ w w b (deref_ok rb b w Hb)) in Hdo.
  apply bind_Returned_inv in Hdo as (u' & w0 & Hu & Hdo).
  assert (w0 = w) as ->.
  { destruct (bool_decide (0 < size (params b))%nat),
      (url_Parse (url b)); unfold mret, M_ret, panic in Hu; by simplify_eq. }
  apply bind_Returned_inv in Hdo as (early & w1 & Hser & Hdo).
  exists early, w1. split; [done|].
  destruct early as [err|].
  { unfold mret, M_ret in Hdo. injection Hdo as <- <-.
    split_and!; try done. left. split_and!; try done. by left. }
  destruct (serializeBody_goes_on rb b w w1 Hb Hser)
    as (_ & _ & _ & b' & Hb' & _).
  rewrite (bind_Returned (deref rb) _ w1 w1 b' (deref_ok rb b' w1 Hb')) in Hdo.
  apply bind_Returned_inv in Hdo as (reqCtx & w2 & HreqCtx & Hdo).
  assert (w2 = w1) as ->.
  { destruct (trace b'), (ctx b'); unfold mret, M_ret, panic in HreqCtx;
      by simplify_eq. }
  apply bind_Returned_inv in Hdo as (ustr & w2 & Hustr & Hdo).
  assert (w2 = w1) as ->.
  { destruct u'; unfold mret, M_ret, panic in Hustr; by simplify_eq. }
  destruct (http_NewRequestWithContext _ _ _ _) as [err|req].
  { unfold mret, M_ret in Hdo. injection Hdo as <- <-.
    split_and!; try done; try (by intros [? [=]]).
    left. split_and!; try done. by left. }
  apply bind_Returned_inv in Hdo as (c' & w2 & Hc & Hdo).
  destruct c' as [c|]; [|discriminate Hdo].
  apply bind_Returned_inv in Hdo as (r & w3 & Hsend & Hdo).
  injection Hsend as <- <-.
  assert (w' = mkWorld (heap w2) (fs w2) (stdout w2) (globalClient w2)
                 (globalClientOnce w2) (writers w2)
                 (sent w2 ++ [(c, with_header req
                                     (addHeaders (map_range (headers b'))
                                        (req_header req)))])) as ->.
  { destruct (Client_Do c _); unfold mret, M_ret in Hdo;
      by injection Hdo as <- <-. }
  cbn [heap fs stdout writers globalClient globalClientOnce sent].
  destruct client as [|[c0|] rest].
  - unfold getGlobalClient in Hc.
    destruct (globalClientOnce w1) eqn:Honce; injection Hc as Hgc <-.
    + split_and!; try done; try (by intros [? [=]]).
      left. split_and!; try done. right. by left.
    + split_and!; try done; try (by intros [? [=]]). by right.
  - unfold mret, M_ret in Hc. injection Hc as <- <-.
    split_and!; try done; try (by intros [? [=]]).
    left. split_and!; try done. right. right. by eexists _, _.
  - unfold getGlobalClient in Hc.
    destruct (globalClientOnce w1) eqn:Honce; injection Hc as Hgc <-.
    + split_and!; try done; try (by intros [? [=]]).
      left. split_and!; try done. right. by left.
    + split_and!; try done; try (by intros [? [=]]). by right.
Qed.


(** X13. The body of the request that [Do] hands to the client, mode by
    mode. Multipart: every reader of an attached file was read to its end
    without error, and the body is the encoding, under the boundary of
    the writer, of one file part per attached file (field name, file
    name, content) followed by one field part per form field. JSON and
    raw: the body set by [Json] or [Body]. Form: the URL encoding of the
    form fields, one value per key. *)
Theorem Do_sends_the_body_of_its_mode
    (rb : ptr) (b : RequestBuilder) (w w' : World)
    (client : list (option Client))
    (out : option response.Response * option error)
    (c : Client) (req : Request) :
  heap w !! rb = Some b →
  Do rb client w = Returned out w' →
  sent w' = sent w ++ [(c, req)] →
  match activeMode b with
  | Multipart =>
      map_Forall (λ _ f, fault (Reader f) = None) (files b)
      ∧ req_body req
        = Some (bytes_NewReader
                  (multipart_encode (randomBoundary (writers w))
                     (fileParts (map_range (files b))
                      ++ ((λ kv, FormField kv.1 kv.2)
                            <$> map_range (formFields b)))))
  | FormFields =>
      req_body req
      = Some (bytes_NewReader
                (list_byte_of_string
                   (Values_Encode ((λ v, [v]) <$> formFields b))))
  | JSON | Raw => req_body req = body b
  end.
Proof.
  intros Hb Hdo Hsent.
  destruct (Do_returned rb b w w' client out Hb Hdo)
    as [(Hnone & _) | (b' & u & c0 & req0 & Hb' & _ & _ & _ & _ & Hreq & _
                       & Hsent' & _)].
  { rewrite Hnone in Hsent. apply (f_equal length) in Hsent.
    rewrite length_app in Hsent. cbn in Hsent. lia. }
  rewrite Hsent' in Hsent. apply app_inj_tail in Hsent as [_ [= -> ->]].
  rewrite Hreq. cbn [req_body].
  destruct (Do_world rb b w w' client out Hb Hdo)
    as (early & w1 & Hser & Hheap & _ & _ & _ & Hearly & _).
  rewrite Hheap in Hb'.
  destruct early as [err|].
  { destruct (serializeBody_returns_early rb b w w1 err Hb Hser)
      as (Hsent1 & _).
    rewrite (Hearly ltac:(by eexists)), Hsent1 in Hsent'.
    apply (f_equal length) in Hsent'.
    rewrite length_app in Hsent'. cbn in Hsent'. lia. }
  pose proof (serializeBody_outcome rb b w Hb) as Hout. cbn zeta in Hout.
  destruct (activeMode b) eqn:Hmode.
  - destruct (copyFiles (map_range (files b)) []) as [err|written] eqn:Hcopy;
      rewrite Hout in Hser; [discriminate|].
    injection Hser as <-. rewrite mutated_lookup in Hb'.
    injection Hb' as <-. cbn [body].
    apply copyFiles_returns in Hcopy as [Hall ->]. split; [|done].
    apply map_Forall_to_list. rewrite <- (map_range_perm _ (files b)).
    eapply Forall_impl; [exact Hall|]. by intros [].
  - rewrite Hout in Hser. injection Hser as <-.
    rewrite mutated_lookup in Hb'. by injection Hb' as <-.
  - rewrite Hout in Hser. injection Hser as <-.
    rewrite mutated_lookup in Hb'. injection Hb' as <-. cbn [body].
    rewrite (setValues_union _ (formFields b) _ (map_range_perm _ _)).
    by rewrite (right_id_L ∅ (∪)).
  - rewrite Hout in Hser. injection Hser as <-. congruence.
Qed.


(** X15. The process-wide client: once it is the default client from its
    initialization on (as in every process, where only [getGlobalClient]
    assigns it), it stays so through every [Do]; every [Do] without a
    client argument, or with nil as the first, hands its request to the
    default client, and [Do] with a client hands it to that one and
    leaves the process-wide client as it is, initialized or not. *)
Theorem Do_keeps_the_default_client
    (rb : ptr) (b : RequestBuilder) (w w' : World)
    (client : list (option Client))
    (out : option response.Response * option error) :
  clientReady w →
  heap w !! rb = Some b →
  Do rb client w = Returned out w' →
  clientReady w'
  ∧ (∀ c req, sent w' = sent w ++ [(c, req)] →
       c = match client with Some c0 :: _ => c0 | _ => defaultClient end)
  ∧ match client with
    | Some _ :: _ =>
        globalClient w' = globalClient w
        ∧ globalClientOnce w' = globalClientOnce w
    | _ => sent w' ≠ sent w → globalClientOnce w' = true
    end.
Proof.
  intros Hready Hb Hdo.
  destruct (Do_world rb b w w' client out Hb Hdo)
    as (early & w1 & Hser & _ & _ & _ & _ & Hearly & Hglobal).
  assert (globalClient w1 = globalClient w
          ∧ globalClientOnce w1 = globalClientOnce w
          ∧ sent w1 = sent w) as (Hg1 & Ho1 & Hs1).
  { destruct early as [err|].
    - pose proof (serializeBody_outcome rb b w Hb) as Hout. cbn zeta in Hout.
      destruct (activeMode b); [destruct (copyFiles _ _)|..];
        rewrite Hout in Hser; by simplify_eq.
    - by destruct (serializeBody_goes_on rb b w w1 Hb Hser) as (? & ? & ? & _). }
  rewrite Hg1, Ho1, Hs1 in Hglobal. split_and!.
  - unfold clientReady in *.
    destruct Hglobal as [(-> & -> & _)|(_ & -> & _)]; done.
  - intros c req Hsent.
    destruct (Do_returned rb b w w' client out Hb Hdo)
      as [(Hnone & _) | (_ & _ & c0 & req0 & _ & _ & _ & _ & _ & _ & Hdel
                         & Hsent' & _)].
    { rewrite Hnone in Hsent. apply (f_equal length) in Hsent.
      rewrite length_app in Hsent. cbn in Hsent. lia. }
    rewrite Hsent' in Hsent. apply app_inj_tail in Hsent as [_ [= -> ->]].
    unfold delegate, clientReady in *.
    destruct client as [|[c0|] rest]; [|congruence|].
    + destruct (globalClientOnce w); [rewrite (Hready eq_refl) in Hdel|];
        congruence.
    + destruct (globalClientOnce w); [rewrite (Hready eq_refl) in Hdel|];
        congruence.
  - destruct client as [|[c0|] rest].
    + intros Hsent.
      destruct Hglobal as [(_ & -> & [?|[?|(? & ? & [=])]])|(_ & _ & ? & _)];
        done.
    + destruct Hglobal as [(-> & -> & _)|(_ & _ & _ & Hno)]; [done|].
      by destruct (Hno c0 rest).
    + intros Hsent.
      destruct Hglobal as [(_ & -> & [?|[?|(? & ? & [=])]])|(_ & _ & ? & _)];
        done.
Qed.

(** *** Builders and pointers *)

(** X16. Builders do not share state. Two builders made one after the
    other are at different addresses, neither of them nil; whatever chain
    of calls then configures the first, the second is as its constructor
    left it, and so is every builder there was before. *)
Theorem builders_do_not_share
    (m1 m2 : string) (u1 u2 : list string) (calls : list Call)
    (w w' : World) (r1 r2 : ptr) :
  (rb1 ← Method m1 u1; rb2 ← Method m2 u2; rb1' ← chain calls rb1;
   mret (rb1', rb2)) w = Returned (r1, r2) w' →
  r1 ≠ r2 ∧ r1 ≠ 0%nat ∧ r2 ≠ 0%nat
  ∧ heap w !! r1 = None ∧ heap w !! r2 = None
  ∧ heap w' !! r2
    = Some {| ctx := Some context_Background; method := m2;
              url := match u2 with u :: _ => u | [] => "" end;
              params := ∅; headers := ∅; body := None;
              isJSON := false; isMultipart := false; files := ∅;
              formFields := ∅; trace := None |}
  ∧ ∀ other, is_Some (heap w !! other) → heap w' !! other = heap w !! other.
Proof.
  intros Hrun.
  apply bind_Returned_inv in Hrun as (rb1 & w1 & Hnew1 & Hrun).
  apply bind_Returned_inv in Hrun as (rb2 & w2 & Hnew2 & Hrun).
  apply bind_Returned_inv in Hrun as (rb1' & w3 & Hchain & Hrun).
  unfold mret, M_ret in Hrun. injection Hrun as Hr1 Hr2 Hw. subst r1 r2 w'.
  unfold Method, alloc in Hnew1. injection Hnew1 as Hrb1 Hw1.
  rewrite Hrb1 in Hw1. subst w1.
  unfold Method, alloc in Hnew2. injection Hnew2 as Hrb2 Hw2.
  rewrite Hrb2 in Hw2. subst w2.
  cbn [heap set_heap] in *.
  pose proof (is_fresh ({[0%nat]} ∪ dom (heap w))) as Hfresh1.
  rewrite Hrb1 in Hfresh1.
  match type of Hrb2 with
  | fresh ({[0%nat]} ∪ dom ?h) = _ =>
      pose proof (is_fresh ({[0%nat]} ∪ dom h)) as Hfresh2
  end.
  rewrite Hrb2, dom_insert_L in Hfresh2.
  assert (rb1 ≠ rb2) as Hne by set_solver.
  assert (heap w !! rb1 = None) as Hnone1.
  { apply not_elem_of_dom. set_solver. }
  assert (heap w !! rb2 = None) as Hnone2.
  { apply not_elem_of_dom. set_solver. }
  match type of Hchain with
  | chain _ _ ?w0 = _ => assert (is_Some (heap w0 !! rb1)) as [b1 Hb1]
  end.
  { cbn. rewrite lookup_insert_ne by done. rewrite lookup_insert_eq.
    by eexists. }
  destruct (chain_frame calls rb1 rb1' b1 _ w3 Hb1 Hchain)
    as (-> & _ & Hothers & _).
  cbn [heap set_heap] in Hothers.
  split_and!; [done|set_solver|set_solver|done|done| |].
  - rewrite (Hothers rb2) by done. apply lookup_insert_eq.
  - intros other [bo Hother].
    assert (other ≠ rb1) by congruence. assert (other ≠ rb2) by congruence.
    rewrite (Hothers other) by done. by rewrite !lookup_insert_ne.
Qed.



(** X18. [getGlobalClient] initializes the process-wide client at most
    once: its first call makes it the default client, and every call
    after one call returns the same client and leaves the process as it
    is. *)
Theorem getGlobalClient_initializes_once (w : World) :
  ∃ c w1,
    getGlobalClient w = Returned c w1
    ∧ globalClientOnce w1 = true
    ∧ (globalClientOnce w = false → c = Some defaultClient)
    ∧ (globalClientOnce w = true → w1 = w)
    ∧ getGlobalClient w1 = Returned c w1
    ∧ (clientReady w → c = Some defaultClient ∧ clientReady w1).
Proof.
  unfold getGlobalClient, clientReady.
  destruct (globalClientOnce w) eqn:Honce.
  - exists (globalClient w), w. rewrite Honce. split_and!; try done.
    intros Hready. by rewrite (Hready eq_refl).
  - eexists _, _. split; [reflexivity|]. cbn. by split_and!.
Qed.

(** [Do] on a builder with a trace and a nil context. *)
Lemma Do_trace_on_nil_context (rb : ptr) (b : RequestBuilder)
    (w : World) (client : list (option Client)) (t : ClientTrace) :
  heap w !! rb = Some b →
  trace b = Some t →
  ctx b = None →
  (∃ w1, Do rb client w = Panicked NilDereference w1 ∧ sent w1 = sent w)
  ∨ (∃ err w1,
       Do rb client w = Returned (None, Some err) w1 ∧ sent w1 = sent w
       ∧ activeMode b = Multipart
       ∧ copyFiles (map_range (files b)) [] = inl err).
Proof.
  intros Hb Htrace Hctx. unfold Do.
  rewrite (bind_Returned (deref rb) _ w w b (deref_ok rb b w Hb)).
  assert ((∃ u',
             (if bool_decide (0 < size (params b))%nat
              then match url_Parse (url b) with
                   | Some u =>
                       mret (Some (URL_set_RawQuery u
                                     (Values_Encode (params b))))
                   | None => panic NilDereference
                   end
              else mret (url_Parse (url b))) w = Returned u' w)
          ∨ (if bool_decide (0 < size (params b))%nat
             then match url_Parse (url b) with
                  | Some u =>
                      mret (Some (URL_set_RawQuery u
                                    (Values_Encode (params b))))
                  | None => panic NilDereference
                  end
             else mret (url_Parse (url b))) w = Panicked NilDereference w)
    as [[u' Hu]|Hu].
  { destruct (bool_decide _), (url_Parse (url b)); eauto. }
  2:{ left. exists w. by rewrite (bind_Panicked _ _ w w NilDereference Hu). }
  rewrite (bind_Returned _ _ w w u' Hu).
  destruct (serializeBody_returns rb b w Hb) as (early & w1 & Hser).
  rewrite (bind_Returned _ _ w w1 _ Hser).
  destruct early as [err|].
  - right. exists err, w1.
    by destruct (serializeBody_returns_early rb b w w1 err Hb Hser)
      as (? & ? & ?).
  - left. destruct (serializeBody_goes_on rb b w w1 Hb Hser)
      as (Hsent & _ & _ & b' & Hb' & _ & _ & Hctx' & Htrace' & _).
    rewrite (bind_Returned (deref rb) _ w1 w1 b' (deref_ok rb b' w1 Hb')).
    exists w1. split; [|done]. by rewrite Htrace', Htrace, Hctx', Hctx.
Qed.

(** X19. A builder with a trace and a nil context, as [WithContext(nil)]
    and [WithTrace] leave it: [Do] makes no request and returns no
    response; it panics where the trace is put on the nil context (or
    before, on a URL that does not parse), unless the copy of an attached
    file has failed before. *)
Theorem Do_panics_on_trace_without_context (rb : ptr) (b : RequestBuilder)
    (w : World) (client : list (option Client)) (t : ClientTrace) :
  heap w !! rb = Some b →
  trace b = Some t →
  ctx b = None →
  (∃ w1, Do rb client w = Panicked NilDereference w1 ∧ sent w1 = sent w)
  ∨ (∃ err w1,
       Do rb client w = Returned (None, Some err) w1 ∧ sent w1 = sent w
       ∧ activeMode b = Multipart
       ∧ copyFiles (map_range (files b)) [] = inl err).
Proof. apply Do_trace_on_nil_context. Qed.

(** X24. Two ways to the same builder: [New()] followed by [Method(m)]
    and [URL(u)] leaves the process as [Method(m, u)] does and returns
    the same pointer, and [New()] is [Get()] without a URL. *)
Theorem New_then_Method_URL_is_Method (m u : string) (w : World) :
  (rb ← New; chain [CallMethod m; CallURL u] rb) w = Method m [u] w
  ∧ New w = Get [] w.
Proof.
  split; [|reflexivity].
  unfold New, Method.
  rewrite (bind_Returned (alloc _) _ w _ _ eq_refl).
  unfold alloc. set (rb := fresh _). cbn [chain invoke].
  unfold SetMethod, URL.
  rewrite (bind_Returned _ _ _ _ _
             (assign_ok rb _ _ _ (lookup_insert_eq (heap w) rb _))).
  rewrite (bind_Returned _ _ _ _ _
             (assign_ok rb _ _ _ (mutated_lookup rb _ _ _))).
  unfold mret, M_ret. f_equal.
  rewrite mutated_mutated, mutated_set_heap. unfold set_heap. cbn.
  by rewrite insert_insert_eq.
Qed.

(** X25. [IsJSON] and [Body] do not commute. [Body(data).IsJSON()] leaves
    the builder in JSON mode with [data] as its body, so that [Do] sends
    [data] as [application/json]; [IsJSON().Body(data)] leaves the same
    body, but [Body] has cleared the flag: the mode is raw, or the form
    mode when the builder has form fields. *)
Theorem IsJSON_and_Body_do_not_commute
    (rb : ptr) (b : RequestBuilder) (w : World) (data : list byte) :
  heap w !! rb = Some b →
  (∃ b1,
     chain [CallBody data; CallIsJSON] rb w
     = Returned rb (set_heap (<[rb := b1]> (heap w)) w)
     ∧ body b1 = Some (bytes_NewReader data)
     ∧ activeMode b1 = JSON)
  ∧ (∃ b2,
       chain [CallIsJSON; CallBody data] rb w
       = Returned rb (set_heap (<[rb := b2]> (heap w)) w)
       ∧ body b2 = Some (bytes_NewReader data)
       ∧ activeMode b2
         = if decide (formFields b = ∅) then Raw else FormFields).
Proof.
  intros Hb. split.
  - eexists. split_and!.
    + cbn [chain invoke]. unfold Body, IsJSON.
      rewrite (bind_Returned _ _ _ _ _ (assign_ok rb _ b w Hb)).
      rewrite (bind_Returned _ _ _ _ _
                 (assign_ok rb _ _ _ (mutated_lookup rb _ _ _))).
      unfold mret, M_ret. by rewrite mutated_mutated, mutated_set_heap.
    + reflexivity.
    + reflexivity.
  - eexists. split_and!.
    + cbn [chain invoke]. unfold Body, IsJSON.
      rewrite (bind_Returned _ _ _ _ _ (assign_ok rb _ b w Hb)).
      rewrite (bind_Returned _ _ _ _ _
                 (assign_ok rb _ _ _ (mutated_lookup rb _ _ _))).
      unfold mret, M_ret. by rewrite mutated_mutated, mutated_set_heap.
    + reflexivity.
    + unfold activeMode. cbn.
      destruct (decide (formFields b = ∅)) as [->|Hne].
      * by rewrite map_size_empty.
      * rewrite bool_decide_eq_true_2; [done|].
        apply map_size_non_empty_iff in Hne. lia.
Qed.

(** X26. The request that [Do] hands to the client has the method of
    the builder and the context of the builder, as [WithContext] set it,
    with the trace that [WithTrace] set put on it when there is one. *)
Theorem Do_request_carries_context_and_trace
    (rb : ptr) (b : RequestBuilder) (w w' : World)
    (client : list (option Client))
    (out : option response.Response * option error)
    (c : Client) (req : Request) :
  heap w !! rb = Some b →
  Do rb client w = Returned out w' →
  sent w' = sent w ++ [(c, req)] →
  req_method req = method b
  ∧ match trace b with
    | Some t =>
        ∃ c0, ctx b = Some c0
              ∧ req_ctx req = Some (httptrace_WithClientTrace c0 t)
    | None => req_ctx req = ctx b
    end.
Proof.
  intros Hb Hdo Hsent.
  assert (∀ l : list (Client * Request), l ≠ l ++ [(c, req)]) as Hlen.
  { intros l Hl. apply (f_equal length) in Hl.
    rewrite length_app in Hl. cbn in Hl. lia. }
  destruct (Do_returned rb b w w' client out Hb Hdo)
    as [(Hnone & _) | (b' & u & c0 & req0 & _ & _ & _ & _ & Hcheck & Hreq & _
                       & Hsent' & _)].
  { rewrite Hnone in Hsent. by destruct (Hlen (sent w)). }
  rewrite Hsent' in Hsent. apply app_inj_tail in Hsent as [_ [= -> ->]].
  rewrite Hreq. cbn [req_method req_ctx]. split; [done|].
  unfold requestContext.
  destruct (trace b) as [t|] eqn:Htrace; [|done].
  destruct (ctx b) as [c0|] eqn:Hctx; [by exists c0|].
  destruct (Do_trace_on_nil_context rb b w client t Hb Htrace Hctx)
    as [(w1 & Hpanic & _) | (err & w1 & Hearly & Hsent1 & _)].
  - rewrite Hpanic in Hdo. discriminate Hdo.
  - rewrite Hearly in Hdo. injection Hdo as <- <-.
    rewrite Hsent1 in Hsent'. by destruct (Hlen (sent w)).
Qed.

End builder_more.

(* ===================================================================== *)
(** * The earlier versions against the later ones *)
(* ===================================================================== *)

Section response_versions.
Import response.
Context `{!Strings, !Textproto, !Compress, !EncodingJson}.

Lemma bytes_NewReader_pending (s : Stream) :
  fault s = None → bytes_NewReader (pending s) = s.
Proof. destruct s as [p f]. cbn. by intros ->. Qed.

(** X20. Where the earlier [cacheBody] decodes without error, the later
    one does the same: on a response whose body stream can be read to its
    end, that the transport has not decompressed and whose
    [Content-Encoding] has no comma, if the earlier version records no
    error then the later version leaves the wrapper in the very same
    state, cached bytes included. *)
Theorem later_cacheBody_agrees_where_earlier_decodes (r : Response) :
  once r = false →
  fault (source (Body (resp r))) = None →
  Uncompressed (resp r) = false →
  IndexComma
    (ToLower (TrimSpace (Header_Get (Header (resp r)) "Content-Encoding")))
  = None →
  readErr (response_v1.cacheBody r) = None →
  cacheBody r = response_v1.cacheBody r.
Proof.
  intros Honce Hfault Hunc Hcomma.
  unfold cacheBody, response_v1.cacheBody. rewrite Honce.
  unfold cacheBody_once, response_v1.cacheBody_once, response_v1.readInto,
    ReadCloser_ReadAll, io_ReadAll, selectedEncoding.
  cbn. rewrite Hfault, Hunc, Hcomma, (bytes_NewReader_pending _ Hfault).
  destruct (String.eqb _ "gzip").
  { destruct (gzip_NewReader _) as [e|gz]; [discriminate|]. cbn.
    by intros ->. }
  destruct (String.eqb _ "deflate").
  { destruct (zlib_NewReader _) as [e|zr]; [discriminate|]. cbn.
    by intros ->. }
  destruct (String.eqb _ "br"); by cbn.
Qed.

(** X21. What the earlier [cacheBody] does with a gzip or deflate body
    that its reader refuses or cannot finish. When the reader cannot be
    created, nothing is cached (the later version keeps the raw bytes
    there) and the error is that of the reader as it is, and for deflate
    there is no second attempt with a raw reader; when the reader fails
    later, the bytes decoded until then are cached with its error. The
    body is closed in every case. *)
Theorem earlier_cacheBody_on_failing_decoder (r : Response) :
  once r = false →
  let enc :=
    ToLower (TrimSpace (Header_Get (Header (resp r)) "Content-Encoding")) in
  let reader := source (Body (resp r)) in
  ∀ decoder : Stream → error + Stream,
    (enc = "gzip" ∧ decoder = gzip_NewReader)
    ∨ (enc = "deflate" ∧ decoder = zlib_NewReader) →
    closed (Body (resp (response_v1.cacheBody r))) = true
    ∧ match decoder reader with
      | inl e => (response_v1.Bytes r).1 = (body r, Some e)
      | inr decoded =>
          (response_v1.Bytes r).1 = (pending decoded, fault decoded)
      end.
Proof.
  intros Honce enc reader decoder Hdec.
  unfold response_v1.Bytes, response_v1.cacheBody. rewrite Honce.
  unfold response_v1.cacheBody_once, response_v1.readInto, io_ReadAll.
  cbn. fold enc reader.
  destruct Hdec as [[Henc ->]|[Henc ->]]; rewrite Henc; cbn.
  - destruct (gzip_NewReader reader); by cbn.
  - destruct (zlib_NewReader reader); by cbn.
Qed.

End response_versions.

Section builder_versions.
Import reqx.
Context `{!Strings, !Textproto, !EncodingJson, !NetUrl, !PathFilepath,
          !MimeMultipart, !ContextPkg, !NetHttp, !MapRange}.

Lemma serializeBody_v1 (rb : ptr) (b : RequestBuilder) (w : World) :
  heap w !! rb = Some b →
  activeMode b ≠ FormFields →
  reqx_v1.serializeBody rb w = serializeBody rb w.
Proof.
  intros Hb Hmode. unfold reqx_v1.serializeBody, serializeBody.
  rewrite !(bind_Returned (deref rb) _ w w b (deref_ok rb b w Hb)).
  unfold activeMode in Hmode.
  destruct (isMultipart b && bool_decide (0 < size (files b))%nat); [done|].
  destruct (isJSON b); [done|].
  by destruct (bool_decide (0 < size (formFields b))%nat).
Qed.


(** X22. The later [Do] does what the earlier [DoCtx] did on the context
    of the builder, and what the earlier [Do] did when that context is
    the background context: on every builder without a trace whose
    active mode is not the form mode (which the earlier version has
    not), the two return or panic alike and leave the process in the
    same state. *)
Theorem later_Do_does_what_earlier_DoCtx_did
    (rb : ptr) (b : RequestBuilder) (w : World)
    (client : list (option Client)) :
  heap w !! rb = Some b →
  activeMode b ≠ FormFields →
  trace b = None →
  Do rb client w = reqx_v1.DoCtx (ctx b) rb client w
  ∧ (ctx b = Some context_Background →
       Do rb client w = reqx_v1.Do rb client w).
Proof.
  intros Hb Hmode Htrace.
  assert (Do rb client w = reqx_v1.DoCtx (ctx b) rb client w) as Heq.
  { unfold Do, reqx_v1.DoCtx, reqx_v1.execute.
    rewrite !(bind_Returned (deref rb) _ w w b (deref_ok rb b w Hb)).
    unfold mbind, M_bind.
    destruct (bool_decide (0 < size (params b))%nat), (url_Parse (url b));
      unfold mret, M_ret, panic; try done;
      rewrite (serializeBody_v1 rb b w Hb Hmode);
      destruct (serializeBody rb w) as [[err|] w1|] eqn:Hser; try done;
      destruct (serializeBody_goes_on rb b w w1 Hb Hser)
        as (_ & _ & _ & b' & Hb' & _ & _ & Hctx' & Htrace' & _);
      rewrite (deref_ok rb b' w1 Hb'), Htrace', Htrace, ?Hctx'; done. }
  split; [done|]. intros Hctx. rewrite Heq, Hctx. reflexivity.
Qed.


End builder_versions.

(* ===================================================================== *)
(** * Worked examples *)
(* ===================================================================== *)

Section response_examples.
Import response.
#[local] Existing Instances Sample.strings Sample.textproto Sample.compress
  Sample.encodingJson.

(** A gzip body under [Content-Encoding: GZIP, br] is decompressed. *)
Lemma decoding_selects_by_encoding_witness :
  let r := newResponse (Sample.reply " GZIP , br" Sample.gzip_hi false None) in
  (once r = false ∧ Uncompressed (resp r) = false
   ∧ fault (source (Body (resp r))) = None)
  ∧ decodedByEncoding r
  ∧ body (cacheBody r) = Sample.hi.
Proof.
  cbn zeta. split; [by split_and!|]. split; [|reflexivity].
  apply decoding_selects_by_encoding; reflexivity.
Defined.

(** C1 as stated fails on a response that the transport has decompressed
    and that still declares gzip: its stream holds a gzip stream that
    decompresses to [hi], and the cached body is that stream itself. *)
Lemma uncompressed_gzip_is_not_decoded :
  let r := newResponse (Sample.reply "gzip" Sample.gzip_hi true None) in
  declaredEncoding (resp r) = "gzip"
  ∧ gunzip (rawBytes r) = inr Sample.hi
  ∧ body (cacheBody r) = Sample.gzip_hi
  ∧ ¬ decodedByEncoding r.
Proof.
  cbn zeta. split_and!; try reflexivity.
  intros [Hgzip _]. specialize (Hgzip eq_refl Sample.hi eq_refl).
  vm_compute in Hgzip. discriminate Hgzip.
Qed.

(** Nor does C1 hold when the stream fails: nothing is cached. *)
Lemma failed_read_is_not_decoded :
  let r :=
    newResponse
      (Sample.reply "" Sample.hi false (Some (External "connection reset"))) in
  body (cacheBody r) = [] ∧ ¬ decodedByEncoding r.
Proof.
  cbn zeta. split; [reflexivity|].
  intros (_ & _ & _ & Hraw).
  assert (body (cacheBody (newResponse
            (Sample.reply "" Sample.hi false (Some (External "connection reset")))))
          = Sample.hi) as Hbody by (apply Hraw; vm_compute; discriminate).
  vm_compute in Hbody. discriminate Hbody.
Qed.

(** A zlib stream sent as gzip: the gzip reader refuses it. *)
Lemma failed_decompression_keeps_raw_witness :
  let r := newResponse (Sample.reply "gzip" Sample.zlib_hi false None) in
  decompressionFails r
  ∧ body (cacheBody r) = Sample.zlib_hi
  ∧ (performAll [CallJson (Sample.VString "old"); CallBytes] r).1
    = [GotJson
         (Some (ErrorfW "gzip.NewReader failed" 200 "gzip"
                  (External "gzip: invalid header")))
         (Sample.VString "old");
       GotBytes Sample.zlib_hi
         (Some (ErrorfW "gzip.NewReader failed" 200 "gzip"
                  (External "gzip: invalid header")))].
Proof.
  cbn zeta.
  assert (decompressionFails
            (newResponse (Sample.reply "gzip" Sample.zlib_hi false None)))
    as Hfails.
  { split_and!; try reflexivity. left. split; [reflexivity|].
    eexists. reflexivity. }
  split; [exact Hfails|].
  destruct (failed_decompression_keeps_raw _ Hfails) as (Hbody & e & He & Hcalls).
  split; [exact Hbody|].
  rewrite Hcalls. vm_compute in He. injection He as <-. reflexivity.
Defined.

(** C8 as stated fails when the stream of an [Uncompressed] response ends
    in an error: the bytes it delivered are not cached and an error is
    recorded. *)
Lemma uncompressed_failed_read_records_error :
  let r :=
    newResponse
      (Sample.reply "" Sample.hi true (Some (External "connection reset"))) in
  Uncompressed (resp r) = true
  ∧ rawBytes r = Sample.hi
  ∧ body (cacheBody r) = []
  ∧ readErr (cacheBody r)
    = Some (ErrorfW "read raw body failed" 200 "" (External "connection reset")).
Proof. cbn zeta. split_and!; reflexivity. Qed.

(** A gzip stream on an [Uncompressed] response stays as it is. *)
Lemma uncompressed_body_is_raw_witness :
  let r := newResponse (Sample.reply "gzip" Sample.gzip_hi true None) in
  (once r = false ∧ Uncompressed (resp r) = true
   ∧ fault (source (Body (resp r))) = None)
  ∧ body (cacheBody r) = Sample.gzip_hi
  ∧ readErr (cacheBody r) = None
  ∧ cacheBody r = @cacheBody _ _ Sample.refusing r.
Proof.
  cbn zeta. split; [by split_and!|].
  apply (uncompressed_body_is_raw Sample.compress Sample.refusing
           (newResponse (Sample.reply "gzip" Sample.gzip_hi true None)));
    reflexivity.
Defined.

(** C9 as stated fails once an error is recorded: the cached body is not
    written, to [continue.html] or anywhere else. *)
Lemma ToFile_writes_nothing_after_error :
  let r := cacheBody (newResponse (Sample.reply "gzip" Sample.zlib_hi false None)) in
  let fs := {| files_of := ∅; unwritable := ∅ |} in
  body r = Sample.zlib_hi
  ∧ (ToFile "page.html" r fs).2 = fs
  ∧ ToFile "page.html" r fs ≠ os_WriteFile "continue.html" (body r) fs.
Proof.
  cbn zeta. split_and!; try reflexivity. vm_compute. discriminate.
Qed.


(** A connection that is reset while the body is read. *)
Lemma failed_read_caches_nothing_witness :
  let r :=
    newResponse
      (Sample.reply "gzip" Sample.gzip_hi false
         (Some (External "connection reset"))) in
  let err :=
    ErrorfW "read raw body failed" 200 "gzip" (External "connection reset") in
  (once r = false
   ∧ fault (source (Body (resp r))) = Some (External "connection reset"))
  ∧ (Bytes r).1 = ([], Some err)
  ∧ (Json (Sample.VString "old") r).1 = (Some err, Sample.VString "old").
Proof.
  cbn zeta. split; [by split|].
  destruct (failed_read_caches_nothing
              (newResponse
                 (Sample.reply "gzip" Sample.gzip_hi false
                    (Some (External "connection reset"))))
              (External "connection reset") eq_refl eq_refl)
    as (HBytes & _ & HJson).
  split; [exact HBytes|exact (HJson (Sample.VString "old"))].
Defined.

(** A raw deflate stream under [Content-Encoding: deflate]: the zlib
    reader refuses it, the raw reader decodes it, and no error is left. *)
Lemma no_error_iff_read_and_decoded_witness :
  let r := newResponse (Sample.reply "deflate" Sample.flate_hi false None) in
  once r = false
  ∧ zlibInflate (rawBytes r) = inl (External "zlib: invalid header")
  ∧ rawInflate (rawBytes r) = inr Sample.hi
  ∧ readErr (cacheBody r) = None.
Proof.
  cbn zeta. split_and!; [reflexivity..|].
  apply (no_error_iff_read_and_decoded
           (newResponse (Sample.reply "deflate" Sample.flate_hi false None))
           eq_refl).
  split; [reflexivity|]. right. right. left. split; [reflexivity|].
  right. by exists Sample.hi.
Defined.

(** [Bytes] then [ToFile] on a gzip body: the file holds the decoded
    bytes, under the fixed name. *)
Lemma ToFile_writes_what_Bytes_returned_witness :
  let r := newResponse (Sample.reply "gzip" Sample.gzip_hi false None) in
  let fs := {| files_of := ∅; unwritable := ∅ |} in
  (Bytes r).1 = (Sample.hi, None)
  ∧ files_of (ToFile "page.html" (Bytes r).2 fs).2 !! "continue.html"
    = Some Sample.hi
  ∧ files_of (ToFile "page.html" (Bytes r).2 fs).2 !! "page.html" = None.
Proof.
  cbn zeta.
  assert ((Bytes (newResponse (Sample.reply "gzip" Sample.gzip_hi false None))).1
          = (Sample.hi, None)) as HBytes by reflexivity.
  split; [exact HBytes|].
  destruct (ToFile_writes_what_Bytes_returned "page.html"
              (newResponse (Sample.reply "gzip" Sample.gzip_hi false None))
              {| files_of := ∅; unwritable := ∅ |} Sample.hi HBytes)
    as [Hwritable _].
  destruct (Hwritable ltac:(set_solver)) as (_ & Hfile & Hothers & _).
  split; [exact Hfile|]. by rewrite (Hothers "page.html").
Defined.

(** A gzip body that both versions decode. *)
Lemma later_cacheBody_agrees_where_earlier_decodes_witness :
  let r := newResponse (Sample.reply "gzip" Sample.gzip_hi false None) in
  (once r = false ∧ fault (source (Body (resp r))) = None
   ∧ Uncompressed (resp r) = false
   ∧ readErr (response_v1.cacheBody r) = None)
  ∧ body (response_v1.cacheBody r) = Sample.hi
  ∧ cacheBody r = response_v1.cacheBody r.
Proof.
  cbn zeta. split; [by split_and!|]. split; [reflexivity|].
  apply later_cacheBody_agrees_where_earlier_decodes; reflexivity.
Defined.

(** A raw deflate stream under [Content-Encoding: deflate]: the earlier
    version caches nothing and returns the error of the zlib reader, the
    later one decodes it. *)
Lemma earlier_cacheBody_on_failing_decoder_witness :
  let r := newResponse (Sample.reply "deflate" Sample.flate_hi false None) in
  once r = false
  ∧ (response_v1.Bytes r).1 = ([], Some (External "zlib: invalid header"))
  ∧ closed (Body (resp (response_v1.cacheBody r))) = true
  ∧ (Bytes r).1 = (Sample.hi, None).
Proof.
  cbn zeta. split; [reflexivity|].
  destruct (earlier_cacheBody_on_failing_decoder
              (newResponse (Sample.reply "deflate" Sample.flate_hi false None))
              eq_refl zlib_NewReader)
    as [Hclosed HBytes]; [right; by split|].
  split; [exact HBytes|]. split; [exact Hclosed|reflexivity].
Defined.

End response_examples.

Section builder_examples.
Import reqx.
#[local] Existing Instances Sample.strings Sample.textproto
  Sample.encodingJson Sample.netUrl Sample.pathFilepath Sample.mimeMultipart
  Sample.contextPkg Sample.netHttp Sample.mapRange.

Abbreviation upload := Sample.upload.

(** [Post("http://api.test/upload")] in a process without builders makes
    the builder of the examples at address [1]. *)
Lemma Post_makes_the_sample_builder :
  Post ["http://api.test/upload"]
    (mkWorld ∅ Sample.disk [] None false 0 [])
  = Returned 1%nat (Sample.world upload).
Proof. reflexivity. Qed.

(** [FileBytes] returns its receiver. *)
Lemma chained_call_returns_receiver_witness :
  heap (Sample.world upload) !! 1%nat = Some upload
  ∧ match invoke (CallFileBytes "archivo" "test.txt" Sample.hi) 1%nat
            (Sample.world upload) with
    | Returned rb' w' =>
        rb' = 1%nat
        ∧ panicOf (CallFileBytes "archivo" "test.txt" Sample.hi)
            (Sample.world upload) = None
        ∧ ∃ b' out, w' = mutated 1%nat b' out (Sample.world upload)
    | Panicked v w' =>
        panicOf (CallFileBytes "archivo" "test.txt" Sample.hi)
          (Sample.world upload) = Some v
        ∧ w' = Sample.world upload
    end.
Proof.
  split; [reflexivity|].
  exact (chained_call_returns_receiver
           (CallFileBytes "archivo" "test.txt" Sample.hi) 1%nat upload
           (Sample.world upload) eq_refl).
Defined.

(** C7 as stated fails on [File] with a path that cannot be opened (and
    likewise on [Json] with a channel): the call panics and returns no
    builder. *)
Lemma File_on_missing_path_panics :
  heap (Sample.world upload) !! 1%nat = Some upload
  ∧ invoke (CallFile "doc" "/no/such/file") 1%nat (Sample.world upload)
    = Panicked
        (PanicMsg "No se pudo abrir archivo: "
           (External "open: no such file or directory"))
        (Sample.world upload)
  ∧ invoke (CallJson Sample.VChan) 1%nat (Sample.world upload)
    = Panicked
        (PanicMsg "Error serializando JSON: "
           (External "json: unsupported type: chan int"))
        (Sample.world upload).
Proof. split_and!; reflexivity. Qed.

(** [Headers] with one argument, and with four. *)
Lemma Headers_sets_trimmed_pairs_witness :
  heap (Sample.world upload) !! 1%nat = Some upload
  ∧ Headers ["accept"] 1%nat (Sample.world upload)
    = Returned 1%nat
        (mkWorld {[ 1%nat := upload ]} Sample.disk
           ["Número de argumentos debe ser par"] None false 0 [])
  ∧ Headers [" accept "; " text/html "; "x-id"; "7 "] 1%nat
      (Sample.world upload)
    = Returned 1%nat
        (Sample.world
           (set_headers {[ "Accept" := ["text/html"]; "X-Id" := ["7"] ]}
              upload)).
Proof.
  split; [reflexivity|].
  destruct (Headers_sets_trimmed_pairs 1%nat upload (Sample.world upload)
              ["accept"] eq_refl) as [Hodd _].
  destruct (Headers_sets_trimmed_pairs 1%nat upload (Sample.world upload)
              [" accept "; " text/html "; "x-id"; "7 "] eq_refl) as [_ Heven].
  split.
  - rewrite Hodd; [reflexivity|]. by exists 0%nat.
  - destruct (Heven 2%nat eq_refl) as (kvs & Hlen & Hflat & ->).
    destruct kvs as [|[k1 v1] [|[k2 v2] [|]]]; try discriminate Hlen.
    injection Hflat as <- <- <- <-. reflexivity.
Defined.

(** [Form] then [Body]: the form mode is active. *)
Lemma body_mode_after_calls_witness :
  let calls := [CallForm {[ "campo1" := "valor1" ]}; CallBody Sample.hi] in
  Forall (λ c, isBodyCall c = true) calls
  ∧ heap (Sample.world upload) !! 1%nat = Some upload
  ∧ modeAfter calls upload = FormFields
  ∧ match chain calls 1%nat (Sample.world upload) with
    | Returned rb' w' =>
        rb' = 1%nat
        ∧ ∃ b', heap w' !! 1%nat = Some b'
                ∧ formFields b' = fieldsAfter calls (formFields upload)
                ∧ activeMode b' = modeAfter calls upload
    | Panicked _ _ => False
    end.
Proof.
  cbn zeta.
  assert (Forall (λ c, isBodyCall c = true)
            [CallForm {[ "campo1" := "valor1" ]}; CallBody Sample.hi])
    as Hcalls by (by repeat constructor).
  split_and!; [exact Hcalls|reflexivity|reflexivity|].
  destruct (chain _ 1%nat (Sample.world upload)) as [rb' w'|v w'] eqn:Hrun.
  - exact (body_mode_after_calls _ 1%nat rb' upload (Sample.world upload) w'
             Hcalls eq_refl Hrun).
  - vm_compute in Hrun. discriminate Hrun.
Defined.

(** C4 as stated fails in three ways: a file attached before [Json] does
    not make the request multipart; [Form] after [Json] does not select
    the form mode; [Body] after [Form] does not select the raw mode. *)
Lemma last_call_does_not_select_the_mode :
  let modeOf (calls : list Call) : option BodyMode :=
    match chain calls 1%nat (Sample.world upload) with
    | Returned _ w' => activeMode <$> heap w' !! 1%nat
    | Panicked _ _ => None
    end in
  let attached :=
    [CallFileBytes "archivo" "test.txt" Sample.hi;
     CallJson (Sample.VString "jad")] in
  let formAfterJson :=
    [CallJson (Sample.VString "jad"); CallForm {[ "campo1" := "valor1" ]}] in
  let bodyAfterForm :=
    [CallForm {[ "campo1" := "valor1" ]}; CallBody Sample.hi] in
  (specifiedMode attached = Multipart ∧ modeOf attached = Some JSON)
  ∧ (specifiedMode formAfterJson = FormFields
     ∧ modeOf formAfterJson = Some JSON)
  ∧ (specifiedMode bodyAfterForm = Raw
     ∧ modeOf bodyAfterForm = Some FormFields).
Proof. cbn zeta. split_and!; reflexivity. Qed.

(** A JSON request with a parameter and a header, sent by the default
    client. *)
Lemma Do_request_matches_mode_witness :
  let b :=
    set_headers (Header_Set ∅ "authorization" "Bearer t")
      (set_params {[ "q" := ["valor"] ]}
         (set_isJSON true
            (set_body (Some (bytes_NewReader Sample.hi)) upload))) in
  heap (Sample.world b) !! 1%nat = Some b
  ∧ canonicalHeader (headers b)
  ∧ match Do 1%nat [] (Sample.world b) with
    | Returned out w' =>
        out.2 = None
        ∧ ∃ c req,
            sent w' = [(c, req)]
            ∧ c = defaultClient
            ∧ Header_Get (req_header req) "Content-Type" = "application/json"
            ∧ Header_Get (req_header req) "Authorization" = "Bearer t"
            ∧ req_url req = "http://api.test/upload?q=valor"
    | Panicked _ _ => False
    end.
Proof.
  cbn zeta.
  set (b := set_headers _ _).
  assert (canonicalHeader (headers b)) as Hcanon.
  { apply canonicalHeader_Set, canonicalHeader_empty. }
  split_and!; [reflexivity|exact Hcanon|].
  destruct (Do 1%nat [] (Sample.world b)) as [out w'|v w'] eqn:Hdo.
  - destruct (Do_request_matches_mode 1%nat b (Sample.world b) w' [] out
                eq_refl Hcanon Hdo)
      as [[Hnone _] | (c & req & u & Hsent & Hct & _ & Hu & Hurl & Hh & _)].
    + vm_compute in Hdo. injection Hdo as <- <-. discriminate Hnone.
    + cbn zeta in *. vm_compute in Hdo. injection Hdo as <- <-.
      split; [reflexivity|]. exists c, req.
      injection Hsent as <- <-.
      split_and!; reflexivity.
  - vm_compute in Hdo. discriminate Hdo.
Defined.

(** [Get(":").Do()]: the URL has no scheme, [url.Parse] fails, and [Do]
    panics. *)
Lemma Do_panics_when_url_does_not_parse_witness :
  let b := Sample.builder "GET" ":" in
  heap (Sample.world b) !! 1%nat = Some b
  ∧ url_Parse (url b) = None
  ∧ Do 1%nat [] (Sample.world b) = Panicked NilDereference (Sample.world b).
Proof.
  cbn zeta.
  assert (url_Parse (url (Sample.builder "GET" ":")) = None) as Hu
    by reflexivity.
  split_and!; [reflexivity|exact Hu|].
  destruct (Do_panics_when_url_does_not_parse 1%nat (Sample.builder "GET" ":")
              (Sample.world (Sample.builder "GET" ":")) [] eq_refl Hu)
    as [(w1 & Hdo & _) | (err & w1 & Hdo & _)].
  - rewrite Hdo. vm_compute in Hdo. by injection Hdo as <-.
  - vm_compute in Hdo. discriminate Hdo.
Defined.

(** [Do(nil)] delegates to the default client, [Do(client)] to the
    client. *)
Lemma Do_returns_response_or_error_witness :
  heap (Sample.world upload) !! 1%nat = Some upload
  ∧ match Do 1%nat [Some Sample.ownClient] (Sample.world upload) with
    | Returned out w' =>
        ∃ r req h, out = (Some r, None) ∧ sent w' = [(Sample.ownClient, req)]
                   ∧ Client_Do Sample.ownClient req = inr h
                   ∧ r = response.newResponse h
    | Panicked _ _ => False
    end
  ∧ match (Do 1%nat [None];; Do 1%nat []) (Sample.world upload) with
    | Returned _ w' =>
        (sent w').*1 = [defaultClient; defaultClient] ∧ globalClient w' = Some defaultClient
    | Panicked _ _ => False
    end.
Proof.
  split_and!; [reflexivity| |by vm_compute].
  destruct (Do 1%nat [Some Sample.ownClient] (Sample.world upload)) as [out w'|v w']
    eqn:Hdo.
  - destruct (Do_returns_response_or_error 1%nat upload (Sample.world upload)
                w' [Some Sample.ownClient] out eq_refl Hdo) as [_ Hresp].
    vm_compute in Hdo. injection Hdo as <- <-.
    destruct (Hresp _ eq_refl) as (c & req & h & Hc & Hsent & Hr & Hwrap).
    injection Hc as <-. injection Hsent as <-.
    eexists _, _, h. split_and!; [reflexivity|reflexivity|exact Hr|exact Hwrap].
  - vm_compute in Hdo. discriminate Hdo.
Defined.

(** [Post(url).Header(...).Headers(...)] *)
Lemma built_header_is_canonical_witness :
  let calls :=
    [CallHeader "x-trace" "1"; CallHeaders [" accept "; " text/html "]] in
  let start := mkWorld ∅ Sample.disk [] None false 0 [] in
  (rb0 ← Method "POST" ["http://api.test/upload"]; chain calls rb0) start
  = Returned 1%nat
      (Sample.world
         (set_headers {[ "X-Trace" := ["1"]; "Accept" := ["text/html"] ]}
            upload))
  ∧ canonicalHeader {[ "X-Trace" := ["1"]; "Accept" := ["text/html"] ]}.
Proof.
  cbn zeta.
  assert ((rb0 ← Method "POST" ["http://api.test/upload"];
           chain [CallHeader "x-trace" "1";
                  CallHeaders [" accept "; " text/html "]] rb0)
            (mkWorld ∅ Sample.disk [] None false 0 [])
          = Returned 1%nat
              (Sample.world
                 (set_headers
                    {[ "X-Trace" := ["1"]; "Accept" := ["text/html"] ]}
                    upload))) as Hrun by reflexivity.
  split; [exact Hrun|].
  destruct (built_header_is_canonical _ _ _ _ _ _ Hrun) as (_ & b & Hb & Hcanon).
  injection Hb as <-. exact Hcanon.
Defined.

(** The builder of the examples can be executed. *)
Lemma Do_returns_when_url_parses_witness :
  heap (Sample.world upload) !! 1%nat = Some upload
  ∧ url_Parse (url upload) = Some (Sample.mkUrl "http://api.test/upload" "")
  ∧ trace upload = None
  ∧ globalClientOnce (Sample.world upload) = false
  ∧ ∃ out w', Do 1%nat [] (Sample.world upload) = Returned out w'.
Proof.
  split_and!; [reflexivity..|].
  apply (Do_returns_when_url_parses 1%nat upload (Sample.world upload) []);
    [reflexivity|by eexists|by left|discriminate].
Defined.


(** [Params] with one entry, and the [Param] call for it. *)
Lemma Params_is_Param_for_every_entry_witness :
  let b := set_params {[ "q" := ["old"]; "page" := ["2"] ]} upload in
  heap (Sample.world b) !! 1%nat = Some b
  ∧ Params {[ "q" := "valor" ]} 1%nat (Sample.world b)
    = Returned 1%nat
        (Sample.world
           (set_params {[ "q" := ["valor"]; "page" := ["2"] ]} upload))
  ∧ chain [CallParam "q" "valor"] 1%nat (Sample.world b)
    = Params {[ "q" := "valor" ]} 1%nat (Sample.world b).
Proof.
  cbn zeta.
  set (b := set_params {[ "q" := ["old"]; "page" := ["2"] ]} upload).
  destruct (Params_is_Param_for_every_entry 1%nat b (Sample.world b)
              {[ "q" := "valor" ]} eq_refl) as [HParams Hchain].
  split_and!; [reflexivity|by rewrite HParams|].
  apply (Hchain [("q", "valor")]). by rewrite map_to_list_singleton.
Defined.

(** [ParamsValues] after [Param]: the values come after the one that
    was there. *)
Lemma ParamsValues_appends_witness :
  let b := set_params {[ "q" := ["a"] ]} upload in
  heap (Sample.world b) !! 1%nat = Some b
  ∧ ∃ p : url_Values,
      ParamsValues {[ "q" := ["b"; "c"]; "empty" := [] ]} 1%nat (Sample.world b)
      = Returned 1%nat (Sample.world (set_params p b))
      ∧ p !! "q" = Some ["a"; "b"; "c"]
      ∧ p !! "empty" = None.
Proof.
  cbn zeta. set (b := set_params {[ "q" := ["a"] ]} upload).
  split; [reflexivity|].
  destruct (ParamsValues_appends 1%nat b (Sample.world b)
              {[ "q" := ["b"; "c"]; "empty" := [] ]} eq_refl)
    as (p & Hrun & Hp).
  exists p. split_and!.
  - rewrite Hrun. reflexivity.
  - by rewrite Hp.
  - by rewrite Hp.
Defined.

(** Two builders: a chain on the first leaves the second as it was. *)
Lemma chain_changes_its_builder_only_witness :
  let w :=
    set_heap (<[2%nat := Sample.builder "GET" "http://api.test/"]>
                (heap (Sample.world upload))) (Sample.world upload) in
  let calls := [CallParam "q" "valor"; CallHeaders ["accept"]] in
  heap w !! 1%nat = Some upload
  ∧ match chain calls 1%nat w with
    | Returned rb' w' =>
        rb' = 1%nat
        ∧ heap w' !! 2%nat = Some (Sample.builder "GET" "http://api.test/")
        ∧ sent w' = []
    | Panicked _ _ => False
    end.
Proof.
  cbn zeta. split; [reflexivity|].
  match goal with
  | |- match chain ?calls _ ?w with _ => _ end =>
      destruct (chain calls 1%nat w) as [rb' w'|v w'] eqn:Hrun;
        [destruct (chain_changes_its_builder_only calls 1%nat rb' upload w w'
                     eq_refl Hrun)
           as (-> & _ & Hothers & _ & _ & _ & _ & Hsent & _)|]
  end.
  - split_and!; [done| |done]. by rewrite (Hothers 2%nat).
  - vm_compute in Hrun. discriminate Hrun.
Defined.

(** A chain with a [Json] on a channel in the middle: it panics there,
    and the parameter set before stays set. *)
Lemma chain_panics_at_first_failing_call_witness :
  let calls :=
    [CallParam "q" "valor"; CallJson Sample.VChan; CallURL "http://x.test/"] in
  heap (Sample.world upload) !! 1%nat = Some upload
  ∧ chain calls 1%nat (Sample.world upload)
    = Panicked
        (PanicMsg "Error serializando JSON: "
           (External "json: unsupported type: chan int"))
        (Sample.world (set_params {[ "q" := ["valor"] ]} upload))
  ∧ ∃ pre c post,
      calls = pre ++ c :: post
      ∧ panicOf c (Sample.world upload)
        = Some (PanicMsg "Error serializando JSON: "
                  (External "json: unsupported type: chan int"))
      ∧ chain pre 1%nat (Sample.world upload)
        = Returned 1%nat
            (Sample.world (set_params {[ "q" := ["valor"] ]} upload)).
Proof.
  cbn zeta.
  assert (chain [CallParam "q" "valor"; CallJson Sample.VChan;
                 CallURL "http://x.test/"] 1%nat (Sample.world upload)
          = Panicked
              (PanicMsg "Error serializando JSON: "
                 (External "json: unsupported type: chan int"))
              (Sample.world (set_params {[ "q" := ["valor"] ]} upload)))
    as Hrun by reflexivity.
  split_and!; [reflexivity|exact Hrun|].
  match type of Hrun with
  | chain ?calls _ _ = _ =>
      destruct (chain_panics_at_first_failing_call calls 1%nat upload
                  (Sample.world upload) eq_refl) as [_ Hpanic]
  end.
  destruct (Hpanic _ _ Hrun) as (pre & c & post & Hcalls & _ & Hc & Hpre).
  by exists pre, c, post.
Defined.


(** A form without files: the body is the encoded form. *)
Lemma Do_sends_the_body_of_its_mode_witness :
  let b := set_formFields {[ "campo1" := "valor1" ]} upload in
  heap (Sample.world b) !! 1%nat = Some b
  ∧ activeMode b = FormFields
  ∧ match Do 1%nat [] (Sample.world b) with
    | Returned out w' =>
        ∃ c req,
          sent w' = [(c, req)]
          ∧ req_body req
            = Some (bytes_NewReader (list_byte_of_string "campo1=valor1"))
    | Panicked _ _ => False
    end.
Proof.
  cbn zeta. set (b := set_formFields {[ "campo1" := "valor1" ]} upload).
  split_and!; [reflexivity..|].
  destruct (Do 1%nat [] (Sample.world b)) as [out w'|v w'] eqn:Hdo.
  - pose proof (Do_sends_the_body_of_its_mode 1%nat b (Sample.world b) w' []
                  out) as Hbody.
    specialize (λ c req, Hbody c req eq_refl Hdo).
    vm_compute in Hdo. injection Hdo as <- <-.
    eexists _, _. split; [reflexivity|].
    exact (Hbody _ _ eq_refl).
  - vm_compute in Hdo. discriminate Hdo.
Defined.


(** [Do(nil)] in a process that has not used the default client yet. *)
Lemma Do_keeps_the_default_client_witness :
  clientReady (Sample.world upload)
  ∧ heap (Sample.world upload) !! 1%nat = Some upload
  ∧ match Do 1%nat [None] (Sample.world upload) with
    | Returned out w' =>
        clientReady w' ∧ globalClientOnce w' = true
        ∧ (sent w').*1 = [defaultClient]
    | Panicked _ _ => False
    end.
Proof.
  assert (clientReady (Sample.world upload)) as Hready by (by intros [=]).
  split_and!; [exact Hready|reflexivity|].
  destruct (Do 1%nat [None] (Sample.world upload)) as [out w'|v w'] eqn:Hdo.
  - destruct (Do_keeps_the_default_client 1%nat upload (Sample.world upload)
                w' [None] out Hready eq_refl Hdo) as (Hready' & _ & Honce).
    split; [exact Hready'|].
    vm_compute in Hdo. injection Hdo as <- <-.
    split; [|reflexivity]. by apply Honce.
  - vm_compute in Hdo. discriminate Hdo.
Defined.

(** [Post(url)], [Get()], and a parameter on the first. *)
Lemma builders_do_not_share_witness :
  let start := mkWorld ∅ Sample.disk [] None false 0 [] in
  ∃ w',
    (rb1 ← Method "POST" ["http://api.test/upload"];
     rb2 ← Method "GET" [];
     rb1' ← chain [CallParam "q" "valor"] rb1;
     mret (rb1', rb2)) start
    = Returned (1%nat, 2%nat) w'
    ∧ heap w' !! 2%nat = Some (Sample.builder "GET" "").
Proof.
  cbn zeta.
  destruct ((rb1 ← Method "POST" ["http://api.test/upload"];
             rb2 ← Method "GET" [];
             rb1' ← chain [CallParam "q" "valor"] rb1;
             mret (rb1', rb2)) (mkWorld ∅ Sample.disk [] None false 0 []))
    as [[r1 r2] w'|v w'] eqn:Hrun.
  - destruct (builders_do_not_share _ _ _ _ _ _ _ _ _ Hrun)
      as (_ & _ & _ & _ & _ & Hsecond & _).
    exists w'. vm_compute in Hrun. injection Hrun as <- <- Hw'.
    split; [reflexivity|exact Hsecond].
  - vm_compute in Hrun. discriminate Hrun.
Defined.


(** The builder of the examples: both versions of [Do] do the same. *)
Lemma later_Do_does_what_earlier_DoCtx_did_witness :
  (heap (Sample.world upload) !! 1%nat = Some upload
   ∧ activeMode upload = Raw
   ∧ trace upload = None
   ∧ ctx upload = Some context_Background)
  ∧ Do 1%nat [] (Sample.world upload)
    = reqx_v1.Do 1%nat [] (Sample.world upload).
Proof.
  split; [by split_and!|].
  destruct (later_Do_does_what_earlier_DoCtx_did 1%nat upload
              (Sample.world upload) [] eq_refl) as [_ HDo]; [by vm_compute|done|].
  by apply HDo.
Defined.



(** The first call in a process, and the next. *)
Lemma getGlobalClient_initializes_once_witness :
  ∃ w1,
    getGlobalClient (Sample.world upload) = Returned (Some defaultClient) w1
    ∧ getGlobalClient w1 = Returned (Some defaultClient) w1.
Proof.
  destruct (getGlobalClient_initializes_once (Sample.world upload))
    as (c & w1 & Hfirst & _ & Hc & _ & Hnext & _).
  exists w1. by rewrite <- (Hc eq_refl).
Defined.

(** [WithContext(nil).WithTrace(t).Do()] *)
Lemma Do_panics_on_trace_without_context_witness :
  let b := set_trace (Some Sample.handshake) (set_ctx None upload) in
  chain [CallWithContext None; CallWithTrace (Some Sample.handshake)] 1%nat
    (Sample.world upload)
  = Returned 1%nat (Sample.world b)
  ∧ Do 1%nat [] (Sample.world b) = Panicked NilDereference (Sample.world b).
Proof.
  cbn zeta. split; [reflexivity|].
  destruct (Do_panics_on_trace_without_context 1%nat
              (set_trace (Some Sample.handshake) (set_ctx None upload))
              (Sample.world (set_trace (Some Sample.handshake) (set_ctx None upload)))
              [] Sample.handshake eq_refl eq_refl eq_refl)
    as [(w1 & Hdo & _) | (err & w1 & Hdo & _)].
  - rewrite Hdo. vm_compute in Hdo. by injection Hdo as <-.
  - vm_compute in Hdo. discriminate Hdo.
Defined.


(** [New().Method("POST").URL(url)] is [Post(url)]. *)
Lemma New_then_Method_URL_is_Method_witness :
  (rb ← New; chain [CallMethod "POST"; CallURL "http://api.test/upload"] rb)
    (mkWorld ∅ Sample.disk [] None false 0 [])
  = Returned 1%nat (Sample.world upload).
Proof.
  destruct (New_then_Method_URL_is_Method "POST" "http://api.test/upload"
              (mkWorld ∅ Sample.disk [] None false 0 [])) as [-> _].
  reflexivity.
Defined.

(** [Body(hi).IsJSON()] against [IsJSON().Body(hi)]. *)
Lemma IsJSON_and_Body_do_not_commute_witness :
  heap (Sample.world upload) !! 1%nat = Some upload
  ∧ (∃ b1, chain [CallBody Sample.hi; CallIsJSON] 1%nat (Sample.world upload)
           = Returned 1%nat (Sample.world b1)
           ∧ activeMode b1 = JSON)
  ∧ (∃ b2, chain [CallIsJSON; CallBody Sample.hi] 1%nat (Sample.world upload)
           = Returned 1%nat (Sample.world b2)
           ∧ activeMode b2 = Raw).
Proof.
  split; [reflexivity|].
  destruct (IsJSON_and_Body_do_not_commute 1%nat upload (Sample.world upload)
              Sample.hi eq_refl)
    as [(b1 & Hrun1 & _ & Hmode1) (b2 & Hrun2 & _ & Hmode2)].
  split.
  - exists b1. split; [|exact Hmode1]. rewrite Hrun1. reflexivity.
  - exists b2. split; [|exact Hmode2]. rewrite Hrun2. reflexivity.
Defined.

(** A request with a deadline and a trace. *)
Lemma Do_request_carries_context_and_trace_witness :
  let b :=
    set_trace (Some Sample.handshake)
      (set_ctx (Some Sample.deadline) upload) in
  heap (Sample.world b) !! 1%nat = Some b
  ∧ match Do 1%nat [] (Sample.world b) with
    | Returned out w' =>
        ∃ c req,
          sent w' = [(c, req)]
          ∧ req_method req = "POST"
          ∧ req_ctx req
            = Some (httptrace_WithClientTrace Sample.deadline
                      Sample.handshake)
    | Panicked _ _ => False
    end.
Proof.
  cbn zeta.
  set (b := set_trace (Some Sample.handshake)
              (set_ctx (Some Sample.deadline) upload)).
  split; [reflexivity|].
  destruct (Do 1%nat [] (Sample.world b)) as [out w'|v w'] eqn:Hdo.
  - pose proof (Do_request_carries_context_and_trace 1%nat b (Sample.world b)
                  w' [] out) as Hreq.
    specialize (λ c req, Hreq c req eq_refl Hdo).
    vm_compute in Hdo. injection Hdo as <- <-.
    eexists _, _. split; [reflexivity|].
    destruct (Hreq _ _ eq_refl) as (Hmethod & c0 & [= <-] & Hctx).
    split; [exact Hmethod|exact Hctx].
  - vm_compute in Hdo. discriminate Hdo.
Defined.

End builder_examples.
